(** * Fleet-management backend: approval workflow, request listing,
      request deletion and fuel cost derivation.

    Shallow embedding of [app/models.py], [app/oauth2.py],
    [app/routers/approval.py], [app/routers/request.py] and
    [app/routers/fuel.py].  Tables are lists of rows, a handler is a
    computation over a database session that can raise, and the
    session is committed only where the source calls [db.commit()]. *)

From Stdlib Require Import ZArith String Ascii.
From stdpp Require Import base option list sorting strings.

Local Open Scope string_scope.
Local Open Scope Z_scope.
Local Open Scope list_scope.

(** ** Strings *)

(** [str.lower()] on ASCII text: the letters A to Z are folded and
    every other character is kept.  Every literal the handlers compare
    against is plain lower-case ASCII; a statement that decides
    whether two folded names are equal where neither is such a literal
    assumes [isascii] of both. *)
Definition ascii_lower (c : ascii) : ascii :=
  let n := N_of_ascii c in
  if ((65 <=? n) && (n <=? 90))%N then ascii_of_N (n + 32) else c.

Fixpoint lower (s : string) : string :=
  match s with
  | EmptyString => EmptyString
  | String c s' => String (ascii_lower c) (lower s')
  end.

(** [str.isascii()] *)
Fixpoint isascii (s : string) : bool :=
  match s with
  | EmptyString => true
  | String c s' => (N_of_ascii c <? 128)%N && isascii s'
  end.

(** ** app/models.py *)

Module models.

(** [Enum('pending', ..., name='request_status_enum')] *)
Inductive request_status_enum :=
| pending
| approved_by_chef
| approved_by_logistic
| fully_approved
| denied
| in_progress
| completed.

Global Instance request_status_enum_eq_dec : EqDecision request_status_enum.
Proof. solve_decision. Defined.

(** The string stored for each member of the enumeration. *)
Definition status_value (s : request_status_enum) : string :=
  match s with
  | pending => "pending"
  | approved_by_chef => "approved_by_chef"
  | approved_by_logistic => "approved_by_logistic"
  | fully_approved => "fully_approved"
  | denied => "denied"
  | in_progress => "in_progress"
  | completed => "completed"
  end.

Module Role.
Record t := mk { name : string }.
End Role.

Module User.
(** [role] is the relationship attribute: [None] when no role row
    is attached.  [service_id] is read with an [is None] test by
    the handlers, so it is optional here as well. *)
Record t := mk {
  id : Z;
  service_id : option Z;
  role : option Role.t
}.
End User.

Module VehicleRequest.
Record t := mk {
  id : Z;
  purpose : string;
  from_location : string;
  to_location : string;
  roadmap : option string;
  departure_time : Z;
  return_time : Z;
  status : request_status_enum;
  created_at : Z;
  requester_id : option Z;
  vehicle_id : option Z;
  driver_id : option Z
}.

(** [db_request.status = s] *)
Definition set_status (s : request_status_enum) (r : t) : t :=
  mk (id r) (purpose r) (from_location r) (to_location r) (roadmap r)
     (departure_time r) (return_time r) s (created_at r)
     (requester_id r) (vehicle_id r) (driver_id r).
End VehicleRequest.

(** [Enum('pending', 'approved', 'denied', name='approval_status_enum')]:
    the texts the [status] column of [request_approvals] accepts. *)
Definition approval_status_enum : list string :=
  ["pending"; "approved"; "denied"].

Module RequestApproval.
(** [status] holds the lower-cased decision text the handler writes;
    the database accepts a row only when that text is a member of
    [approval_status_enum], which the insert meets at the flush of
    [db.commit()].  The columns [updated_at] and [service_id] are
    never written or read by a handler and are left out. *)
Record t := mk {
  id : Z;
  approval_step : Z;
  status : string;
  comments : option string;
  request_id : Z;
  approver_id : option Z
}.
End RequestApproval.

Module Vehicle.
(** Of a vehicle the handlers modelled here read the key and the
    [status] column, which is nullable. *)
Record t := mk {
  id : Z;
  status : option string
}.
End Vehicle.

Module Trip.
(** Of a trip the fuel router reads the vehicle, the status and the
    nullable [end_time]. *)
Record t := mk {
  id : Z;
  vehicle_id : Z;
  status : string;
  end_time : option Z
}.
End Trip.

End models.
Import models.

(** ** app/database.py *)

(** The relational store: one list of rows per table, in insertion
    order, and the serial counters behind the primary keys. *)
Record Database := mkDatabase {
  user : list User.t;
  vehicle_requests : list VehicleRequest.t;
  vehicle_requests_id_seq : Z;
  request_approvals : list RequestApproval.t;
  request_approvals_id_seq : Z
}.

(** A [Session] ([SessionLocal()], autocommit off): [committed] is what
    the database holds, [working] is the view of the open transaction. *)
Record Session (D : Type) := mkSession {
  committed : D;
  working : D
}.
Arguments mkSession {D} _ _.
Arguments committed {D} _.
Arguments working {D} _.

(** [DataError] is [sqlalchemy.exc.DataError]: the database refused a
    value of a statement. *)
Inductive Exception :=
| HTTPException (status_code : Z)
| AttributeError
| DataError.

Module status.
Definition HTTP_400_BAD_REQUEST : Z := 400.
Definition HTTP_403_FORBIDDEN : Z := 403.
Definition HTTP_404_NOT_FOUND : Z := 404.
Definition HTTP_409_CONFLICT : Z := 409.
End status.

(** Handlers: state passing over the session, with exceptions. *)
Definition M (D A : Type) : Type := Session D → (Exception + A) * Session D.

Global Instance M_ret {D} : MRet (M D) := λ A (a : A) s, (inr a, s).
Global Instance M_bind {D} : MBind (M D) := λ A B (k : A → M D B) (m : M D A) s,
  match m s with
  | (inl e, s') => (inl e, s')
  | (inr a, s') => k a s'
  end.

Definition raise {D A} (e : Exception) : M D A := λ s, (inl e, s).

(** [db.query(...)]: read the transaction's view. *)
Definition query {D A} (q : D → A) : M D A := λ s, (inr (q (working s)), s).

(** [db.add], attribute assignment, bulk update/delete: change the
    transaction's view only. *)
Definition execute {D} (f : D → D) : M D unit :=
  λ s, (inr tt, mkSession (committed s) (f (working s))).

(** [db.commit()] *)
Definition commit {D} : M D unit :=
  λ s, (inr tt, mkSession (working s) (working s)).

(** A flush that the database refuses: the session rolls the
    transaction back, so the pending changes are gone. *)
Definition rollback {D} : M D unit :=
  λ s, (inr tt, mkSession (committed s) (committed s)).

(** [get_db]: open a session on the database, run the handler and close
    the session; closing drops whatever was not committed. *)
Definition get_db {D A} (handler : M D A) (db : D) : (Exception + A) * D :=
  let '(r, s) := handler (mkSession db db) in (r, committed s).

(** [db.query(models.VehicleRequest).filter(models.VehicleRequest.id == request_id).first()] *)
Definition first_request (request_id : Z) (db : Database) : option VehicleRequest.t :=
  head (filter (λ r, VehicleRequest.id r = request_id) (vehicle_requests db)).

(** ** app/oauth2.py *)

Module oauth2.

(** [user.role.name.lower() if user.role and user.role.name else ''] *)
Definition role_checker_role (user : User.t) : string :=
  match User.role user with
  | Some r =>
    if decide (Role.name r = EmptyString) then EmptyString
    else lower (Role.name r)
  | None => EmptyString
  end.

(** [require_role(allowed_roles)], applied to the authenticated
    active user that [get_current_active_user] resolved. *)
Definition require_role (allowed_roles : list string) (user : User.t)
  : M Database User.t :=
  if decide (role_checker_role user ∈ map lower allowed_roles)
  then mret user
  else raise (HTTPException status.HTTP_403_FORBIDDEN).

(** [require_role_for_api(allowed_roles)] and
    [require_role_for_page(allowed_roles)]: the same check behind the
    header and the cookie authentication. *)
Definition require_role_for_api (allowed_roles : list string) (user : User.t)
  : M Database User.t :=
  if decide (role_checker_role user ∈ map lower allowed_roles)
  then mret user
  else raise (HTTPException status.HTTP_403_FORBIDDEN).

Definition require_role_for_page (allowed_roles : list string) (user : User.t)
  : M Database User.t :=
  if decide (role_checker_role user ∈ map lower allowed_roles)
  then mret user
  else raise (HTTPException 403).

Definition require_admin_role_for_api := require_role_for_api ["admin"; "superadmin"].
Definition require_admin_page := require_role_for_page ["admin"; "superadmin"].
Definition require_user_page := require_role_for_page ["user"].
Definition require_driver_page := require_role_for_page ["driver"].
Definition require_chef_page := require_role_for_page ["chef"].
Definition require_logistic_page := require_role_for_page ["logistic"].
Definition require_charoi_page := require_role_for_page ["charoi"].

(** [s.startswith(p)] *)
Fixpoint startswith (p s : string) : bool :=
  match p, s with
  | EmptyString, _ => true
  | String a p', String b s' => bool_decide (a = b) && startswith p' s'
  | String _ _, EmptyString => false
  end.

(** [s.split(" ")]: cut at every single space; two spaces in a row
    give an empty piece. *)
Fixpoint split_space (s : string) : list string :=
  match s with
  | EmptyString => [EmptyString]
  | String c s' =>
    if decide (c = " "%char) then EmptyString :: split_space s'
    else
      match split_space s' with
      | piece :: pieces => String c piece :: pieces
      | [] => [String c EmptyString]
      end
  end.

(** A row of the user table as authentication reads it: the user and
    the [status] column of the account. *)
Record Account := mkAccount {
  account_user : User.t;
  account_status : string
}.

(** [db.query(models.User).filter(models.User.id == user_id).first()] *)
Definition first_account (user_id : Z) (accounts : list Account) : option Account :=
  head (filter (λ a, User.id (account_user a) = user_id) accounts).

Definition HTTP_401_UNAUTHORIZED : Z := 401.
Definition HTTP_307_TEMPORARY_REDIRECT : Z := 307.

(** [not token] for an optional string: absent or empty. *)
Definition not_token (token : option string) : bool :=
  match token with
  | None => true
  | Some t => bool_decide (t = EmptyString)
  end.

Section authentication.

(** [verify_access_token(token, credentials_exception)] decodes the
    token with the JWT library, which is not modelled: it yields the
    [user_id] of the token or raises. *)
Context (verify_access_token : string → Exception → Exception + Z).

(** The tail shared by the three dependencies: verify the token, load
    the user, insist on an active account. *)
Definition authenticate (token : string) (credentials_exception : Exception)
  : M (list Account) User.t :=
  match verify_access_token token credentials_exception with
  | inl e => raise e
  | inr user_id =>
    user ← query (first_account user_id);
    match user with
    | None => raise credentials_exception
    | Some account =>
      if decide (account_status account ≠ "active")
      then raise credentials_exception
      else mret (account_user account)
    end
  end.

Definition get_current_user_from_header (token : option string)
  : M (list Account) User.t :=
  let credentials_exception := HTTPException HTTP_401_UNAUTHORIZED in
  match token with
  | Some t =>
    if not_token token then raise credentials_exception
    else authenticate t credentials_exception
  | None => raise credentials_exception
  end.

(** [cookie] is [request.cookies.get("access_token")]. *)
Definition get_current_user_from_cookie (cookie : option string)
  : M (list Account) User.t :=
  let credentials_exception := HTTPException HTTP_307_TEMPORARY_REDIRECT in
  match cookie with
  | None => raise credentials_exception
  | Some token =>
    let token :=
      if startswith "Bearer " token
      then default EmptyString (split_space token !! 1%nat)
      else token in
    authenticate token credentials_exception
  end.

Definition get_current_active_user (cookie token : option string)
  : M (list Account) User.t :=
  let credentials_exception := HTTPException HTTP_401_UNAUTHORIZED in
  let auth_token :=
    if not_token token then
      match cookie with
      | Some cookie_token =>
        if negb (bool_decide (cookie_token = EmptyString))
           && startswith "Bearer " cookie_token
        then split_space cookie_token !! 1%nat
        else token
      | None => token
      end
    else token in
  match auth_token with
  | Some t =>
    if not_token auth_token then raise credentials_exception
    else authenticate t credentials_exception
  | None => raise credentials_exception
  end.

End authentication.

End oauth2.

(** [current_user.role.name.lower()], with no guard: a user without a
    role raises [AttributeError]. *)
Definition role_name_lower {D} (current_user : User.t) : M D string :=
  match User.role current_user with
  | Some r => mret (lower (Role.name r))
  | None => raise AttributeError
  end.

(** ** app/routers/approval.py *)

Module approval.

(** Modelled from the spec: [schemas.RequestApprovalUpdate]
    (app/schemas.py is not among the sources), the request body
    [{status, comments?}].  The handler lower-cases [status], so it
    is text; the spec names approved and denied as the decisions. *)
Record RequestApprovalUpdate := mkRequestApprovalUpdate {
  status : string;
  comments : option string
}.

(** The response: the request row reloaded with its approvals. *)
Definition VehicleRequestOut : Type := VehicleRequest.t * list RequestApproval.t.

Definition first_approval (request_id approval_step : Z) (db : Database)
  : option RequestApproval.t :=
  head (filter (λ a, RequestApproval.request_id a = request_id
                     ∧ RequestApproval.approval_step a = approval_step)
               (request_approvals db)).

(** Step 2 of the handler: the approval step of a lower-cased role. *)
Definition approval_step_of_role (user_role : string) : Z :=
  if decide (user_role = "chef") then 1
  else if decide (user_role = "logistic") then 2
  else if decide (user_role ∈ ["charoi"; "admin"; "superadmin"]) then 3
  else 0.

(** [db.add(new_approval)]; the key comes from the table's serial. *)
Definition add_approval (a : Z → RequestApproval.t) (db : Database) : Database :=
  mkDatabase (user db) (vehicle_requests db) (vehicle_requests_id_seq db)
             (request_approvals db ++ [a (request_approvals_id_seq db)])
             (request_approvals_id_seq db + 1).

(** [db.commit()] while [new_approval] is pending (the session does
    not flush before): the flush sends the insert, the database
    refuses a [status] text that is no member of [approval_status_enum]
    with [DataError], and nothing is committed. *)
Definition commit_approval (new_approval_status : string) : M Database unit :=
  if decide (new_approval_status ∈ approval_status_enum)
  then commit
  else rollback;; raise DataError.

(** [db_request.status = s] on the row loaded by primary key. *)
Definition set_request_status (request_id : Z) (s : request_status_enum)
    (db : Database) : Database :=
  mkDatabase (user db)
             (map (λ r, if decide (VehicleRequest.id r = request_id)
                        then VehicleRequest.set_status s r else r)
                  (vehicle_requests db))
             (vehicle_requests_id_seq db)
             (request_approvals db) (request_approvals_id_seq db).

(** Step 5 of the handler: the status written for a decision at a
    step, [None] where no branch assigns. *)
Definition new_status (decision : string) (approval_step : Z)
  : option request_status_enum :=
  if decide (decision = "denied") then Some denied
  else if decide (decision = "approved") then
    if decide (approval_step = 1) then Some approved_by_chef
    else if decide (approval_step = 2) then Some approved_by_logistic
    else if decide (approval_step = 3) then Some fully_approved
    else None
  else None.

Definition reload_request (request_id : Z) (db : Database) : option VehicleRequestOut :=
  r ← first_request request_id db;
  Some (r, filter (λ a, RequestApproval.request_id a = VehicleRequest.id r)
                  (request_approvals db)).

Definition submit_approval (request_id : Z) (approval_data : RequestApprovalUpdate)
    (current_user : User.t) : M Database (option VehicleRequestOut) :=
  db_request ← query (first_request request_id);
  match db_request with
  | None => raise (HTTPException status.HTTP_404_NOT_FOUND)
  | Some _ =>
    user_role ← role_name_lower current_user;
    let approval_step := approval_step_of_role user_role in
    if decide (approval_step = 0)
    then raise (HTTPException status.HTTP_403_FORBIDDEN)
    else
      existing_approval ← query (first_approval request_id approval_step);
      match existing_approval with
      | Some _ => raise (HTTPException status.HTTP_409_CONFLICT)
      | None =>
        execute (add_approval (λ id,
          RequestApproval.mk id approval_step (lower (status approval_data))
            (comments approval_data) request_id (Some (User.id current_user))));;
        match new_status (lower (status approval_data)) approval_step with
        | Some s => execute (set_request_status request_id s)
        | None => mret tt
        end;;
        commit_approval (lower (status approval_data));;
        query (reload_request request_id)
      end
  end.

(** The route: the role dependency runs before the handler body. *)
Definition post_approval (request_id : Z) (approval_data : RequestApprovalUpdate)
    (user : User.t) : M Database (option VehicleRequestOut) :=
  current_user ← oauth2.require_role
    ["chef"; "logistic"; "charoi"; "admin"; "superadmin"] user;
  submit_approval request_id approval_data current_user.

End approval.

(** ** app/routers/request.py *)

Module request.

(** Modelled from the spec: [schemas.VehicleRequestCreate]
    (app/schemas.py is not among the sources), the client-supplied
    columns of a request: purpose, route and time window. *)
Record VehicleRequestCreate := mkVehicleRequestCreate {
  purpose : string;
  from_location : string;
  to_location : string;
  roadmap : option string;
  departure_time : Z;
  return_time : Z
}.

(** [db.add(new_request)]: the key comes from the table's serial and
    [created_at] from the database clock ([server_default=func.now()]). *)
Definition add_request (r : Z → VehicleRequest.t) (db : Database) : Database :=
  mkDatabase (user db)
             (vehicle_requests db ++ [r (vehicle_requests_id_seq db)])
             (vehicle_requests_id_seq db + 1)
             (request_approvals db) (request_approvals_id_seq db).

Definition create_request (request_data : VehicleRequestCreate) (now : Z)
    (current_user : User.t) : M Database (option VehicleRequest.t) :=
  new_id ← query vehicle_requests_id_seq;
  execute (add_request (λ id,
    VehicleRequest.mk id (purpose request_data) (from_location request_data)
      (to_location request_data) (roadmap request_data)
      (departure_time request_data) (return_time request_data)
      pending now (Some (User.id current_user)) None None));;
  commit;;
  query (first_request new_id).

(** A [Query] over [models.VehicleRequest]: the rows it selects from a
    database, before ordering and paging. *)
Definition Query : Type := Database → list VehicleRequest.t.

Definition base_query : Query := vehicle_requests.

(** [query.filter(P)] *)
Definition filter_by (P : VehicleRequest.t → Prop) `{∀ r, Decision (P r)}
    (q : Query) : Query :=
  λ db, filter P (q db).

(** [query.join(models.User, VehicleRequest.requester_id == User.id)
          .filter(models.User.service_id == user_service_id)] *)
Definition join_user_in_service (user_service_id : Z) (q : Query) : Query :=
  λ db, filter (λ r, Exists (λ u, VehicleRequest.requester_id r = Some (User.id u)
                                  ∧ User.service_id u = Some user_service_id)
                            (user db))
               (q db).

(** [created_at.desc()]: [a] may come before [b]. *)
Definition created_at_desc : relation VehicleRequest.t :=
  λ a b, (VehicleRequest.created_at b ≤ VehicleRequest.created_at a)%Z.

Global Instance created_at_desc_dec a b : Decision (created_at_desc a b).
Proof. unfold created_at_desc. apply _. Defined.

(** [query.order_by(created_at.desc()).limit(limit).offset(skip).all()]:
    skip [skip] rows, then keep at most [limit].  Both are row counts;
    the database refuses negative ones.  Rows with equal [created_at]
    keep the order the stable sort gives them. *)
Definition all_ordered_paged (limit skip : nat) (q : Query) : Query :=
  λ db, take limit (drop skip (merge_sort created_at_desc (q db))).

Definition get_all_requests (current_user : User.t) (limit skip : nat)
    : M Database (list VehicleRequest.t) :=
  let user_role :=
    match User.role current_user with
    | Some r => lower (Role.name r)
    | None => EmptyString
    end in
  if decide (user_role = "chef") then
    match User.service_id current_user with
    | None => mret []
    | Some user_service_id =>
      query (all_ordered_paged limit skip
               (join_user_in_service user_service_id base_query))
    end
  else if decide (user_role = "logistic") then
    query (all_ordered_paged limit skip
             (filter_by (λ r, VehicleRequest.status r = approved_by_chef) base_query))
  else if decide (user_role = "charoi") then
    query (all_ordered_paged limit skip
             (filter_by (λ r, VehicleRequest.status r = approved_by_logistic) base_query))
  else
    query (all_ordered_paged limit skip base_query).

(** The route: the role dependency runs before the handler body. *)
Definition get_requests (user : User.t) (limit skip : nat)
    : M Database (list VehicleRequest.t) :=
  current_user ← oauth2.require_role
    ["admin"; "superadmin"; "logistic"; "charoi"; "chef"] user;
  get_all_requests current_user limit skip.

(** [request_query.delete(synchronize_session=False)]: the row goes,
    and its approvals with it ([ondelete="CASCADE"]). *)
Definition delete_request_row (id : Z) (db : Database) : Database :=
  mkDatabase (user db)
             (filter (λ r, VehicleRequest.id r ≠ id) (vehicle_requests db))
             (vehicle_requests_id_seq db)
             (filter (λ a, RequestApproval.request_id a ≠ id) (request_approvals db))
             (request_approvals_id_seq db).

Definition delete_request (id : Z) (current_user : User.t) : M Database unit :=
  db_request ← query (first_request id);
  match db_request with
  | None => raise (HTTPException status.HTTP_404_NOT_FOUND)
  | Some db_request =>
    user_role ← role_name_lower current_user;
    let is_admin := bool_decide (user_role ∈ ["admin"; "superadmin"]) in
    let is_owner :=
      bool_decide (VehicleRequest.requester_id db_request = Some (User.id current_user)) in
    let is_pending :=
      bool_decide (lower (status_value (VehicleRequest.status db_request)) = "pending") in
    if is_admin || (is_owner && is_pending)
    then execute (delete_request_row id);; commit
    else raise (HTTPException status.HTTP_403_FORBIDDEN)
  end.

(** [limit] and [skip] are plain [int] query parameters here, with
    no bound declared: the database refuses a negative LIMIT or OFFSET
    when [.all()] runs the query, which raises [DataError]. *)
Definition get_my_requests (current_user : User.t) (limit skip : Z)
    : M Database (list VehicleRequest.t) :=
  if decide (limit < 0 ∨ skip < 0) then raise DataError
  else
    query (all_ordered_paged (Z.to_nat limit) (Z.to_nat skip)
             (filter_by (λ r, VehicleRequest.requester_id r = Some (User.id current_user))
                        base_query)).

(** [db_request.requester]: the user row the foreign key
    [requester_id] points to, if any. *)
Definition requester (db_request : VehicleRequest.t) (db : Database) : option User.t :=
  head (filter (λ u, VehicleRequest.requester_id db_request = Some (User.id u))
               (user db)).

Definition get_request_by_id (id : Z) (current_user : User.t)
    : M Database VehicleRequest.t :=
  db_request ← query (first_request id);
  match db_request with
  | None => raise (HTTPException status.HTTP_404_NOT_FOUND)
  | Some db_request =>
    db_request_requester ← query (requester db_request);
    let user_role := oauth2.role_checker_role current_user in
    let user_service_id := User.service_id current_user in
    let is_privileged_viewer :=
      bool_decide (user_role ∈ ["admin"; "superadmin"; "logistic"; "charoi"]) in
    let is_owner :=
      bool_decide (VehicleRequest.requester_id db_request
                   = Some (User.id current_user)) in
    let is_chef_with_same_service :=
      bool_decide (user_role = "chef")
      && match user_service_id, db_request_requester with
         | Some s, Some u => bool_decide (User.service_id u = Some s)
         | _, _ => false
         end in
    if negb (is_privileged_viewer || is_owner || is_chef_with_same_service)
    then raise (HTTPException status.HTTP_403_FORBIDDEN)
    else mret db_request
  end.

(** [func.lower(cast(models.VehicleRequest.status, String)) == 'pending'],
    counted. *)
Definition get_pending_requests_count : M Database Z :=
  query (λ db,
    Z.of_nat (length
      (filter (λ r, lower (status_value (VehicleRequest.status r)) = "pending")
              (vehicle_requests db)))).

(** The route: the role dependency runs before the handler body. *)
Definition get_count_pending (user : User.t) : M Database Z :=
  oauth2.require_role ["admin"; "superadmin"; "charoi"; "logistic"] user;;
  get_pending_requests_count.

End request.

(** ** app/routers/fuel.py *)

Module fuel.

Section arithmetic.

(** Python floats and the three operations the handlers use on them:
    [a * b], [round(x, 2)] and [x <= 0]. *)
Context {float : Type}.
Context (fmul : float → float → float).
Context (round2 : float → float).
Context (le_zero : float → bool).

(** [models.Fuel] *)
Record Fuel := mkFuel {
  id : Z;
  vehicle_id : Z;
  fuel_type_id : Z;
  quantity : float;
  price_little : float;
  cost : float;
  created_at : Z
}.

(** The tables the fuel handlers touch; of [vehicle] and [fuel_type]
    only the primary keys are consulted. *)
Record FuelDatabase := mkFuelDatabase {
  vehicle : list Z;
  fuel_type : list Z;
  fuel : list Fuel;
  fuel_id_seq : Z
}.

(** Modelled from the spec: [schemas.FuelCreatePayload] (app/schemas.py
    is not among the sources); the fields are those the handler reads. *)
Record FuelCreatePayload := mkFuelCreatePayload {
  create_vehicle_id : Z;
  create_fuel_type_id : Z;
  create_quantity : float;
  create_price_little : float
}.

(** Modelled from the spec: [schemas.FuelUpdatePayload] (app/schemas.py
    is not among the sources), seen through
    [fuel_payload.model_dump(exclude_unset=True)]: one optional entry
    per column that the [setattr] loop can write. *)
Record FuelUpdatePayload := mkFuelUpdatePayload {
  update_vehicle_id : option Z;
  update_fuel_type_id : option Z;
  update_quantity : option float;
  update_price_little : option float;
  update_cost : option float
}.

Definition first_vehicle (vehicle_id : Z) (db : FuelDatabase) : option Z :=
  head (filter (λ v, v = vehicle_id) (vehicle db)).

Definition first_fuel_type (fuel_type_id : Z) (db : FuelDatabase) : option Z :=
  head (filter (λ t, t = fuel_type_id) (fuel_type db)).

Definition first_fuel (fuel_id : Z) (db : FuelDatabase) : option Fuel :=
  head (filter (λ f, id f = fuel_id) (fuel db)).

(** [db.add(db_fuel_record)] *)
Definition add_fuel (f : Z → Fuel) (db : FuelDatabase) : FuelDatabase :=
  mkFuelDatabase (vehicle db) (fuel_type db)
                 (fuel db ++ [f (fuel_id_seq db)]) (fuel_id_seq db + 1).

Definition create_new_fuel_record (fuel_payload : FuelCreatePayload) (now : Z)
    : M FuelDatabase (option Fuel) :=
  vehicle ← query (first_vehicle (create_vehicle_id fuel_payload));
  if decide (vehicle = None) then raise (HTTPException status.HTTP_404_NOT_FOUND)
  else
    fuel_type ← query (first_fuel_type (create_fuel_type_id fuel_payload));
    if decide (fuel_type = None) then raise (HTTPException status.HTTP_404_NOT_FOUND)
    else if le_zero (create_quantity fuel_payload)
    then raise (HTTPException status.HTTP_400_BAD_REQUEST)
    else if le_zero (create_price_little fuel_payload)
    then raise (HTTPException status.HTTP_400_BAD_REQUEST)
    else
      let calculated_cost :=
        round2 (fmul (create_quantity fuel_payload) (create_price_little fuel_payload)) in
      new_id ← query fuel_id_seq;
      execute (add_fuel (λ id,
        mkFuel id (create_vehicle_id fuel_payload) (create_fuel_type_id fuel_payload)
               (create_quantity fuel_payload) (create_price_little fuel_payload)
               calculated_cost now));;
      commit;;
      query (first_fuel new_id).

(** [for key, value in update_data.items(): setattr(db_fuel_record, key, value)] *)
Definition setattr_all (u : FuelUpdatePayload) (f : Fuel) : Fuel :=
  mkFuel (id f)
         (default (vehicle_id f) (update_vehicle_id u))
         (default (fuel_type_id f) (update_fuel_type_id u))
         (default (quantity f) (update_quantity u))
         (default (price_little f) (update_price_little u))
         (default (cost f) (update_cost u))
         (created_at f).

(** [update_data['cost'] = c] *)
Definition set_cost (c : float) (u : FuelUpdatePayload) : FuelUpdatePayload :=
  mkFuelUpdatePayload (update_vehicle_id u) (update_fuel_type_id u)
               (update_quantity u) (update_price_little u) (Some c).

(** The attribute writes reach the row with the record's primary key. *)
Definition store_fuel (f : Fuel) (db : FuelDatabase) : FuelDatabase :=
  mkFuelDatabase (vehicle db) (fuel_type db)
                 (map (λ g, if decide (id g = id f) then f else g) (fuel db))
                 (fuel_id_seq db).

(** The check of a referenced key: looked up only when it is present
    in [update_data] and differs from the stored one. *)
Definition check_reference (new : option Z) (current : Z)
    (lookup : Z → FuelDatabase → option Z) : M FuelDatabase unit :=
  match new with
  | Some k =>
    if decide (k ≠ current) then
      found ← query (lookup k);
      if decide (found = None) then raise (HTTPException status.HTTP_404_NOT_FOUND)
      else mret tt
    else mret tt
  | None => mret tt
  end.

(** [effective_x = update_data["x"]] after the sign check, with the
    recalculation flag. *)
Definition effective (new : option float) (current : float) (flag : bool)
    : M FuelDatabase (float * bool) :=
  match new with
  | Some x =>
    if le_zero x then raise (HTTPException status.HTTP_400_BAD_REQUEST)
    else mret (x, true)
  | None => mret (current, flag)
  end.

Definition update_existing_fuel_record (fuel_id : Z) (update_data : FuelUpdatePayload)
    : M FuelDatabase (option Fuel) :=
  db_fuel_record ← query (first_fuel fuel_id);
  match db_fuel_record with
  | None => raise (HTTPException status.HTTP_404_NOT_FOUND)
  | Some db_fuel_record =>
    check_reference (update_vehicle_id update_data) (vehicle_id db_fuel_record)
                    first_vehicle;;
    check_reference (update_fuel_type_id update_data) (fuel_type_id db_fuel_record)
                    first_fuel_type;;
    '(effective_quantity, recalculate_cost_flag) ←
      effective (update_quantity update_data) (quantity db_fuel_record) false;
    '(effective_price_little, recalculate_cost_flag) ←
      effective (update_price_little update_data) (price_little db_fuel_record)
                recalculate_cost_flag;
    let update_data :=
      if (recalculate_cost_flag : bool)
      then set_cost (round2 (fmul effective_quantity effective_price_little)) update_data
      else update_data in
    execute (store_fuel (setattr_all update_data db_fuel_record));;
    commit;;
    query (first_fuel (id db_fuel_record))
  end.

Definition read_fuel_record_by_id (fuel_id : Z) : M FuelDatabase Fuel :=
  db_fuel_record ← query (first_fuel fuel_id);
  match db_fuel_record with
  | None => raise (HTTPException status.HTTP_404_NOT_FOUND)
  | Some db_fuel_record => mret db_fuel_record
  end.

(** [datetime.combine(d, datetime.min.time())] and
    [datetime.combine(d, datetime.max.time())]: the first and the last
    instant of a day, on the scale of [created_at]. *)
Context (day_start day_end : Z → Z).

(** [desc(models.Fuel.created_at)]: [a] may come before [b]. *)
Definition fuel_created_at_desc : relation Fuel :=
  λ a b, (created_at b ≤ created_at a)%Z.

Global Instance fuel_created_at_desc_dec a b : Decision (fuel_created_at_desc a b).
Proof. unfold fuel_created_at_desc. apply _. Defined.

(** The filters of [read_all_fuel_records]; an absent parameter
    filters nothing. *)
Definition fuel_filters (vehicle_id_filter fuel_type_id_filter : option Z)
    (date_after date_before : option Z) (f : Fuel) : Prop :=
  (∀ v, vehicle_id_filter = Some v → vehicle_id f = v)
  ∧ (∀ t, fuel_type_id_filter = Some t → fuel_type_id f = t)
  ∧ (∀ d, date_after = Some d → day_start d ≤ created_at f)
  ∧ (∀ d, date_before = Some d → created_at f ≤ day_end d).

(** [skip] and [limit] are row counts; the route admits [skip >= 0]
    and [1 <= limit <= 1000]. *)
Definition read_all_fuel_records (skip limit : nat)
    (vehicle_id_filter fuel_type_id_filter : option Z)
    (date_after date_before : option Z) : M FuelDatabase (list Fuel) :=
  let query0 := fuel in
  let query1 :=
    match vehicle_id_filter with
    | Some v => λ db, filter (λ f, vehicle_id f = v) (query0 db)
    | None => query0
    end in
  let query2 :=
    match fuel_type_id_filter with
    | Some t => λ db, filter (λ f, fuel_type_id f = t) (query1 db)
    | None => query1
    end in
  let query3 :=
    match date_after with
    | Some d => λ db, filter (λ f, day_start d ≤ created_at f) (query2 db)
    | None => query2
    end in
  let query4 :=
    match date_before with
    | Some d => λ db, filter (λ f, created_at f ≤ day_end d) (query3 db)
    | None => query3
    end in
  query (λ db, take limit (drop skip (merge_sort fuel_created_at_desc (query4 db)))).

(** [db.delete(db_fuel_record)]: the row with the record's key goes. *)
Definition delete_fuel (f : Fuel) (db : FuelDatabase) : FuelDatabase :=
  mkFuelDatabase (vehicle db) (fuel_type db)
                 (filter (λ g, id g ≠ id f) (fuel db)) (fuel_id_seq db).

Definition delete_existing_fuel_record (fuel_id : Z) : M FuelDatabase unit :=
  db_fuel_record ← query (first_fuel fuel_id);
  match db_fuel_record with
  | None => raise (HTTPException status.HTTP_404_NOT_FOUND)
  | Some db_fuel_record =>
    execute (delete_fuel db_fuel_record);;
    commit
  end.

(** The tables, and of each the columns, that the eligibility check
    reads. *)
Record FleetDatabase := mkFleetDatabase {
  fleet_vehicle : list Vehicle.t;
  fleet_fuel : list Fuel;
  fleet_trip : list Trip.t
}.

(** Modelled from the spec: [schemas.EligibilityResponse]
    (app/schemas.py is not among the sources), the two fields the
    handler fills. *)
Record EligibilityResponse := mkEligibilityResponse {
  eligible : bool;
  message : string
}.

(** [last_fueling_time.strftime('%Y-%m-%d %H:%M')] *)
Context (strftime : Z → string).

(** [models.Trip.end_time > last_fueling_time]: never true of a trip
    without an end time. *)
Definition ended_after (last_fueling_time : Z) (t : Trip.t) : Prop :=
  match Trip.end_time t with
  | Some e => last_fueling_time < e
  | None => False
  end.

Global Instance ended_after_dec last_fueling_time t :
  Decision (ended_after last_fueling_time t).
Proof. unfold ended_after. destruct (Trip.end_time t); apply _. Defined.

(** The text an f-string gives for a nullable string. *)
Definition format_status (s : option string) : string :=
  default "None" s.

Definition check_fuel_eligibility (vehicle_id0 : Z)
    : M FleetDatabase EligibilityResponse :=
  vehicle ← query (λ db, head (filter (λ v, Vehicle.id v = vehicle_id0)
                                      (fleet_vehicle db)));
  match vehicle with
  | None => raise (HTTPException status.HTTP_404_NOT_FOUND)
  | Some vehicle =>
    if decide (Vehicle.status vehicle ≠ Some "available") then
      mret (mkEligibilityResponse false
              ("Vehicle is not eligible for fueling. Its current status is '"
               +:+ format_status (Vehicle.status vehicle) +:+ "'."))
    else
      last_fuel_record ← query (λ db,
        head (merge_sort fuel_created_at_desc
                (filter (λ f, vehicle_id f = vehicle_id0) (fleet_fuel db))));
      match last_fuel_record with
      | Some last_fuel_record =>
        let last_fueling_time := created_at last_fuel_record in
        completed_trip_exists ← query (λ db,
          head (filter (λ t, Trip.vehicle_id t = vehicle_id0
                             ∧ Trip.status t = "Completed"
                             ∧ ended_after last_fueling_time t)
                       (fleet_trip db)));
        match completed_trip_exists with
        | None =>
          mret (mkEligibilityResponse false
                  ("A completed trip is required since the last refueling on "
                   +:+ strftime last_fueling_time))
        | Some _ =>
          mret (mkEligibilityResponse true "Vehicle is eligible for fueling.")
        end
      | None =>
        mret (mkEligibilityResponse true "Vehicle is eligible for fueling.")
      end
  end.

End arithmetic.

Arguments FleetDatabase : clear implicits.
Arguments Fuel : clear implicits.
Arguments FuelDatabase : clear implicits.
Arguments FuelCreatePayload : clear implicits.
Arguments FuelUpdatePayload : clear implicits.

End fuel.

(** ** Observations on a database *)

(** The aggregate status of a request, if the request exists. *)
Definition request_status (request_id : Z) (db : Database) : option request_status_enum :=
  VehicleRequest.status <$> first_request request_id db.

(** The approval rows of a request. *)
Definition approvals_of (request_id : Z) (db : Database) : list RequestApproval.t :=
  filter (λ a, RequestApproval.request_id a = request_id) (request_approvals db).

(** The approval rows of one step of a request. *)
Definition step_rows (request_id approval_step : Z) (db : Database)
  : list RequestApproval.t :=
  filter (λ a, RequestApproval.request_id a = request_id
               ∧ RequestApproval.approval_step a = approval_step)
         (request_approvals db).

Definition one_row_per_step (db : Database) : Prop :=
  ∀ request_id approval_step,
    (length (step_rows request_id approval_step db) ≤ 1)%nat.

(** The role a user acts under: the lower-cased name of the attached
    role, if any. *)
Definition role_of (current_user : User.t) : option string :=
  (λ r, lower (Role.name r)) <$> User.role current_user.

(** The approval step a user acts at: the handler's step 2 applied to
    the user's role. *)
Definition step_of (current_user : User.t) : option Z :=
  approval.approval_step_of_role <$> role_of current_user.

(** The row written by step 4 of [submit_approval]. *)
Definition new_approval (request_id : Z) (approval_data : approval.RequestApprovalUpdate)
    (current_user : User.t) (approval_step id : Z) : RequestApproval.t :=
  RequestApproval.mk id approval_step (lower (approval.status approval_data))
    (approval.comments approval_data) request_id (Some (User.id current_user)).

(** Steps 4 and 5 of [submit_approval] together, as one change. *)
Definition decided (request_id : Z) (approval_data : approval.RequestApprovalUpdate)
    (current_user : User.t) (approval_step : Z) (db : Database) : Database :=
  let db' := approval.add_approval
               (new_approval request_id approval_data current_user approval_step) db in
  match approval.new_status (lower (approval.status approval_data)) approval_step with
  | Some s => approval.set_request_status request_id s db'
  | None => db'
  end.

(** Primary keys come from the serial, and approvals reference
    existing requests (the foreign key of [request_approvals]). *)
Definition keys_below_serial (db : Database) : Prop :=
  Forall (λ r, VehicleRequest.id r < vehicle_requests_id_seq db) (vehicle_requests db).

Definition approvals_reference_requests (db : Database) : Prop :=
  Forall (λ a, Exists (λ r, VehicleRequest.id r = RequestApproval.request_id a)
                      (vehicle_requests db))
         (request_approvals db).

(** The calls that write to the request and approval tables. *)
Inductive api_call :=
| CreateRequest (request_data : request.VehicleRequestCreate) (now : Z)
                (current_user : User.t)
| SubmitApproval (request_id : Z) (approval_data : approval.RequestApprovalUpdate)
                 (current_user : User.t)
| DeleteRequest (id : Z) (current_user : User.t).

(** The database after serving one call, whatever its outcome. *)
Definition serve (c : api_call) (db : Database) : Database :=
  match c with
  | CreateRequest request_data now current_user =>
    (get_db (request.create_request request_data now current_user) db).2
  | SubmitApproval request_id approval_data current_user =>
    (get_db (approval.submit_approval request_id approval_data current_user) db).2
  | DeleteRequest id current_user =>
    (get_db (request.delete_request id current_user) db).2
  end.

Definition serve_all (cs : list api_call) (db : Database) : Database :=
  foldl (λ db c, serve c db) db cs.

(** The rows a role may list, in the words of the specification. *)
Definition visible_to (current_user : User.t) (db : Database)
    (r : VehicleRequest.t) : Prop :=
  match User.role current_user with
  | None => False
  | Some role =>
    let user_role := lower (Role.name role) in
    if decide (user_role = "admin" ∨ user_role = "superadmin") then True
    else if decide (user_role = "chef") then
      match User.service_id current_user with
      | None => False
      | Some s =>
        Exists (λ u, VehicleRequest.requester_id r = Some (User.id u)
                     ∧ User.service_id u = Some s)
               (user db)
      end
    else if decide (user_role = "logistic") then
      VehicleRequest.status r = approved_by_chef
    else if decide (user_role = "charoi") then
      VehicleRequest.status r = approved_by_logistic
    else False
  end.

Global Instance visible_to_dec current_user db r :
  Decision (visible_to current_user db r).
Proof. unfold visible_to. repeat case_match; apply _. Defined.

(** ** Sample data *)

Definition sample_user (id : Z) (service_id : option Z) (role : string) : User.t :=
  User.mk id service_id (Some (Role.mk role)).

Definition sample_request (id : Z) (s : request_status_enum) (created_at : Z)
    (requester_id : option Z) : VehicleRequest.t :=
  VehicleRequest.mk id "mission" "depot" "site" None 10 20 s created_at
                    requester_id None None.

Definition requester : User.t := sample_user 1 (Some 7) "user".
Definition chef : User.t := sample_user 2 (Some 7) "Chef".
Definition logistic : User.t := sample_user 3 (Some 8) "logistic".
Definition charoi : User.t := sample_user 4 (Some 8) "charoi".
Definition admin : User.t := sample_user 5 None "ADMIN".

Definition approve : approval.RequestApprovalUpdate :=
  approval.mkRequestApprovalUpdate "approved" (Some "ok").
Definition deny : approval.RequestApprovalUpdate :=
  approval.mkRequestApprovalUpdate "Denied" None.

Definition sample_db : Database :=
  mkDatabase [requester; chef; logistic; charoi; admin]
             [sample_request 1 pending 100 (Some 1)] 2 [] 1.

Definition sample_create : request.VehicleRequestCreate :=
  request.mkVehicleRequestCreate "mission" "depot" "site" None 10 20.

Definition two_requests_db : Database :=
  mkDatabase [requester; chef; logistic; charoi; admin]
             [sample_request 1 pending 100 (Some 1);
              sample_request 2 approved_by_chef 200 (Some 1)] 3 [] 1.

(** One request more than the default page size of the listing route. *)
Definition many_requests_db : Database :=
  mkDatabase [admin] ((λ i, sample_request i pending i None) <$> seqZ 1 101) 102 [] 1.

(** The request of [sample_db] once the chef has denied it. *)
Definition denied_db : Database :=
  (get_db (approval.submit_approval 1 deny chef) sample_db).2.

(** Fuel samples over whole amounts, on which rounding to two places
    is the identity. *)
Definition sample_le_zero (x : Z) : bool := bool_decide (x ≤ 0).

Definition sample_fuel_db : fuel.FuelDatabase Z :=
  fuel.mkFuelDatabase [1; 2] [1] [fuel.mkFuel 1 1 1 40 15 600 50] 2.

Definition sample_fuel_create : fuel.FuelCreatePayload Z :=
  fuel.mkFuelCreatePayload 2 1 30 2.

(** An update that sets the quantity and tries to set the cost. *)
Definition sample_fuel_update : fuel.FuelUpdatePayload Z :=
  fuel.mkFuelUpdatePayload None None (Some 50) None (Some 1).

(** ** Further observations and samples *)

(** Steps recorded are 1, 2 or 3. *)
Definition steps_in_range (db : Database) : Prop :=
  Forall (λ a, RequestApproval.approval_step a = 1
               ∨ RequestApproval.approval_step a = 2
               ∨ RequestApproval.approval_step a = 3)
         (request_approvals db).

(** No space occurs in the text. *)
Fixpoint spaceless (s : string) : Prop :=
  match s with
  | EmptyString => True
  | String c s' => c ≠ " "%char ∧ spaceless s'
  end.

(** [value=f"Bearer {access_token}"]: the cookie that [login] of
    app/routers/auth.py sets. *)
Definition login_cookie (access_token : string) : string :=
  "Bearer " +:+ access_token.

(** The keys of the fuel table come from its serial. *)
Definition fuel_keys_below_serial {float} (db : fuel.FuelDatabase float) : Prop :=
  Forall (λ f, fuel.id f < fuel.fuel_id_seq db) (fuel.fuel db).

(** The keys of the request table. *)
Definition request_ids (db : Database) : list Z :=
  VehicleRequest.id <$> vehicle_requests db.

(** What the schema promises of the request and approval tables: the
    primary key of a request is unique and was drawn from the serial,
    and every approval references an existing request. *)
Definition well_formed (db : Database) : Prop :=
  NoDup (request_ids db)
  ∧ Forall (λ k, k < vehicle_requests_id_seq db) (request_ids db)
  ∧ Forall (λ a, RequestApproval.request_id a ∈ request_ids db) (request_approvals db).

(** A token check for the samples: one token is good and belongs to
    user 2, every other is refused with the exception handed in. *)
Definition sample_verify (token : string) (credentials_exception : Exception)
  : Exception + Z :=
  if decide (token = "abc.def.ghi") then inr 2 else inl credentials_exception.

Definition sample_accounts : list oauth2.Account :=
  [oauth2.mkAccount requester "active";
   oauth2.mkAccount chef "active";
   oauth2.mkAccount logistic "pending"].

(** Vehicle 1 is available, was refuelled at 50 and completed a trip
    at 70; vehicle 2 is in maintenance. *)
Definition sample_fleet_db : fuel.FleetDatabase Z :=
  fuel.mkFleetDatabase
    [Vehicle.mk 1 (Some "available"); Vehicle.mk 2 (Some "maintenance")]
    [fuel.mkFuel 1 1 1 40 15 600 50]
    [Trip.mk 1 1 "Completed" (Some 70)].

(** A stand-in for the clock formatting of the eligibility message. *)
Definition sample_strftime (t : Z) : string := "then".

(** * Properties *)

(** Unfold the plumbing of a handler down to pairs of result and
    session. *)
Ltac run_handler :=
  unfold mbind, M_bind, mret, M_ret, query, raise, execute, commit, rollback.

(** ** The approval handler, case by case *)

Lemma submit_approval_cases request_id approval_data current_user s :
  approval.submit_approval request_id approval_data current_user s =
  match first_request request_id (working s) with
  | None => (inl (HTTPException 404), s)
  | Some _ =>
    match User.role current_user with
    | None => (inl AttributeError, s)
    | Some r =>
      let approval_step := approval.approval_step_of_role (lower (Role.name r)) in
      if decide (approval_step = 0) then (inl (HTTPException 403), s)
      else
        match approval.first_approval request_id approval_step (working s) with
        | Some _ => (inl (HTTPException 409), s)
        | None =>
          if decide (lower (approval.status approval_data) ∈ approval_status_enum)
          then
            let db' := decided request_id approval_data current_user approval_step
                               (working s) in
            (inr (approval.reload_request request_id db'), mkSession db' db')
          else (inl DataError, mkSession (committed s) (committed s))
        end
    end
  end.
Proof.
  unfold approval.submit_approval, approval.commit_approval, role_name_lower,
    decided, new_approval.
  run_handler.
  destruct (first_request request_id (working s)); [|reflexivity].
  destruct (User.role current_user) as [r|]; [|reflexivity].
  cbn zeta.
  destruct (decide (approval.approval_step_of_role (lower (Role.name r)) = 0));
    [reflexivity|].
  destruct (approval.first_approval request_id _ (working s)); [reflexivity|].
  cbn.
  destruct (approval.new_status _ _), (decide (_ ∈ approval_status_enum));
    reflexivity.
Qed.

Lemma submit_approval_db request_id approval_data current_user db :
  get_db (approval.submit_approval request_id approval_data current_user) db =
  match first_request request_id db with
  | None => (inl (HTTPException 404), db)
  | Some _ =>
    match User.role current_user with
    | None => (inl AttributeError, db)
    | Some r =>
      let approval_step := approval.approval_step_of_role (lower (Role.name r)) in
      if decide (approval_step = 0) then (inl (HTTPException 403), db)
      else
        match approval.first_approval request_id approval_step db with
        | Some _ => (inl (HTTPException 409), db)
        | None =>
          if decide (lower (approval.status approval_data) ∈ approval_status_enum)
          then
            let db' := decided request_id approval_data current_user approval_step db in
            (inr (approval.reload_request request_id db'), db')
          else (inl DataError, db)
        end
    end
  end.
Proof.
  unfold get_db. rewrite submit_approval_cases. cbn [working].
  destruct (first_request request_id db); [|reflexivity].
  destruct (User.role current_user) as [r|]; [|reflexivity].
  cbn zeta. destruct (decide (_ = 0)); [reflexivity|].
  destruct (approval.first_approval _ _ db); [reflexivity|].
  destruct (decide (_ ∈ approval_status_enum)); reflexivity.
Qed.

(** ** What a recorded decision changes *)

Lemma first_request_set_status request_id s db :
  first_request request_id (approval.set_request_status request_id s db) =
  VehicleRequest.set_status s <$> first_request request_id db.
Proof.
  unfold first_request, approval.set_request_status. cbn.
  induction (vehicle_requests db) as [|r rs IH]; [reflexivity|].
  cbn [map]. destruct (decide (VehicleRequest.id r = request_id)) as [Hr|Hr].
  - rewrite !filter_cons_True by (destruct r; assumption). reflexivity.
  - rewrite !filter_cons_False by assumption. exact IH.
Qed.

Lemma decided_request_approvals request_id approval_data current_user approval_step db :
  request_approvals (decided request_id approval_data current_user approval_step db) =
  request_approvals db ++
    [new_approval request_id approval_data current_user approval_step
                  (request_approvals_id_seq db)].
Proof. unfold decided. destruct (approval.new_status _ _); reflexivity. Qed.

Lemma decided_request_status request_id approval_data current_user approval_step db s :
  approval.new_status (lower (approval.status approval_data)) approval_step = Some s →
  is_Some (first_request request_id db) →
  request_status request_id
    (decided request_id approval_data current_user approval_step db) = Some s.
Proof.
  intros Hs [r Hr]. unfold request_status, decided. rewrite Hs.
  rewrite first_request_set_status.
  change (first_request request_id (approval.add_approval _ db))
    with (first_request request_id db).
  rewrite Hr. reflexivity.
Qed.

Lemma decided_step_rows request_id approval_data current_user approval_step db rid st :
  step_rows rid st (decided request_id approval_data current_user approval_step db) =
  step_rows rid st db ++
    (if decide (request_id = rid ∧ approval_step = st)
     then [new_approval request_id approval_data current_user approval_step
                        (request_approvals_id_seq db)]
     else []).
Proof.
  unfold step_rows. rewrite decided_request_approvals, filter_app. f_equal.
Qed.

Lemma decided_approvals_of request_id approval_data current_user approval_step db :
  approvals_of request_id
    (decided request_id approval_data current_user approval_step db) =
  approvals_of request_id db ++
    [new_approval request_id approval_data current_user approval_step
                  (request_approvals_id_seq db)].
Proof.
  unfold approvals_of. rewrite decided_request_approvals, filter_app. f_equal.
  rewrite filter_cons_True by reflexivity. reflexivity.
Qed.

Lemma first_approval_step_rows request_id approval_step db :
  approval.first_approval request_id approval_step db =
  head (step_rows request_id approval_step db).
Proof. reflexivity. Qed.

Lemma first_approval_None request_id approval_step db :
  approval.first_approval request_id approval_step db = None ↔
  step_rows request_id approval_step db = [].
Proof.
  rewrite first_approval_step_rows.
  destruct (step_rows request_id approval_step db); cbn; split; congruence.
Qed.

Lemma submit_approval_by_step request_id approval_data current_user db approval_step :
  step_of current_user = Some approval_step →
  get_db (approval.submit_approval request_id approval_data current_user) db =
  match first_request request_id db with
  | None => (inl (HTTPException 404), db)
  | Some _ =>
    if decide (approval_step = 0) then (inl (HTTPException 403), db)
    else
      match step_rows request_id approval_step db with
      | _ :: _ => (inl (HTTPException 409), db)
      | [] =>
        if decide (lower (approval.status approval_data) ∈ approval_status_enum)
        then
          let db' := decided request_id approval_data current_user approval_step db in
          (inr (approval.reload_request request_id db'), db')
        else (inl DataError, db)
      end
  end.
Proof.
  unfold step_of, role_of. intros Hstep. rewrite submit_approval_db.
  destruct (first_request request_id db); [|reflexivity].
  destruct (User.role current_user) as [r|]; [|discriminate].
  cbn in Hstep. injection Hstep as Hstep. cbn zeta. rewrite Hstep.
  destruct (decide (approval_step = 0)); [reflexivity|].
  rewrite first_approval_step_rows.
  destruct (step_rows request_id approval_step db); reflexivity.
Qed.

Lemma submit_approval_success request_id approval_data current_user db out db' :
  get_db (approval.submit_approval request_id approval_data current_user) db
  = (inr out, db') →
  ∃ approval_step,
    step_of current_user = Some approval_step ∧ approval_step ≠ 0
    ∧ is_Some (first_request request_id db)
    ∧ step_rows request_id approval_step db = []
    ∧ db' = decided request_id approval_data current_user approval_step db
    ∧ out = approval.reload_request request_id db'.
Proof.
  intros Hrun. destruct (step_of current_user) as [st|] eqn:Hstep.
  - rewrite (submit_approval_by_step _ _ _ _ st Hstep) in Hrun.
    destruct (first_request request_id db) as [r|]; [|discriminate].
    destruct (decide (st = 0)); [discriminate|].
    destruct (step_rows request_id st db) eqn:Hrows; [|discriminate].
    destruct (decide (_ ∈ approval_status_enum)); [|discriminate].
    cbn zeta in Hrun. injection Hrun as <- <-.
    exists st. rewrite Hrows. eauto 10.
  - rewrite submit_approval_db in Hrun. unfold step_of, role_of in Hstep.
    destruct (first_request request_id db); [|discriminate].
    destruct (User.role current_user); discriminate.
Qed.

(** Only a decision that the [status] column accepts is recorded. *)
Lemma submit_approval_success_enum request_id approval_data current_user db out db' :
  get_db (approval.submit_approval request_id approval_data current_user) db
  = (inr out, db') →
  lower (approval.status approval_data) ∈ approval_status_enum.
Proof.
  rewrite submit_approval_db.
  destruct (first_request request_id db); [|discriminate].
  destruct (User.role current_user); [|discriminate].
  cbn zeta. destruct (decide (_ = 0)); [discriminate|].
  destruct (approval.first_approval _ _ db); [discriminate|].
  destruct (decide (_ ∈ approval_status_enum)); [auto|discriminate].
Qed.

(** A call that raises leaves the database as it was. *)
Lemma submit_approval_raises request_id approval_data current_user db e db' :
  get_db (approval.submit_approval request_id approval_data current_user) db
  = (inl e, db') →
  db' = db.
Proof.
  rewrite submit_approval_db.
  destruct (first_request request_id db); [|congruence].
  destruct (User.role current_user); [|congruence].
  cbn zeta. destruct (decide (_ = 0)); [congruence|].
  destruct (approval.first_approval _ _ db); [congruence|].
  destruct (decide (_ ∈ approval_status_enum)); [discriminate|congruence].
Qed.

Lemma approval_status_enum_approved decision :
  decision = "approved" ∨ decision = "denied" → decision ∈ approval_status_enum.
Proof.
  unfold approval_status_enum. rewrite !elem_of_cons. tauto.
Qed.

Lemma approval_status_enum_pending : "pending" ∈ approval_status_enum.
Proof. unfold approval_status_enum. rewrite !elem_of_cons. tauto. Qed.

Lemma first_request_decided request_id approval_data current_user approval_step db :
  is_Some (first_request request_id db) →
  is_Some (first_request request_id
             (decided request_id approval_data current_user approval_step db)).
Proof.
  intros [r Hr]. unfold decided. destruct (approval.new_status _ _).
  - rewrite first_request_set_status.
    change (first_request request_id (approval.add_approval _ db))
      with (first_request request_id db).
    rewrite Hr. eauto.
  - change (first_request request_id (approval.add_approval _ db))
      with (first_request request_id db).
    rewrite Hr. eauto.
Qed.

(** ** One row per step is an invariant *)

Lemma decided_one_row_per_step request_id approval_data current_user approval_step db :
  approval.first_approval request_id approval_step db = None →
  one_row_per_step db →
  one_row_per_step (decided request_id approval_data current_user approval_step db).
Proof.
  intros Hnone Hinv rid st. rewrite decided_step_rows.
  destruct (decide (request_id = rid ∧ approval_step = st)) as [[<- <-]|_].
  - apply first_approval_None in Hnone. rewrite Hnone. cbn. lia.
  - rewrite app_nil_r. apply Hinv.
Qed.

Lemma submit_approval_one_row_per_step request_id approval_data current_user db :
  one_row_per_step db →
  one_row_per_step
    (get_db (approval.submit_approval request_id approval_data current_user) db).2.
Proof.
  intros Hinv. rewrite submit_approval_db.
  destruct (first_request request_id db); [|exact Hinv].
  destruct (User.role current_user) as [r|]; [|exact Hinv].
  cbn zeta. destruct (decide (_ = 0)); [exact Hinv|].
  destruct (approval.first_approval _ _ db) eqn:Hfirst; [exact Hinv|].
  destruct (decide (_ ∈ approval_status_enum)); [|exact Hinv].
  cbn. apply decided_one_row_per_step; assumption.
Qed.

(** ** The request handlers, case by case *)

Lemma create_request_db request_data now current_user db :
  get_db (request.create_request request_data now current_user) db =
  let db' := request.add_request (λ id,
    VehicleRequest.mk id (request.purpose request_data)
      (request.from_location request_data) (request.to_location request_data)
      (request.roadmap request_data) (request.departure_time request_data)
      (request.return_time request_data)
      pending now (Some (User.id current_user)) None None) db in
  (inr (first_request (vehicle_requests_id_seq db) db'), db').
Proof. reflexivity. Qed.

Lemma delete_request_db id current_user db :
  get_db (request.delete_request id current_user) db =
  match first_request id db with
  | None => (inl (HTTPException 404), db)
  | Some db_request =>
    match User.role current_user with
    | None => (inl AttributeError, db)
    | Some r =>
      if bool_decide (lower (Role.name r) ∈ ["admin"; "superadmin"])
         || (bool_decide (VehicleRequest.requester_id db_request
                          = Some (User.id current_user))
             && bool_decide (lower (status_value (VehicleRequest.status db_request))
                             = "pending"))
      then (inr tt, request.delete_request_row id db)
      else (inl (HTTPException 403), db)
    end
  end.
Proof.
  unfold get_db, request.delete_request, role_name_lower.
  run_handler. cbn.
  destruct (first_request id db); [|reflexivity].
  destruct (User.role current_user) as [r|]; [|reflexivity].
  destruct (_ || _); reflexivity.
Qed.

Lemma length_filter_filter {A} (P Q : A → Prop)
    `{∀ x, Decision (P x)} `{∀ x, Decision (Q x)} (l : list A) :
  (length (filter P (filter Q l)) ≤ length (filter P l))%nat.
Proof.
  induction l as [|x l IH]; [reflexivity|].
  destruct (decide (Q x)) as [Hq|Hq].
  - rewrite (filter_cons_True Q) by assumption.
    destruct (decide (P x)) as [Hp|Hp].
    + rewrite !(filter_cons_True P) by assumption. cbn. lia.
    + rewrite !(filter_cons_False P) by assumption. exact IH.
  - rewrite (filter_cons_False Q) by assumption.
    destruct (decide (P x)) as [Hp|Hp].
    + rewrite (filter_cons_True P) by assumption. cbn. lia.
    + rewrite (filter_cons_False P) by assumption. exact IH.
Qed.

Lemma delete_request_row_one_row_per_step id db :
  one_row_per_step db → one_row_per_step (request.delete_request_row id db).
Proof.
  intros Hinv rid st. specialize (Hinv rid st).
  unfold step_rows in *. cbn.
  etransitivity; [apply length_filter_filter|exact Hinv].
Qed.

Lemma serve_one_row_per_step c db :
  one_row_per_step db → one_row_per_step (serve c db).
Proof.
  intros Hinv. destruct c as [d now u|rid d u|id u]; cbn [serve].
  - rewrite create_request_db. exact Hinv.
  - apply submit_approval_one_row_per_step, Hinv.
  - rewrite delete_request_db.
    destruct (first_request id db); [|exact Hinv].
    destruct (User.role u); [|exact Hinv].
    destruct (_ || _); [|exact Hinv].
    apply delete_request_row_one_row_per_step, Hinv.
Qed.

Lemma serve_all_one_row_per_step cs db :
  one_row_per_step db → one_row_per_step (serve_all cs db).
Proof.
  revert db. induction cs as [|c cs IH]; intros db Hinv; [exact Hinv|].
  cbn. apply IH, serve_one_row_per_step, Hinv.
Qed.

(** ** Claims about the approval workflow *)

(** C1.  At most one approval row exists per request and step: the
    property holds of a database without approval rows and is kept by
    every sequence of create, submit-decision and delete calls.
    A submit-decision call for a step that already has a row fails with
    409 Conflict and leaves the whole database, so the recorded
    decision and the request status, as it was, whoever calls and
    whatever the decision. *)
Theorem submit_approval_step_decided_once :
  (∀ db, request_approvals db = [] → one_row_per_step db)
  ∧ (∀ cs db, one_row_per_step db → one_row_per_step (serve_all cs db))
  ∧ (∀ db request_id approval_data current_user approval_step,
       step_of current_user = Some approval_step →
       approval_step ≠ 0 →
       is_Some (first_request request_id db) →
       step_rows request_id approval_step db ≠ [] →
       get_db (approval.submit_approval request_id approval_data current_user) db
       = (inl (HTTPException status.HTTP_409_CONFLICT), db))
  ∧ (∀ db request_id first_data first_user out db1 second_data second_user,
       get_db (approval.submit_approval request_id first_data first_user) db
       = (inr out, db1) →
       is_Some (step_of second_user) →
       step_of second_user = step_of first_user →
       get_db (approval.submit_approval request_id second_data second_user) db1
       = (inl (HTTPException status.HTTP_409_CONFLICT), db1)
       ∧ request_status request_id
           (get_db (approval.submit_approval request_id second_data second_user) db1).2
         = request_status request_id db1
       ∧ approvals_of request_id
           (get_db (approval.submit_approval request_id second_data second_user) db1).2
         = approvals_of request_id db1).
Proof.
  assert (Hconflict : ∀ db request_id approval_data current_user approval_step,
       step_of current_user = Some approval_step →
       approval_step ≠ 0 →
       is_Some (first_request request_id db) →
       step_rows request_id approval_step db ≠ [] →
       get_db (approval.submit_approval request_id approval_data current_user) db
       = (inl (HTTPException status.HTTP_409_CONFLICT), db)).
  { intros db request_id approval_data current_user approval_step Hstep Hne [r Hr] Hrows.
    rewrite (submit_approval_by_step _ _ _ _ _ Hstep), Hr.
    destruct (decide (approval_step = 0)); [contradiction|].
    destruct (step_rows request_id approval_step db); [contradiction|reflexivity]. }
  split; [|split; [|split]].
  - intros db Hempty rid st. unfold step_rows. rewrite Hempty. cbn. lia.
  - intros cs db. apply serve_all_one_row_per_step.
  - exact Hconflict.
  - intros db request_id first_data first_user out db1 second_data second_user
      Hfirst [st Hst] Hsame.
    assert (get_db (approval.submit_approval request_id second_data second_user) db1
            = (inl (HTTPException status.HTTP_409_CONFLICT), db1)) as Hsecond.
    { apply submit_approval_success in Hfirst
        as (st' & Hst' & Hne & Hreq & Hrows & -> & _).
      assert (st' = st) as -> by congruence.
      apply (Hconflict _ _ _ _ st); [exact Hst|assumption| |].
      - apply first_request_decided, Hreq.
      - rewrite decided_step_rows.
        rewrite decide_True by (split; reflexivity).
        intros Happ. apply app_eq_nil in Happ as [_ Happ]. discriminate. }
    rewrite Hsecond. auto.
Qed.

Lemma new_status_of_valid decision approval_step :
  decision = "approved" ∨ decision = "denied" →
  approval_step = 1 ∨ approval_step = 2 ∨ approval_step = 3 →
  ∃ s, approval.new_status decision approval_step = Some s.
Proof.
  intros [-> | ->] [-> | [-> | ->]]; cbn; eauto.
Qed.

Lemma approval_step_of_role_range user_role :
  approval.approval_step_of_role user_role = 0
  ∨ approval.approval_step_of_role user_role = 1
  ∨ approval.approval_step_of_role user_role = 2
  ∨ approval.approval_step_of_role user_role = 3.
Proof.
  unfold approval.approval_step_of_role.
  repeat case_decide; auto.
Qed.

Lemma step_of_range current_user approval_step :
  step_of current_user = Some approval_step → approval_step ≠ 0 →
  approval_step = 1 ∨ approval_step = 2 ∨ approval_step = 3.
Proof.
  unfold step_of. destruct (role_of current_user) as [r|]; [|discriminate].
  cbn. intros [= <-] Hne.
  destruct (approval_step_of_role_range r) as [H|H]; [contradiction|exact H].
Qed.

Lemma decided_without_status request_id approval_data current_user approval_step db :
  approval.new_status (lower (approval.status approval_data)) approval_step = None →
  decided request_id approval_data current_user approval_step db
  = approval.add_approval
      (new_approval request_id approval_data current_user approval_step) db.
Proof. intros Hs. unfold decided. rewrite Hs. reflexivity. Qed.

Lemma new_status_pending approval_step :
  approval.new_status "pending" approval_step = None.
Proof. reflexivity. Qed.


Lemma step_rows_approvals_of request_id approval_step db :
  approvals_of request_id db = [] → step_rows request_id approval_step db = [].
Proof.
  unfold approvals_of, step_rows.
  induction (request_approvals db) as [|a l IH]; [reflexivity|].
  destruct (decide (RequestApproval.request_id a = request_id)) as [Ha|Ha].
  - rewrite filter_cons_True by assumption. discriminate.
  - rewrite filter_cons_False by assumption.
    rewrite filter_cons_False by (intros [? _]; contradiction). exact IH.
Qed.

Lemma submit_approval_records request_id approval_data current_user db approval_step :
  step_of current_user = Some approval_step →
  approval_step ≠ 0 →
  is_Some (first_request request_id db) →
  step_rows request_id approval_step db = [] →
  lower (approval.status approval_data) ∈ approval_status_enum →
  let db' := decided request_id approval_data current_user approval_step db in
  get_db (approval.submit_approval request_id approval_data current_user) db
  = (inr (approval.reload_request request_id db'), db').
Proof.
  intros Hstep Hne [r Hr] Hrows Henum.
  rewrite (submit_approval_by_step _ _ _ _ _ Hstep), Hr, Hrows.
  destruct (decide (approval_step = 0)); [contradiction|].
  rewrite decide_True by exact Henum. reflexivity.
Qed.

(** A decision that the [status] column refuses is not recorded. *)
Lemma submit_approval_refused request_id approval_data current_user db approval_step :
  step_of current_user = Some approval_step →
  approval_step ≠ 0 →
  is_Some (first_request request_id db) →
  step_rows request_id approval_step db = [] →
  lower (approval.status approval_data) ∉ approval_status_enum →
  get_db (approval.submit_approval request_id approval_data current_user) db
  = (inl DataError, db).
Proof.
  intros Hstep Hne [r Hr] Hrows Henum.
  rewrite (submit_approval_by_step _ _ _ _ _ Hstep), Hr, Hrows.
  destruct (decide (approval_step = 0)); [contradiction|].
  rewrite decide_False by exact Henum. reflexivity.
Qed.

(** A fresh key: no row of the table carries the next serial value. *)
Lemma first_request_fresh db :
  keys_below_serial db →
  filter (λ r, VehicleRequest.id r = vehicle_requests_id_seq db) (vehicle_requests db)
  = [].
Proof.
  unfold keys_below_serial. induction 1 as [|r l Hr _ IH]; [reflexivity|].
  rewrite filter_cons_False by lia. exact IH.
Qed.

Lemma approvals_of_fresh db :
  keys_below_serial db → approvals_reference_requests db →
  approvals_of (vehicle_requests_id_seq db) db = [].
Proof.
  unfold keys_below_serial, approvals_reference_requests, approvals_of.
  intros Hkeys. induction 1 as [|a l Ha _ IH]; [reflexivity|].
  rewrite filter_cons_False; [exact IH|].
  apply Exists_exists in Ha as (r & Hin & Heq).
  rewrite Forall_forall in Hkeys. specialize (Hkeys r Hin). lia.
Qed.

Lemma create_request_pending request_data now current_user db :
  keys_below_serial db → approvals_reference_requests db →
  ∃ r db0,
    get_db (request.create_request request_data now current_user) db
    = (inr (Some r), db0)
    ∧ VehicleRequest.id r = vehicle_requests_id_seq db
    ∧ VehicleRequest.status r = pending
    ∧ VehicleRequest.requester_id r = Some (User.id current_user)
    ∧ first_request (VehicleRequest.id r) db0 = Some r
    ∧ approvals_of (VehicleRequest.id r) db0 = [].
Proof.
  intros Hkeys Hfk. rewrite create_request_db. cbn zeta.
  eexists _, _. split.
  - f_equal. f_equal. unfold first_request, request.add_request. cbn.
    rewrite filter_app, (first_request_fresh db Hkeys).
    rewrite filter_cons_True by reflexivity. reflexivity.
  - cbn. repeat split.
    + unfold first_request, request.add_request. cbn.
      rewrite filter_app, (first_request_fresh db Hkeys).
      rewrite filter_cons_True by reflexivity. reflexivity.
    + apply (approvals_of_fresh db Hkeys Hfk).
Qed.

(** C3.  A request created on a database whose keys come from the
    serial and whose approvals reference existing requests starts as
    pending with no approval row; approved decisions by a chef, then a
    logistic, then a charoi, admin or superadmin user all succeed and
    take its status to approved_by_chef, approved_by_logistic and
    fully_approved, leaving one, two and three approval rows. *)
Theorem approval_chain_reaches_fully_approved
    db request_data now requester d1 chef d2 logistic d3 last last_role :
  keys_below_serial db →
  approvals_reference_requests db →
  role_of chef = Some "chef" →
  role_of logistic = Some "logistic" →
  role_of last = Some last_role →
  last_role = "charoi" ∨ last_role = "admin" ∨ last_role = "superadmin" →
  lower (approval.status d1) = "approved" →
  lower (approval.status d2) = "approved" →
  lower (approval.status d3) = "approved" →
  ∃ r db0 out1 db1 out2 db2 out3 db3,
    get_db (request.create_request request_data now requester) db
    = (inr (Some r), db0)
    ∧ request_status (VehicleRequest.id r) db0 = Some pending
    ∧ length (approvals_of (VehicleRequest.id r) db0) = 0%nat
    ∧ get_db (approval.submit_approval (VehicleRequest.id r) d1 chef) db0
      = (inr out1, db1)
    ∧ request_status (VehicleRequest.id r) db1 = Some approved_by_chef
    ∧ length (approvals_of (VehicleRequest.id r) db1) = 1%nat
    ∧ get_db (approval.submit_approval (VehicleRequest.id r) d2 logistic) db1
      = (inr out2, db2)
    ∧ request_status (VehicleRequest.id r) db2 = Some approved_by_logistic
    ∧ length (approvals_of (VehicleRequest.id r) db2) = 2%nat
    ∧ get_db (approval.submit_approval (VehicleRequest.id r) d3 last) db2
      = (inr out3, db3)
    ∧ request_status (VehicleRequest.id r) db3 = Some fully_approved
    ∧ length (approvals_of (VehicleRequest.id r) db3) = 3%nat.
Proof.
  intros Hkeys Hfk Hchef Hlog Hlast Hlast_role Hd1 Hd2 Hd3.
  destruct (create_request_pending request_data now requester db Hkeys Hfk)
    as (r & db0 & Hcreate & _ & Hpending & _ & Hfirst & Hnone).
  set (rid := VehicleRequest.id r) in *.
  assert (step_of chef = Some 1) as Hs1
    by (unfold step_of; rewrite Hchef; reflexivity).
  assert (step_of logistic = Some 2) as Hs2
    by (unfold step_of; rewrite Hlog; reflexivity).
  assert (step_of last = Some 3) as Hs3
    by (unfold step_of; rewrite Hlast;
        destruct Hlast_role as [-> | [-> | ->]]; reflexivity).
  set (db1 := decided rid d1 chef 1 db0).
  set (db2 := decided rid d2 logistic 2 db1).
  set (db3 := decided rid d3 last 3 db2).
  assert (is_Some (first_request rid db0)) as H0 by eauto.
  assert (is_Some (first_request rid db1)) as H1 by apply first_request_decided, H0.
  assert (is_Some (first_request rid db2)) as H2 by apply first_request_decided, H1.
  assert (∀ st, step_rows rid st db0 = []) as R0
    by (intros st; apply step_rows_approvals_of, Hnone).
  assert (step_rows rid 2 db1 = []) as R1.
  { unfold db1. rewrite decided_step_rows, R0.
    rewrite decide_False by (intros [_ ?]; discriminate). reflexivity. }
  assert (step_rows rid 3 db2 = []) as R2.
  { unfold db2, db1. rewrite !decided_step_rows, R0.
    rewrite !decide_False by (intros [_ ?]; discriminate). reflexivity. }
  exists r, db0, (approval.reload_request rid db1), db1,
    (approval.reload_request rid db2), db2, (approval.reload_request rid db3), db3.
  fold rid.
  split; [exact Hcreate|].
  split; [unfold request_status; rewrite Hfirst, <- Hpending; reflexivity|].
  split; [rewrite Hnone; reflexivity|].
  split; [apply submit_approval_records;
            [exact Hs1|discriminate|exact H0|apply R0
            |apply approval_status_enum_approved; auto]|].
  split; [apply decided_request_status; [rewrite Hd1; reflexivity|exact H0]|].
  split; [unfold db1; rewrite decided_approvals_of, Hnone; reflexivity|].
  split; [apply submit_approval_records;
            [exact Hs2|discriminate|exact H1|exact R1
            |apply approval_status_enum_approved; auto]|].
  split; [apply decided_request_status; [rewrite Hd2; reflexivity|exact H1]|].
  split; [unfold db2, db1; rewrite !decided_approvals_of, Hnone; reflexivity|].
  split; [apply submit_approval_records;
            [exact Hs3|discriminate|exact H2|exact R2
            |apply approval_status_enum_approved; auto]|].
  split; [apply decided_request_status; [rewrite Hd3; reflexivity|exact H2]|].
  unfold db3, db2, db1. rewrite !decided_approvals_of, Hnone. reflexivity.
Qed.

Lemma reload_request_decided request_id approval_data current_user approval_step db s :
  approval.new_status (lower (approval.status approval_data)) approval_step = Some s →
  is_Some (first_request request_id db) →
  ∃ r rows,
    approval.reload_request request_id
      (decided request_id approval_data current_user approval_step db) = Some (r, rows)
    ∧ VehicleRequest.status r = s.
Proof.
  intros Hs [r Hr]. unfold approval.reload_request, decided. rewrite Hs.
  rewrite first_request_set_status.
  change (first_request request_id (approval.add_approval _ db))
    with (first_request request_id db).
  rewrite Hr. cbn. eauto.
Qed.

(** C4.  A successful submit-decision call whose decision is denied
    leaves the request with status denied, at whatever step it was made
    and whatever approvals the database already held; the returned
    request shows that status. *)
Theorem denied_decision_sets_status_denied
    db request_id approval_data current_user out db' :
  lower (approval.status approval_data) = "denied" →
  get_db (approval.submit_approval request_id approval_data current_user) db
  = (inr out, db') →
  request_status request_id db' = Some denied
  ∧ ∃ r rows, out = Some (r, rows) ∧ VehicleRequest.status r = denied.
Proof.
  intros Hdenied Hrun.
  apply submit_approval_success in Hrun as (st & Hst & Hne & Hreq & Hrows & -> & ->).
  assert (approval.new_status (lower (approval.status approval_data)) st = Some denied)
    as Hs by (rewrite Hdenied; reflexivity).
  split.
  - apply decided_request_status; assumption.
  - apply reload_request_decided; assumption.
Qed.

Lemma decided_request_status_kept request_id approval_data current_user approval_step db :
  approval.new_status (lower (approval.status approval_data)) approval_step = None →
  request_status request_id
    (decided request_id approval_data current_user approval_step db)
  = request_status request_id db.
Proof. intros Hs. rewrite decided_without_status by exact Hs. reflexivity. Qed.

(** C5, as the code has it.  On a request whose status is denied, a
    submit-decision call by a user with a role fails when the role has
    no step or the step is already decided, and then changes nothing;
    at a step not yet decided a decision text outside
    [approval_status_enum] is refused with [DataError] and changes
    nothing, and a decision of the enumeration succeeds: a denied or
    pending decision keeps the status denied and an approved decision
    replaces it by the approved status of that step. *)
Theorem decision_after_denial
    db request_id approval_data current_user approval_step :
  request_status request_id db = Some denied →
  step_of current_user = Some approval_step →
  (approval_step = 0 ∨ step_rows request_id approval_step db ≠ [] →
   ∃ e, get_db (approval.submit_approval request_id approval_data current_user) db
        = (inl e, db))
  ∧ (approval_step ≠ 0 → step_rows request_id approval_step db = [] →
     (lower (approval.status approval_data) ∉ approval_status_enum →
      get_db (approval.submit_approval request_id approval_data current_user) db
      = (inl DataError, db))
     ∧ (lower (approval.status approval_data) ∈ approval_status_enum →
        ∃ out db',
          get_db (approval.submit_approval request_id approval_data current_user) db
          = (inr out, db')
          ∧ (lower (approval.status approval_data) = "denied"
             ∨ lower (approval.status approval_data) = "pending" →
             request_status request_id db' = Some denied)
          ∧ (lower (approval.status approval_data) = "approved" →
             (approval_step = 1 →
              request_status request_id db' = Some approved_by_chef)
             ∧ (approval_step = 2 →
                request_status request_id db' = Some approved_by_logistic)
             ∧ (approval_step = 3 →
                request_status request_id db' = Some fully_approved)))).
Proof.
  intros Hdenied Hstep.
  assert (is_Some (first_request request_id db)) as Hreq.
  { unfold request_status in Hdenied.
    destruct (first_request request_id db); [eauto|discriminate]. }
  split.
  - intros Hfail. rewrite (submit_approval_by_step _ _ _ _ _ Hstep).
    destruct Hreq as [r ->].
    destruct (decide (approval_step = 0)); [eauto|].
    destruct Hfail as [?|Hrows]; [contradiction|].
    destruct (step_rows request_id approval_step db); [contradiction|eauto].
  - intros Hne Hrows. split.
    + intros Henum. apply (submit_approval_refused _ _ _ _ approval_step); assumption.
    + intros Henum. eexists _, _. split.
      * apply submit_approval_records; eassumption.
      * split.
        -- intros [Hd|Hd].
           ++ apply decided_request_status; [|exact Hreq].
              rewrite Hd. reflexivity.
           ++ rewrite decided_request_status_kept; [exact Hdenied|].
              rewrite Hd. apply new_status_pending.
        -- intros Hd.
           repeat split; intros ->;
             (apply decided_request_status; [rewrite Hd; reflexivity|exact Hreq]).
Qed.

Lemma role_checker_role_of user user_role :
  role_of user = Some user_role → oauth2.role_checker_role user = user_role.
Proof.
  unfold role_of, oauth2.role_checker_role.
  destruct (User.role user) as [r|]; [|discriminate].
  cbn. intros [= <-]. destruct (decide (Role.name r = EmptyString)) as [->|]; reflexivity.
Qed.

Lemma post_approval_db request_id approval_data user db :
  get_db (approval.post_approval request_id approval_data user) db =
  if decide (oauth2.role_checker_role user
             ∈ ["chef"; "logistic"; "charoi"; "admin"; "superadmin"])
  then get_db (approval.submit_approval request_id approval_data user) db
  else (inl (HTTPException 403), db).
Proof.
  unfold get_db, approval.post_approval, oauth2.require_role.
  unfold mbind, M_bind, mret, M_ret, raise.
  change (map lower ["chef"; "logistic"; "charoi"; "admin"; "superadmin"])
    with ["chef"; "logistic"; "charoi"; "admin"; "superadmin"].
  destruct (decide _); reflexivity.
Qed.

Lemma approval_step_of_role_zero user_role :
  approval.approval_step_of_role user_role = 0 ↔
  user_role ∉ ["chef"; "logistic"; "charoi"; "admin"; "superadmin"].
Proof.
  unfold approval.approval_step_of_role.
  rewrite !not_elem_of_cons.
  destruct (decide (user_role = "chef")) as [->|H1];
    [split; [discriminate|intros [? _]; contradiction]|].
  destruct (decide (user_role = "logistic")) as [->|H2];
    [split; [discriminate|intros (_ & ? & _); contradiction]|].
  destruct (decide (user_role ∈ ["charoi"; "admin"; "superadmin"])) as [H3|H3].
  - split; [discriminate|]. intros (_ & _ & H4 & H5 & H6 & _).
    rewrite !elem_of_cons, elem_of_nil in H3. tauto.
  - split; [|reflexivity]. intros _.
    rewrite !not_elem_of_cons in H3. tauto.
Qed.

(** C6.  The approval step comes from the caller's role alone: chef
    gives step 1, logistic step 2, charoi, admin and superadmin step 3.
    On an existing request a caller with any other role gets 403
    Forbidden and the database is unchanged, and a caller with one of
    the five roles has the decision checked under the step of that
    role: 409 when the step has a row, else the decision is recorded
    under that step when its text is of [approval_status_enum] and
    refused with [DataError], the database unchanged, when it is
    not.  A request_id without a row gets 404 NotFound.
    Through the route, whose role dependency runs first, the five
    roles reach the handler and every other role is rejected with
    403. *)
Theorem approval_step_determined_by_role
    db request_id approval_data current_user user_role :
  role_of current_user = Some user_role →
  (user_role = "chef" → step_of current_user = Some 1)
  ∧ (user_role = "logistic" → step_of current_user = Some 2)
  ∧ (user_role = "charoi" ∨ user_role = "admin" ∨ user_role = "superadmin" →
     step_of current_user = Some 3)
  ∧ (first_request request_id db = None →
     get_db (approval.submit_approval request_id approval_data current_user) db
     = (inl (HTTPException status.HTTP_404_NOT_FOUND), db))
  ∧ (is_Some (first_request request_id db) →
     user_role ∉ ["chef"; "logistic"; "charoi"; "admin"; "superadmin"] →
     get_db (approval.submit_approval request_id approval_data current_user) db
     = (inl (HTTPException status.HTTP_403_FORBIDDEN), db))
  ∧ (is_Some (first_request request_id db) →
     user_role ∈ ["chef"; "logistic"; "charoi"; "admin"; "superadmin"] →
     ∃ approval_step,
       step_of current_user = Some approval_step
       ∧ (approval_step = 1 ∨ approval_step = 2 ∨ approval_step = 3)
       ∧ get_db (approval.submit_approval request_id approval_data current_user) db
         = match step_rows request_id approval_step db with
           | [] =>
             if decide (lower (approval.status approval_data) ∈ approval_status_enum)
             then
               let db' :=
                 decided request_id approval_data current_user approval_step db in
               (inr (approval.reload_request request_id db'), db')
             else (inl DataError, db)
           | _ :: _ => (inl (HTTPException status.HTTP_409_CONFLICT), db)
           end
       ∧ request_approvals
           (decided request_id approval_data current_user approval_step db)
         = request_approvals db
           ++ [RequestApproval.mk (request_approvals_id_seq db) approval_step
                 (lower (approval.status approval_data))
                 (approval.comments approval_data) request_id
                 (Some (User.id current_user))])
  ∧ get_db (approval.post_approval request_id approval_data current_user) db
    = if decide (user_role ∈ ["chef"; "logistic"; "charoi"; "admin"; "superadmin"])
      then get_db (approval.submit_approval request_id approval_data current_user) db
      else (inl (HTTPException status.HTTP_403_FORBIDDEN), db).
Proof.
  intros Hrole.
  assert (step_of current_user = Some (approval.approval_step_of_role user_role))
    as Hstep by (unfold step_of; rewrite Hrole; reflexivity).
  split; [intros ->; exact Hstep|].
  split; [intros ->; exact Hstep|].
  split; [intros [-> | [-> | ->]]; exact Hstep|].
  split.
  { intros Hnone. rewrite (submit_approval_by_step _ _ _ _ _ Hstep), Hnone.
    reflexivity. }
  split.
  { intros [r Hr] Hother. apply approval_step_of_role_zero in Hother.
    rewrite (submit_approval_by_step _ _ _ _ _ Hstep), Hr, Hother. reflexivity. }
  split.
  { intros [r Hr] Hin. exists (approval.approval_step_of_role user_role).
    assert (approval.approval_step_of_role user_role ≠ 0) as Hne
      by (rewrite approval_step_of_role_zero; tauto).
    split; [exact Hstep|].
    split; [exact (step_of_range _ _ Hstep Hne)|].
    split.
    - rewrite (submit_approval_by_step _ _ _ _ _ Hstep), Hr.
      destruct (decide _); [contradiction|].
      destruct (step_rows _ _ _); reflexivity.
    - apply decided_request_approvals. }
  rewrite post_approval_db, (role_checker_role_of _ _ Hrole).
  destruct (decide _); reflexivity.
Qed.

(** C7.  No order between steps is enforced.  For a user whose role
    has a step and a request that exists, the call succeeds exactly
    when that same step has no row yet and the decision text is one
    the status column takes (approved, denied or pending in any
    letter case); what is recorded for other steps plays no part.  In
    particular such a decision succeeds when the request has no
    approval row at all, so with no earlier step recorded, and the
    new row is then the only one. *)
Theorem later_step_accepted_without_earlier_steps
    db request_id approval_data current_user approval_step :
  step_of current_user = Some approval_step →
  approval_step ≠ 0 →
  is_Some (first_request request_id db) →
  ((∃ out db',
      get_db (approval.submit_approval request_id approval_data current_user) db
      = (inr out, db'))
   ↔ step_rows request_id approval_step db = []
     ∧ lower (approval.status approval_data) ∈ approval_status_enum)
  ∧ (lower (approval.status approval_data) ∈ approval_status_enum →
     (step_rows request_id approval_step db = [] ↔
      ∃ out db',
        get_db (approval.submit_approval request_id approval_data current_user) db
        = (inr out, db'))
     ∧ (approvals_of request_id db = [] →
        ∃ out db',
          get_db (approval.submit_approval request_id approval_data current_user) db
          = (inr out, db')
          ∧ approvals_of request_id db'
            = [new_approval request_id approval_data current_user approval_step
                            (request_approvals_id_seq db)])).
Proof.
  intros Hstep Hne Hreq.
  assert (∀ out db',
    get_db (approval.submit_approval request_id approval_data current_user) db
    = (inr out, db') → step_rows request_id approval_step db = []) as Hrows_of.
  { intros out db' Hrun.
    apply submit_approval_success in Hrun as (st & Hst & _ & _ & Hrows & _).
    congruence. }
  split; [split|].
  - intros (out & db' & Hrun). split; [exact (Hrows_of _ _ Hrun)|].
    exact (submit_approval_success_enum _ _ _ _ _ _ Hrun).
  - intros [Hrows Henum]. eexists _, _. apply submit_approval_records; eassumption.
  - intros Henum. split; [split|].
    + intros Hrows. eexists _, _. apply submit_approval_records; eassumption.
    + intros (out & db' & Hrun). exact (Hrows_of _ _ Hrun).
    + intros Hnone. eexists _, _. split.
      * apply submit_approval_records; [eassumption..| |exact Henum].
        apply step_rows_approvals_of, Hnone.
      * rewrite decided_approvals_of, Hnone. reflexivity.
Qed.

(** ** Claims about listing and deleting requests *)

Global Instance created_at_desc_total : Total request.created_at_desc.
Proof. intros a b. unfold request.created_at_desc. lia. Qed.

Global Instance created_at_desc_trans : Transitive request.created_at_desc.
Proof. intros a b c. unfold request.created_at_desc. lia. Qed.

Lemma StronglySorted_take_drop {A} (R : relation A) (l : list A) n m :
  StronglySorted R l → StronglySorted R (take n (drop m l)).
Proof.
  intros Hl. rewrite <- (take_drop m l) in Hl.
  apply StronglySorted_app_1_r in Hl.
  rewrite <- (take_drop n (drop m l)) in Hl.
  apply StronglySorted_app_1_l in Hl. exact Hl.
Qed.

Lemma get_all_requests_db current_user limit skip db :
  get_db (request.get_all_requests current_user limit skip) db =
  let user_role :=
    match User.role current_user with
    | Some r => lower (Role.name r)
    | None => EmptyString
    end in
  let page q := (inr (request.all_ordered_paged limit skip q db), db) in
  if decide (user_role = "chef") then
    match User.service_id current_user with
    | None => (inr [], db)
    | Some s => page (request.join_user_in_service s request.base_query)
    end
  else if decide (user_role = "logistic") then
    page (request.filter_by (λ r, VehicleRequest.status r = approved_by_chef)
                            request.base_query)
  else if decide (user_role = "charoi") then
    page (request.filter_by (λ r, VehicleRequest.status r = approved_by_logistic)
                            request.base_query)
  else page request.base_query.
Proof.
  unfold get_db, request.get_all_requests. cbn zeta.
  destruct (decide (_ = "chef"));
    [destruct (User.service_id current_user); reflexivity|].
  destruct (decide (_ = "logistic")); [reflexivity|].
  destruct (decide (_ = "charoi")); reflexivity.
Qed.

Lemma get_requests_db user limit skip db :
  get_db (request.get_requests user limit skip) db =
  if decide (oauth2.role_checker_role user
             ∈ ["admin"; "superadmin"; "logistic"; "charoi"; "chef"])
  then get_db (request.get_all_requests user limit skip) db
  else (inl (HTTPException 403), db).
Proof.
  unfold get_db, request.get_requests, oauth2.require_role.
  unfold mbind, M_bind, mret, M_ret, raise.
  change (map lower ["admin"; "superadmin"; "logistic"; "charoi"; "chef"])
    with ["admin"; "superadmin"; "logistic"; "charoi"; "chef"].
  destruct (decide _); reflexivity.
Qed.

Lemma visible_to_role current_user user_role db r :
  role_of current_user = Some user_role →
  visible_to current_user db r ↔
  if decide (user_role = "admin" ∨ user_role = "superadmin") then True
  else if decide (user_role = "chef") then
    match User.service_id current_user with
    | None => False
    | Some s =>
      Exists (λ u, VehicleRequest.requester_id r = Some (User.id u)
                   ∧ User.service_id u = Some s)
             (user db)
    end
  else if decide (user_role = "logistic") then
    VehicleRequest.status r = approved_by_chef
  else if decide (user_role = "charoi") then
    VehicleRequest.status r = approved_by_logistic
  else False.
Proof.
  unfold role_of, visible_to.
  destruct (User.role current_user) as [role|]; [|discriminate].
  cbn. intros [= <-]. reflexivity.
Qed.

Lemma filter_False {A} (P : A → Prop) `{∀ x, Decision (P x)} (l : list A) :
  (∀ x, ¬ P x) → filter P l = [].
Proof.
  intros Hno. induction l as [|x l IH]; [reflexivity|].
  rewrite filter_cons_False by apply Hno. exact IH.
Qed.

Lemma filter_True {A} (P : A → Prop) `{∀ x, Decision (P x)} (l : list A) :
  (∀ x, P x) → filter P l = l.
Proof.
  intros Hall. induction l as [|x l IH]; [reflexivity|].
  rewrite filter_cons_True by apply Hall. f_equal. exact IH.
Qed.

Lemma visible_to_admin current_user user_role db r :
  role_of current_user = Some user_role →
  user_role = "admin" ∨ user_role = "superadmin" →
  visible_to current_user db r.
Proof.
  intros Hrole Hadmin. rewrite (visible_to_role _ _ _ _ Hrole).
  rewrite decide_True by exact Hadmin. exact I.
Qed.

Lemma visible_to_chef current_user db r :
  role_of current_user = Some "chef" →
  visible_to current_user db r ↔
  match User.service_id current_user with
  | None => False
  | Some s =>
    Exists (λ u, VehicleRequest.requester_id r = Some (User.id u)
                 ∧ User.service_id u = Some s)
           (user db)
  end.
Proof. intros Hrole. rewrite (visible_to_role _ _ _ _ Hrole). reflexivity. Qed.

Lemma visible_to_logistic current_user db r :
  role_of current_user = Some "logistic" →
  visible_to current_user db r ↔ VehicleRequest.status r = approved_by_chef.
Proof. intros Hrole. rewrite (visible_to_role _ _ _ _ Hrole). reflexivity. Qed.

Lemma visible_to_charoi current_user db r :
  role_of current_user = Some "charoi" →
  visible_to current_user db r ↔ VehicleRequest.status r = approved_by_logistic.
Proof. intros Hrole. rewrite (visible_to_role _ _ _ _ Hrole). reflexivity. Qed.

(** The query each role runs selects the rows the role may see. *)
Lemma get_all_requests_visible current_user user_role limit skip db :
  role_of current_user = Some user_role →
  user_role ∈ ["admin"; "superadmin"; "logistic"; "charoi"; "chef"] →
  get_db (request.get_all_requests current_user limit skip) db =
  (inr (take limit (drop skip
          (merge_sort request.created_at_desc
             (filter (visible_to current_user db) (vehicle_requests db))))), db).
Proof.
  intros Hrole Hin. rewrite get_all_requests_db.
  assert (match User.role current_user with
          | Some r => lower (Role.name r)
          | None => EmptyString
          end = user_role) as ->.
  { unfold role_of in Hrole. destruct (User.role current_user); [|discriminate].
    cbn in Hrole. congruence. }
  cbn zeta.
  unfold request.all_ordered_paged, request.filter_by, request.join_user_in_service,
    request.base_query.
  rewrite !elem_of_cons, elem_of_nil in Hin.
  destruct (decide (user_role = "chef")) as [->|Hchef].
  - pose proof (λ r, visible_to_chef current_user db r Hrole) as Hvis.
    destruct (User.service_id current_user) as [s|].
    + do 5 f_equal. apply list_filter_iff. intros r. symmetry. apply Hvis.
    + rewrite (filter_False (visible_to current_user db)) by (intros r; rewrite Hvis; tauto).
      destruct limit, skip; reflexivity.
  - destruct (decide (user_role = "logistic")) as [->|Hlog].
    + do 5 f_equal. apply list_filter_iff. intros r. symmetry.
      apply visible_to_logistic, Hrole.
    + destruct (decide (user_role = "charoi")) as [->|Hcharoi].
      * do 5 f_equal. apply list_filter_iff. intros r. symmetry.
        apply visible_to_charoi, Hrole.
      * rewrite (filter_True (visible_to current_user db)); [reflexivity|].
        intros r. apply (visible_to_admin _ _ _ _ Hrole). tauto.
Qed.

(** C8, as the code has it.  For a caller with one of the five listing
    roles the list-requests route returns the page, [skip] rows
    dropped and then at most [limit] rows kept, of the rows the role
    may see ordered newest-created first: all rows for admin and
    superadmin, the rows whose requester is in the chef's service for a
    chef (none when the chef has no service), the rows with status
    approved_by_chef for logistic and approved_by_logistic for charoi.
    When the page covers all of them the result is exactly those rows. *)
Theorem list_requests_page_of_visible_rows
    db current_user user_role limit skip :
  role_of current_user = Some user_role →
  user_role ∈ ["admin"; "superadmin"; "logistic"; "charoi"; "chef"] →
  ∃ rows,
    get_db (request.get_requests current_user limit skip) db
    = (inr (take limit (drop skip rows)), db)
    ∧ rows ≡ₚ filter (visible_to current_user db) (vehicle_requests db)
    ∧ StronglySorted request.created_at_desc rows
    ∧ StronglySorted request.created_at_desc (take limit (drop skip rows))
    ∧ (skip = 0%nat → (length rows ≤ limit)%nat → take limit (drop skip rows) = rows)
    ∧ (user_role = "admin" ∨ user_role = "superadmin" → rows ≡ₚ vehicle_requests db)
    ∧ (user_role = "chef" →
       match User.service_id current_user with
       | None => rows = []
       | Some s =>
         rows ≡ₚ filter
           (λ r, Exists (λ u, VehicleRequest.requester_id r = Some (User.id u)
                              ∧ User.service_id u = Some s) (user db))
           (vehicle_requests db)
       end)
    ∧ (user_role = "logistic" →
       rows ≡ₚ filter (λ r, VehicleRequest.status r = approved_by_chef)
                      (vehicle_requests db))
    ∧ (user_role = "charoi" →
       rows ≡ₚ filter (λ r, VehicleRequest.status r = approved_by_logistic)
                      (vehicle_requests db)).
Proof.
  intros Hrole Hin.
  set (rows := merge_sort request.created_at_desc
                 (filter (visible_to current_user db) (vehicle_requests db))).
  assert (rows ≡ₚ filter (visible_to current_user db) (vehicle_requests db)) as Hperm
    by apply merge_sort_Permutation.
  assert (StronglySorted request.created_at_desc rows) as Hsorted
    by apply (StronglySorted_merge_sort _).
  exists rows.
  split.
  { rewrite get_requests_db, (role_checker_role_of _ _ Hrole).
    rewrite decide_True by exact Hin.
    apply (get_all_requests_visible _ _ _ _ _ Hrole Hin). }
  split; [exact Hperm|].
  split; [exact Hsorted|].
  split; [apply StronglySorted_take_drop, Hsorted|].
  split; [intros -> Hlen; rewrite drop_0; apply take_ge, Hlen|].
  split.
  { intros Hadmin. rewrite Hperm.
    rewrite (filter_True (visible_to current_user db)); [reflexivity|].
    intros r. apply (visible_to_admin _ _ _ _ Hrole Hadmin). }
  split.
  { intros ->. pose proof (λ r, visible_to_chef current_user db r Hrole) as Hvis.
    destruct (User.service_id current_user) as [s|].
    - rewrite Hperm. erewrite list_filter_iff; [reflexivity|]. exact Hvis.
    - apply Permutation_nil_r. rewrite Hperm.
      rewrite (filter_False (visible_to current_user db)); [reflexivity|].
      intros r. rewrite Hvis. tauto. }
  split.
  { intros ->. rewrite Hperm. erewrite list_filter_iff; [reflexivity|].
    intros r. apply visible_to_logistic, Hrole. }
  intros ->. rewrite Hperm. erewrite list_filter_iff; [reflexivity|].
  intros r. apply visible_to_charoi, Hrole.
Qed.

Lemma status_is_pending s :
  lower (status_value s) = "pending" ↔ s = pending.
Proof. destruct s; split; (reflexivity || discriminate). Qed.

Lemma first_request_deleted id db :
  first_request id (request.delete_request_row id db) = None.
Proof.
  unfold first_request, request.delete_request_row. cbn.
  induction (vehicle_requests db) as [|r l IH]; [reflexivity|].
  destruct (decide (VehicleRequest.id r = id)) as [Hr|Hr].
  - rewrite (filter_cons_False (λ r, VehicleRequest.id r ≠ id)) by tauto. exact IH.
  - rewrite (filter_cons_True (λ r, VehicleRequest.id r ≠ id)) by assumption.
    rewrite filter_cons_False by assumption. exact IH.
Qed.

(** C9.  Deleting an existing request succeeds, and removes the row,
    when the caller's role is admin or superadmin whatever the status,
    or when the caller is the requester and the status is pending;
    every other caller of an existing request gets 403 Forbidden and
    the database is unchanged, so the request stays; an id without a
    row gets 404 NotFound. *)
Theorem delete_request_authorization db id current_user user_role :
  role_of current_user = Some user_role →
  (first_request id db = None →
   get_db (request.delete_request id current_user) db
   = (inl (HTTPException status.HTTP_404_NOT_FOUND), db))
  ∧ (∀ db_request,
       first_request id db = Some db_request →
       let is_admin := user_role = "admin" ∨ user_role = "superadmin" in
       let is_owner :=
         VehicleRequest.requester_id db_request = Some (User.id current_user) in
       let is_pending := VehicleRequest.status db_request = pending in
       (is_admin ∨ (is_owner ∧ is_pending) →
        get_db (request.delete_request id current_user) db
        = (inr tt, request.delete_request_row id db)
        ∧ first_request id (request.delete_request_row id db) = None)
       ∧ (¬ (is_admin ∨ (is_owner ∧ is_pending)) →
          get_db (request.delete_request id current_user) db
          = (inl (HTTPException status.HTTP_403_FORBIDDEN), db)
          ∧ first_request id db = Some db_request)).
Proof.
  intros Hrole. rewrite delete_request_db.
  unfold role_of in Hrole.
  destruct (User.role current_user) as [role|]; [|discriminate].
  cbn in Hrole. injection Hrole as Hrole. rewrite Hrole.
  split.
  - intros ->. reflexivity.
  - intros db_request ->. cbn zeta.
    assert (bool_decide (user_role ∈ ["admin"; "superadmin"])
            || (bool_decide (VehicleRequest.requester_id db_request
                             = Some (User.id current_user))
                && bool_decide (lower (status_value (VehicleRequest.status db_request))
                                = "pending")) = true
            ↔ (user_role = "admin" ∨ user_role = "superadmin")
              ∨ (VehicleRequest.requester_id db_request = Some (User.id current_user)
                 ∧ VehicleRequest.status db_request = pending)) as Hauth.
    { rewrite orb_true_iff, andb_true_iff, !bool_decide_eq_true.
      rewrite status_is_pending, !elem_of_cons, elem_of_nil. tauto. }
    destruct (_ || _).
    + split.
      * intros _. split; [reflexivity|apply first_request_deleted].
      * intros Hno. exfalso. apply Hno, Hauth. reflexivity.
    + split.
      * intros Hyes. apply Hauth in Hyes. discriminate.
      * intros _. split; reflexivity.
Qed.

(** ** Claims about fuel records *)

Section fuel_cost.

Context {float : Type}.
Context (fmul : float → float → float).
Context (round2 : float → float).
Context (le_zero : float → bool).

Lemma create_new_fuel_record_db (fuel_payload : fuel.FuelCreatePayload float) now db :
  get_db (fuel.create_new_fuel_record fmul round2 le_zero fuel_payload now) db =
  if decide (fuel.first_vehicle (fuel.create_vehicle_id fuel_payload) db = None)
  then (inl (HTTPException 404), db)
  else if decide (fuel.first_fuel_type (fuel.create_fuel_type_id fuel_payload) db = None)
  then (inl (HTTPException 404), db)
  else if le_zero (fuel.create_quantity fuel_payload)
  then (inl (HTTPException 400), db)
  else if le_zero (fuel.create_price_little fuel_payload)
  then (inl (HTTPException 400), db)
  else
    let db' := fuel.add_fuel (λ id,
      fuel.mkFuel id (fuel.create_vehicle_id fuel_payload)
        (fuel.create_fuel_type_id fuel_payload)
        (fuel.create_quantity fuel_payload) (fuel.create_price_little fuel_payload)
        (round2 (fmul (fuel.create_quantity fuel_payload)
                      (fuel.create_price_little fuel_payload)))
        now) db in
    (inr (fuel.first_fuel (fuel.fuel_id_seq db) db'), db').
Proof.
  unfold get_db, fuel.create_new_fuel_record.
  run_handler. cbn.
  destruct (decide _); [reflexivity|].
  destruct (decide _); [reflexivity|].
  destruct (le_zero _); [reflexivity|].
  destruct (le_zero _); reflexivity.
Qed.

Lemma check_reference_run new current lookup (s : Session (fuel.FuelDatabase float)) r s' :
  fuel.check_reference new current lookup s = (r, s') → s' = s.
Proof.
  unfold fuel.check_reference, mbind, M_bind, mret, M_ret, query, raise.
  destruct new as [k|]; [|congruence].
  destruct (decide (k ≠ current)); [|congruence].
  destruct (decide _); congruence.
Qed.

Lemma effective_run new current flag (s : Session (fuel.FuelDatabase float)) x flag' s' :
  fuel.effective le_zero new current flag s = (inr (x, flag'), s') →
  s' = s ∧ x = default current new
  ∧ flag' = (if new is Some _ then true else flag).
Proof.
  unfold fuel.effective, mret, M_ret, raise.
  destruct new as [y|]; [|intros [= <- <- <-]; auto].
  destruct (le_zero y); [discriminate|]. intros [= <- <- <-]; auto.
Qed.

Lemma first_fuel_store_fuel (f : fuel.Fuel float) db :
  fuel.first_fuel (fuel.id f) (fuel.store_fuel f db) =
  (λ _, f) <$> fuel.first_fuel (fuel.id f) db.
Proof.
  unfold fuel.first_fuel, fuel.store_fuel. cbn.
  induction (fuel.fuel db) as [|g l IH]; [reflexivity|].
  cbn [map]. destruct (decide (fuel.id g = fuel.id f)) as [Hg|Hg].
  - rewrite !filter_cons_True by (assumption || reflexivity). reflexivity.
  - rewrite !filter_cons_False by assumption. exact IH.
Qed.

Lemma first_fuel_id fuel_id (db : fuel.FuelDatabase float) f :
  fuel.first_fuel fuel_id db = Some f → fuel.id f = fuel_id.
Proof.
  unfold fuel.first_fuel. intros Hf.
  apply head_Some_elem_of, list_elem_of_filter in Hf. tauto.
Qed.

Lemma update_existing_fuel_record_success fuel_id update_data db out db' :
  get_db (fuel.update_existing_fuel_record fmul round2 le_zero fuel_id update_data) db
  = (inr out, db') →
  ∃ db_fuel_record,
    fuel.first_fuel fuel_id db = Some db_fuel_record
    ∧ let effective_quantity :=
        default (fuel.quantity db_fuel_record) (fuel.update_quantity update_data) in
      let effective_price_little :=
        default (fuel.price_little db_fuel_record)
                (fuel.update_price_little update_data) in
      let written :=
        if fuel.update_quantity update_data is Some _ then
          fuel.set_cost (round2 (fmul effective_quantity effective_price_little))
                        update_data
        else if fuel.update_price_little update_data is Some _ then
          fuel.set_cost (round2 (fmul effective_quantity effective_price_little))
                        update_data
        else update_data in
      db' = fuel.store_fuel (fuel.setattr_all written db_fuel_record) db
      ∧ out = fuel.first_fuel (fuel.id db_fuel_record) db'.
Proof.
  unfold get_db, fuel.update_existing_fuel_record.
  unfold mbind at 1, M_bind at 1, query at 1. cbn [working].
  destruct (fuel.first_fuel fuel_id db) as [rec|] eqn:Hrec; [|discriminate].
  unfold mbind at 1, M_bind at 1.
  destruct (fuel.check_reference _ _ fuel.first_vehicle _) as [[e|[]] s1] eqn:H1;
    [discriminate|].
  apply check_reference_run in H1 as ->.
  unfold mbind at 1, M_bind at 1.
  destruct (fuel.check_reference _ _ fuel.first_fuel_type _) as [[e|[]] s2] eqn:H2;
    [discriminate|].
  apply check_reference_run in H2 as ->.
  unfold mbind at 1, M_bind at 1.
  destruct (fuel.effective le_zero (fuel.update_quantity update_data) _ _ _)
    as [[e|[q fq]] s3] eqn:H3; [discriminate|].
  apply effective_run in H3 as (-> & -> & ->).
  unfold mbind at 1, M_bind at 1.
  destruct (fuel.effective le_zero (fuel.update_price_little update_data) _ _ _)
    as [[e|[p fp]] s4] eqn:H4; [discriminate|].
  apply effective_run in H4 as (-> & -> & ->).
  unfold mbind, M_bind, execute, commit, query. cbn.
  intros [= <- <-]. exists rec. split; [reflexivity|].
  destruct (fuel.update_quantity update_data), (fuel.update_price_little update_data);
    split; reflexivity.
Qed.


End fuel_cost.

(** ** Counterexamples to the claims the code does not satisfy *)


(** C5 fails: the chef denies request 1 of [sample_db], which sets its
    status to denied; the logistic user then approves step 2, not yet
    decided, and the status becomes approved_by_logistic. *)
Lemma denied_then_approved_counterexample :
  get_db (approval.submit_approval 1 deny chef) sample_db
  = (inr (approval.reload_request 1 denied_db), denied_db)
  ∧ request_status 1 sample_db = Some pending
  ∧ request_status 1 denied_db = Some denied
  ∧ ∃ out db',
      get_db (approval.submit_approval 1 approve logistic) denied_db = (inr out, db')
      ∧ request_status 1 db' = Some approved_by_logistic
      ∧ request_status 1 db' ≠ Some denied.
Proof.
  split; [reflexivity|]. split; [reflexivity|]. split; [reflexivity|].
  eexists _, _. split; [vm_compute; reflexivity|].
  split; [reflexivity|discriminate].
Qed.

(** C8 fails: with [limit = 1] an admin gets one of the two requests of
    [two_requests_db], not all of them; and with the route's defaults,
    [limit = 100] and [skip = 0], an admin gets 100 of the 101 requests
    of [many_requests_db]. *)
Lemma list_requests_limit_counterexample :
  role_of admin = Some "admin"
  ∧ vehicle_requests two_requests_db
    = [sample_request 1 pending 100 (Some 1);
       sample_request 2 approved_by_chef 200 (Some 1)]
  ∧ get_db (request.get_requests admin 1 0) two_requests_db
    = (inr [sample_request 2 approved_by_chef 200 (Some 1)], two_requests_db)
  ∧ ¬ [sample_request 2 approved_by_chef 200 (Some 1)]
      ≡ₚ vehicle_requests two_requests_db
  ∧ ∃ rows,
      get_db (request.get_requests admin 100 0) many_requests_db
      = (inr rows, many_requests_db)
      ∧ length rows = 100%nat
      ∧ length (vehicle_requests many_requests_db) = 101%nat.
Proof.
  split; [reflexivity|]. split; [reflexivity|]. split; [vm_compute; reflexivity|].
  split.
  - intros Hperm. apply Permutation_length in Hperm. discriminate.
  - eexists. split; [vm_compute; reflexivity|]. split; vm_compute; reflexivity.
Qed.


(** ** The statements on sample data *)

Lemma submit_approval_step_decided_once_witness :
  step_of chef = Some 1
  ∧ step_rows 1 1 denied_db ≠ []
  ∧ get_db (approval.submit_approval 1 approve chef) denied_db
    = (inl (HTTPException status.HTTP_409_CONFLICT), denied_db)
  ∧ one_row_per_step
      (serve_all [SubmitApproval 1 deny chef; SubmitApproval 1 approve chef]
                 sample_db).
Proof.
  split; [reflexivity|]. split; [vm_compute; discriminate|]. split.
  - apply (proj1 (proj2 (proj2 submit_approval_step_decided_once))
             denied_db 1 approve chef 1).
    + reflexivity.
    + discriminate.
    + vm_compute. eauto.
    + vm_compute. discriminate.
  - apply (proj1 (proj2 submit_approval_step_decided_once)).
    apply (proj1 submit_approval_step_decided_once). reflexivity.
Defined.


Lemma approval_chain_reaches_fully_approved_witness :
  keys_below_serial sample_db
  ∧ approvals_reference_requests sample_db
  ∧ ∃ r db0 out1 db1 out2 db2 out3 db3,
      get_db (request.create_request sample_create 300 requester) sample_db
      = (inr (Some r), db0)
      ∧ request_status (VehicleRequest.id r) db0 = Some pending
      ∧ length (approvals_of (VehicleRequest.id r) db0) = 0%nat
      ∧ get_db (approval.submit_approval (VehicleRequest.id r) approve chef) db0
        = (inr out1, db1)
      ∧ request_status (VehicleRequest.id r) db1 = Some approved_by_chef
      ∧ length (approvals_of (VehicleRequest.id r) db1) = 1%nat
      ∧ get_db (approval.submit_approval (VehicleRequest.id r) approve logistic) db1
        = (inr out2, db2)
      ∧ request_status (VehicleRequest.id r) db2 = Some approved_by_logistic
      ∧ length (approvals_of (VehicleRequest.id r) db2) = 2%nat
      ∧ get_db (approval.submit_approval (VehicleRequest.id r) approve admin) db2
        = (inr out3, db3)
      ∧ request_status (VehicleRequest.id r) db3 = Some fully_approved
      ∧ length (approvals_of (VehicleRequest.id r) db3) = 3%nat.
Proof.
  assert (keys_below_serial sample_db) as Hkeys
    by (repeat constructor; cbn; lia).
  assert (approvals_reference_requests sample_db) as Hfk by constructor.
  split; [exact Hkeys|]. split; [exact Hfk|].
  apply (approval_chain_reaches_fully_approved sample_db sample_create 300 requester
           approve chef approve logistic approve admin "admin" Hkeys Hfk);
    try reflexivity.
  right. left. reflexivity.
Defined.

Lemma denied_decision_sets_status_denied_witness :
  lower (approval.status deny) = "denied"
  ∧ get_db (approval.submit_approval 1 deny chef) sample_db
    = (inr (approval.reload_request 1 denied_db), denied_db)
  ∧ request_status 1 denied_db = Some denied.
Proof.
  split; [reflexivity|]. split; [reflexivity|].
  apply (denied_decision_sets_status_denied sample_db 1 deny chef
           (approval.reload_request 1 denied_db) denied_db); reflexivity.
Defined.

Lemma decision_after_denial_witness :
  request_status 1 denied_db = Some denied
  ∧ step_of logistic = Some 2
  ∧ step_rows 1 2 denied_db = []
  ∧ lower (approval.status approve) ∈ approval_status_enum
  ∧ ∃ out db',
      get_db (approval.submit_approval 1 approve logistic) denied_db = (inr out, db')
      ∧ (lower (approval.status approve) = "denied"
         ∨ lower (approval.status approve) = "pending" →
         request_status 1 db' = Some denied)
      ∧ (lower (approval.status approve) = "approved" →
         (2 = 1 → request_status 1 db' = Some approved_by_chef)
         ∧ (2 = 2 → request_status 1 db' = Some approved_by_logistic)
         ∧ (2 = 3 → request_status 1 db' = Some fully_approved)).
Proof.
  assert (lower (approval.status approve) ∈ approval_status_enum) as Henum
    by (apply approval_status_enum_approved; left; reflexivity).
  split; [reflexivity|]. split; [reflexivity|]. split; [reflexivity|].
  split; [exact Henum|].
  apply (proj2 (decision_after_denial denied_db 1 approve logistic 2
                  eq_refl eq_refl)).
  - discriminate.
  - reflexivity.
  - exact Henum.
Defined.

Lemma approval_step_determined_by_role_witness :
  role_of chef = Some "chef"
  ∧ step_of chef = Some 1
  ∧ get_db (approval.submit_approval 9 approve chef) sample_db
    = (inl (HTTPException status.HTTP_404_NOT_FOUND), sample_db)
  ∧ get_db (approval.post_approval 1 approve chef) sample_db
    = get_db (approval.submit_approval 1 approve chef) sample_db.
Proof.
  pose proof (approval_step_determined_by_role sample_db 9 approve chef "chef" eq_refl)
    as (Hchef & _ & _ & Hmissing & _).
  split; [reflexivity|]. split; [exact (Hchef eq_refl)|].
  split; [exact (Hmissing eq_refl)|].
  pose proof (approval_step_determined_by_role sample_db 1 approve chef "chef" eq_refl)
    as (_ & _ & _ & _ & _ & _ & Hroute).
  exact Hroute.
Defined.

Lemma later_step_accepted_without_earlier_steps_witness :
  step_of logistic = Some 2
  ∧ is_Some (first_request 1 sample_db)
  ∧ approvals_of 1 sample_db = []
  ∧ lower (approval.status approve) ∈ approval_status_enum
  ∧ ∃ out db',
      get_db (approval.submit_approval 1 approve logistic) sample_db = (inr out, db')
      ∧ approvals_of 1 db'
        = [new_approval 1 approve logistic 2 (request_approvals_id_seq sample_db)].
Proof.
  assert (is_Some (first_request 1 sample_db)) as Hreq by (vm_compute; eauto).
  assert (lower (approval.status approve) ∈ approval_status_enum) as Henum
    by (apply approval_status_enum_approved; left; reflexivity).
  split; [reflexivity|]. split; [exact Hreq|]. split; [reflexivity|].
  split; [exact Henum|].
  apply (proj2 (later_step_accepted_without_earlier_steps sample_db 1 approve logistic 2
                  eq_refl ltac:(discriminate) Hreq)).
  - exact Henum.
  - reflexivity.
Defined.

Lemma list_requests_page_of_visible_rows_witness :
  role_of logistic = Some "logistic"
  ∧ ∃ rows,
      get_db (request.get_requests logistic 10 0) two_requests_db
      = (inr (take 10 (drop 0 rows)), two_requests_db)
      ∧ rows ≡ₚ filter (visible_to logistic two_requests_db)
                       (vehicle_requests two_requests_db)
      ∧ (0%nat = 0%nat → (length rows ≤ 10)%nat → take 10 (drop 0 rows) = rows)
      ∧ ("logistic" = "logistic" →
         rows ≡ₚ filter (λ r, VehicleRequest.status r = approved_by_chef)
                        (vehicle_requests two_requests_db)).
Proof.
  split; [reflexivity|].
  destruct (list_requests_page_of_visible_rows two_requests_db logistic "logistic" 10 0
              eq_refl) as (rows & Hrun & Hperm & _ & _ & Hall & _ & _ & Hlog & _).
  - rewrite !elem_of_cons. auto.
  - exists rows. auto.
Defined.

Lemma delete_request_authorization_witness :
  role_of requester = Some "user"
  ∧ get_db (request.delete_request 1 requester) sample_db
    = (inr tt, request.delete_request_row 1 sample_db)
  ∧ get_db (request.delete_request 1 requester) denied_db
    = (inl (HTTPException status.HTTP_403_FORBIDDEN), denied_db)
  ∧ get_db (request.delete_request 9 requester) sample_db
    = (inl (HTTPException status.HTTP_404_NOT_FOUND), sample_db).
Proof.
  split; [reflexivity|].
  pose proof (delete_request_authorization sample_db 1 requester "user" eq_refl)
    as [_ Hpending].
  pose proof (delete_request_authorization denied_db 1 requester "user" eq_refl)
    as [_ Hdenied].
  pose proof (delete_request_authorization sample_db 9 requester "user" eq_refl)
    as [Hmissing _].
  split.
  { apply (Hpending (sample_request 1 pending 100 (Some 1)) eq_refl).
    right. split; reflexivity. }
  split.
  { apply (Hdenied (sample_request 1 denied 100 (Some 1)) eq_refl).
    intros [[?|?]|[_ ?]]; discriminate. }
  apply Hmissing. reflexivity.
Defined.


(** * Further properties of the request router *)

Lemma Forall_filter_self {A} (P : A → Prop) `{∀ x, Decision (P x)} (l : list A) :
  Forall P (filter P l).
Proof. apply Forall_forall. intros x Hx. apply list_elem_of_filter in Hx. tauto. Qed.

Lemma length_take_le_limit {A} (l : list A) n : (length (take n l) ≤ n)%nat.
Proof. rewrite length_take. lia. Qed.

Lemma get_my_requests_db current_user limit skip db :
  get_db (request.get_my_requests current_user limit skip) db =
  if decide (limit < 0 ∨ skip < 0) then (inl DataError, db)
  else
    (inr (take (Z.to_nat limit)
            (drop (Z.to_nat skip)
               (merge_sort request.created_at_desc
                  (filter (λ r, VehicleRequest.requester_id r
                                = Some (User.id current_user))
                          (vehicle_requests db))))),
     db).
Proof.
  unfold get_db, request.get_my_requests. destruct (decide _); reflexivity.
Qed.

(** X1.  The my-requests listing needs no role.  With a limit and a
    skip that are not negative it returns the page of the caller's own
    requests, newest-created first: at most [limit] rows, every one of
    them requested by the caller.  With a negative limit or skip the
    database refuses the query and the call raises [DataError].
    Either way the database is left as it was. *)
Theorem get_my_requests_own_rows db current_user limit skip :
  (limit < 0 ∨ skip < 0 →
   get_db (request.get_my_requests current_user limit skip) db
   = (inl DataError, db))
  ∧ (0 ≤ limit → 0 ≤ skip →
     ∃ rows,
       let page := take (Z.to_nat limit) (drop (Z.to_nat skip) rows) in
       get_db (request.get_my_requests current_user limit skip) db
       = (inr page, db)
       ∧ rows ≡ₚ filter (λ r, VehicleRequest.requester_id r
                              = Some (User.id current_user))
                        (vehicle_requests db)
       ∧ StronglySorted request.created_at_desc rows
       ∧ StronglySorted request.created_at_desc page
       ∧ Forall (λ r, VehicleRequest.requester_id r = Some (User.id current_user))
                page
       ∧ Z.of_nat (length page) ≤ limit).
Proof.
  rewrite get_my_requests_db. split.
  - intros Hneg. rewrite decide_True by exact Hneg. reflexivity.
  - intros Hlimit Hskip. rewrite decide_False by lia.
    set (mine := λ r, VehicleRequest.requester_id r = Some (User.id current_user)).
    set (rows := merge_sort request.created_at_desc
                   (filter mine (vehicle_requests db))).
    assert (rows ≡ₚ filter mine (vehicle_requests db)) as Hperm
      by apply merge_sort_Permutation.
    assert (StronglySorted request.created_at_desc rows) as Hsorted
      by apply (StronglySorted_merge_sort _).
    exists rows. cbn zeta. split; [reflexivity|]. split; [exact Hperm|].
    split; [exact Hsorted|].
    split; [apply StronglySorted_take_drop, Hsorted|].
    split.
    + apply Forall_take, Forall_drop. rewrite Hperm. apply Forall_filter_self.
    + pose proof (length_take_le_limit (drop (Z.to_nat skip) rows) (Z.to_nat limit)).
      lia.
Qed.

Lemma get_request_by_id_db id current_user db :
  get_db (request.get_request_by_id id current_user) db =
  match first_request id db with
  | None => (inl (HTTPException 404), db)
  | Some db_request =>
    if bool_decide (oauth2.role_checker_role current_user
                    ∈ ["admin"; "superadmin"; "logistic"; "charoi"])
       || bool_decide (VehicleRequest.requester_id db_request
                       = Some (User.id current_user))
       || (bool_decide (oauth2.role_checker_role current_user = "chef")
           && match User.service_id current_user, request.requester db_request db with
              | Some s, Some u => bool_decide (User.service_id u = Some s)
              | _, _ => false
              end)
    then (inr db_request, db)
    else (inl (HTTPException 403), db)
  end.
Proof.
  unfold get_db, request.get_request_by_id. run_handler. cbn.
  destruct (first_request id db); [|reflexivity].
  destruct (_ || _ || _); reflexivity.
Qed.

Lemma get_request_by_id_allowed db id current_user db_request :
  first_request id db = Some db_request →
  let allowed :=
    oauth2.role_checker_role current_user
    ∈ ["admin"; "superadmin"; "logistic"; "charoi"]
    ∨ VehicleRequest.requester_id db_request = Some (User.id current_user)
    ∨ (oauth2.role_checker_role current_user = "chef"
       ∧ ∃ s u, User.service_id current_user = Some s
                ∧ request.requester db_request db = Some u
                ∧ User.service_id u = Some s) in
  (allowed →
   get_db (request.get_request_by_id id current_user) db = (inr db_request, db))
  ∧ (¬ allowed →
     get_db (request.get_request_by_id id current_user) db
     = (inl (HTTPException 403), db)).
Proof.
  rewrite get_request_by_id_db. intros ->. cbn zeta.
  set (b := _ || _ || _).
  assert (b = true ↔
          oauth2.role_checker_role current_user
          ∈ ["admin"; "superadmin"; "logistic"; "charoi"]
          ∨ VehicleRequest.requester_id db_request = Some (User.id current_user)
          ∨ (oauth2.role_checker_role current_user = "chef"
             ∧ ∃ s u, User.service_id current_user = Some s
                      ∧ request.requester db_request db = Some u
                      ∧ User.service_id u = Some s)) as Hb.
  { unfold b. rewrite !orb_true_iff, andb_true_iff, !bool_decide_eq_true.
    assert (match User.service_id current_user, request.requester db_request db with
            | Some s, Some u => bool_decide (User.service_id u = Some s)
            | _, _ => false
            end = true
            ↔ ∃ s u, User.service_id current_user = Some s
                     ∧ request.requester db_request db = Some u
                     ∧ User.service_id u = Some s) as ->.
    { destruct (User.service_id current_user) as [s|],
        (request.requester db_request db) as [u|]; split.
      - intros H. apply bool_decide_eq_true in H. eauto.
      - intros (s' & u' & [= <-] & [= <-] & H). apply bool_decide_eq_true. exact H.
      - discriminate.
      - intros (? & ? & _ & ? & _). discriminate.
      - discriminate.
      - intros (? & ? & ? & _). discriminate.
      - discriminate.
      - intros (? & ? & ? & _). discriminate. }
    tauto. }
  destruct b.
  - split; [reflexivity|]. intros Hno. exfalso. apply Hno, Hb. reflexivity.
  - split; [intros Hyes; apply Hb in Hyes; discriminate|reflexivity].
Qed.

(** X2.  Fetching one request: an id without a row gives 404; for an
    existing request the caller gets the row exactly when the caller's
    role is admin, superadmin, logistic or charoi, or the caller is the
    requester, or the caller is a chef whose service is that of the
    requester; every other caller gets 403.  The requester always
    gets the row, even without any role.  The database is never
    changed. *)
Theorem get_request_by_id_authorization db id current_user :
  (first_request id db = None →
   get_db (request.get_request_by_id id current_user) db
   = (inl (HTTPException status.HTTP_404_NOT_FOUND), db))
  ∧ (∀ db_request,
       first_request id db = Some db_request →
       let privileged :=
         oauth2.role_checker_role current_user
         ∈ ["admin"; "superadmin"; "logistic"; "charoi"] in
       let owner :=
         VehicleRequest.requester_id db_request = Some (User.id current_user) in
       let same_service_chef :=
         oauth2.role_checker_role current_user = "chef"
         ∧ ∃ s u, User.service_id current_user = Some s
                  ∧ request.requester db_request db = Some u
                  ∧ User.service_id u = Some s in
       (privileged ∨ owner ∨ same_service_chef →
        get_db (request.get_request_by_id id current_user) db = (inr db_request, db))
       ∧ (¬ (privileged ∨ owner ∨ same_service_chef) →
          get_db (request.get_request_by_id id current_user) db
          = (inl (HTTPException status.HTTP_403_FORBIDDEN), db))
       ∧ (owner →
          get_db (request.get_request_by_id id current_user) db = (inr db_request, db))).
Proof.
  split; [rewrite get_request_by_id_db; intros ->; reflexivity|].
  intros db_request Hfound. cbn zeta.
  pose proof (get_request_by_id_allowed db id current_user db_request Hfound)
    as [Hyes Hno].
  split; [exact Hyes|]. split; [exact Hno|]. intros Howner. apply Hyes. auto.
Qed.

Lemma head_filter_key {A} (key : A → Z) (l : list A) x :
  NoDup (key <$> l) → x ∈ l →
  head (filter (λ y, key y = key x) l) = Some x.
Proof.
  induction l as [|y l IH]; intros Hnd Hin; [apply elem_of_nil in Hin; contradiction|].
  rewrite fmap_cons in Hnd. apply NoDup_cons in Hnd as [Hy Hnd].
  apply elem_of_cons in Hin as [->|Hin].
  - rewrite filter_cons_True by reflexivity. reflexivity.
  - rewrite filter_cons_False; [apply IH; assumption|].
    intros Heq. apply Hy. rewrite Heq. apply list_elem_of_fmap_2, Hin.
Qed.

Lemma first_request_of_row db r :
  NoDup (VehicleRequest.id <$> vehicle_requests db) →
  r ∈ vehicle_requests db →
  first_request (VehicleRequest.id r) db = Some r.
Proof. intros Hnd Hin. apply (head_filter_key VehicleRequest.id); assumption. Qed.

Lemma requester_of_row db r u :
  NoDup (User.id <$> user db) →
  u ∈ user db →
  VehicleRequest.requester_id r = Some (User.id u) →
  request.requester r db = Some u.
Proof.
  intros Hnd Hin Hr. unfold request.requester.
  rewrite <- (head_filter_key User.id (user db) u Hnd Hin).
  f_equal. apply list_filter_iff. intros v. rewrite Hr. split; congruence.
Qed.

Lemma get_requests_success user limit skip db rows db' :
  get_db (request.get_requests user limit skip) db = (inr rows, db') →
  ∃ user_role,
    role_of user = Some user_role
    ∧ oauth2.role_checker_role user = user_role
    ∧ user_role ∈ ["admin"; "superadmin"; "logistic"; "charoi"; "chef"]
    ∧ db' = db
    ∧ rows = take limit (drop skip
               (merge_sort request.created_at_desc
                  (filter (visible_to user db) (vehicle_requests db)))).
Proof.
  rewrite get_requests_db. destruct (decide _) as [Hin|]; [|discriminate].
  destruct (User.role user) as [role|] eqn:Hrole.
  - assert (role_of user = Some (lower (Role.name role))) as Hrole_of
      by (unfold role_of; rewrite Hrole; reflexivity).
    rewrite (role_checker_role_of _ _ Hrole_of) in Hin.
    rewrite (get_all_requests_visible _ _ _ _ _ Hrole_of Hin).
    intros [= <- <-]. exists (lower (Role.name role)).
    split; [exact Hrole_of|]. split; [apply role_checker_role_of, Hrole_of|]. auto.
  - exfalso. unfold oauth2.role_checker_role in Hin. rewrite Hrole in Hin.
    rewrite !elem_of_cons, elem_of_nil in Hin.
    destruct Hin as [?|[?|[?|[?|[?|[]]]]]]; discriminate.
Qed.

(** X3.  Listing and fetching agree: when request and user keys are
    unique, every request that the role-filtered listing returns to a
    caller can be fetched by its id by the same caller, and the fetch
    returns that same row. *)
Theorem listed_request_can_be_fetched db current_user limit skip rows db' r :
  NoDup (VehicleRequest.id <$> vehicle_requests db) →
  NoDup (User.id <$> user db) →
  get_db (request.get_requests current_user limit skip) db = (inr rows, db') →
  r ∈ rows →
  get_db (request.get_request_by_id (VehicleRequest.id r) current_user) db
  = (inr r, db).
Proof.
  intros Hreqs Husers Hrun Hin.
  apply get_requests_success in Hrun
    as (user_role & Hrole & Hchecker & Hallowed & -> & ->).
  apply subseteq_take, subseteq_drop in Hin.
  rewrite merge_sort_Permutation in Hin.
  apply list_elem_of_filter in Hin as [Hvisible Hin].
  pose proof (get_request_by_id_allowed db (VehicleRequest.id r) current_user r
                (first_request_of_row db r Hreqs Hin)) as [Hyes _].
  apply Hyes. clear Hyes. rewrite Hchecker.
  rewrite (visible_to_role _ _ _ _ Hrole) in Hvisible.
  rewrite !elem_of_cons, elem_of_nil in Hallowed.
  rewrite !elem_of_cons, elem_of_nil.
  destruct (decide (user_role = "admin" ∨ user_role = "superadmin")) as [Ha|Ha];
    [tauto|].
  destruct (decide (user_role = "chef")) as [Hchef|Hchef].
  - right. right. split; [exact Hchef|].
    destruct (User.service_id current_user) as [s|]; [|contradiction].
    apply Exists_exists in Hvisible as (u & Hu & Hreq & Hservice).
    exists s, u. split; [reflexivity|]. split; [|exact Hservice].
    apply requester_of_row; assumption.
  - left. tauto.
Qed.

(** The number the pending-count handler reports. *)
Lemma get_pending_requests_count_db db :
  get_db request.get_pending_requests_count db =
  (inr (Z.of_nat (length
          (filter (λ r, lower (status_value (VehicleRequest.status r)) = "pending")
                  (vehicle_requests db)))), db).
Proof. reflexivity. Qed.

(** X4.  Creating a request raises the pending count by exactly one,
    whatever the database held before. *)
Theorem create_request_adds_one_pending db request_data now current_user :
  ∃ n out db',
    get_db request.get_pending_requests_count db = (inr n, db)
    ∧ get_db (request.create_request request_data now current_user) db = (inr out, db')
    ∧ get_db request.get_pending_requests_count db' = (inr (n + 1), db').
Proof.
  eexists _, _, _. split; [apply get_pending_requests_count_db|].
  split; [apply create_request_db|].
  rewrite get_pending_requests_count_db. cbn zeta. f_equal. f_equal.
  unfold request.add_request. cbn [vehicle_requests].
  rewrite filter_app, filter_cons_True by reflexivity.
  rewrite length_app. cbn. lia.
Qed.

Lemma set_status_other_rows request_id s (l : list VehicleRequest.t) :
  request_id ∉ VehicleRequest.id <$> l →
  map (λ r, if decide (VehicleRequest.id r = request_id)
            then VehicleRequest.set_status s r else r) l = l.
Proof.
  induction l as [|x l IH]; intros Hnot; [reflexivity|].
  rewrite fmap_cons in Hnot. apply not_elem_of_cons in Hnot as [Hx Hl].
  cbn [map]. rewrite decide_False by congruence. f_equal. apply IH, Hl.
Qed.

Lemma pending_after_set_status request_id s (l : list VehicleRequest.t) :
  NoDup (VehicleRequest.id <$> l) →
  VehicleRequest.status <$> head (filter (λ r, VehicleRequest.id r = request_id) l)
  = Some pending →
  s ≠ pending →
  (length (filter (λ r, lower (status_value (VehicleRequest.status r)) = "pending")
             (map (λ r, if decide (VehicleRequest.id r = request_id)
                        then VehicleRequest.set_status s r else r) l)) + 1)%nat
  = length (filter (λ r, lower (status_value (VehicleRequest.status r)) = "pending") l).
Proof.
  intros Hnd Hfirst Hs. induction l as [|x l IH]; [discriminate|].
  rewrite fmap_cons in Hnd. apply NoDup_cons in Hnd as [Hx Hnd].
  cbn [map]. destruct (decide (VehicleRequest.id x = request_id)) as [Hid|Hid].
  - rewrite filter_cons_True in Hfirst by exact Hid. cbn in Hfirst.
    injection Hfirst as Hpending.
    rewrite Hid in Hx.
    rewrite (set_status_other_rows request_id s l Hx).
    rewrite filter_cons_False.
    + rewrite filter_cons_True by (rewrite Hpending; reflexivity). cbn. lia.
    + cbn. rewrite status_is_pending. exact Hs.
  - rewrite filter_cons_False in Hfirst by exact Hid.
    specialize (IH Hnd Hfirst).
    destruct (decide (lower (status_value (VehicleRequest.status x)) = "pending")).
    + rewrite !filter_cons_True by assumption. cbn. lia.
    + rewrite !filter_cons_False by assumption. exact IH.
Qed.

(** X5.  With unique request keys, a successful approved or denied
    decision on a request whose status is pending lowers the pending
    count by exactly one. *)
Theorem decision_on_pending_request_lowers_count
    db request_id approval_data current_user out db' :
  NoDup (VehicleRequest.id <$> vehicle_requests db) →
  request_status request_id db = Some pending →
  lower (approval.status approval_data) = "approved"
  ∨ lower (approval.status approval_data) = "denied" →
  get_db (approval.submit_approval request_id approval_data current_user) db
  = (inr out, db') →
  ∃ n,
    get_db request.get_pending_requests_count db = (inr (n + 1), db)
    ∧ get_db request.get_pending_requests_count db' = (inr n, db').
Proof.
  intros Hnd Hpending Hvalid Hrun.
  apply submit_approval_success in Hrun as (st & Hst & Hne & _ & _ & -> & _).
  destruct (new_status_of_valid _ st Hvalid (step_of_range _ _ Hst Hne)) as [s Hs].
  assert (s ≠ pending) as Hnot.
  { unfold approval.new_status in Hs.
    repeat case_decide; try discriminate; injection Hs as <-; discriminate. }
  rewrite !get_pending_requests_count_db. eexists. split; [|reflexivity].
  f_equal. f_equal. unfold decided. rewrite Hs. cbn [vehicle_requests
    approval.set_request_status approval.add_approval].
  rewrite <- (pending_after_set_status request_id s (vehicle_requests db) Hnd Hpending Hnot).
  lia.
Qed.

(** * Further properties of the approval router *)

Lemma first_request_set_status_other request_id other s db :
  other ≠ request_id →
  first_request other (approval.set_request_status request_id s db)
  = first_request other db.
Proof.
  intros Hother. unfold first_request, approval.set_request_status. cbn.
  induction (vehicle_requests db) as [|r rs IH]; [reflexivity|].
  cbn [map]. destruct (decide (VehicleRequest.id r = request_id)) as [Hr|Hr].
  - rewrite !filter_cons_False; [exact IH|congruence|].
    destruct r; cbn in *; congruence.
  - destruct (decide (VehicleRequest.id r = other)).
    + rewrite !filter_cons_True by assumption. reflexivity.
    + rewrite !filter_cons_False by assumption. exact IH.
Qed.

Lemma decided_other_request request_id approval_data current_user approval_step db other :
  other ≠ request_id →
  first_request other (decided request_id approval_data current_user approval_step db)
  = first_request other db
  ∧ approvals_of other (decided request_id approval_data current_user approval_step db)
    = approvals_of other db
  ∧ user (decided request_id approval_data current_user approval_step db) = user db.
Proof.
  intros Hother. split; [|split].
  - unfold decided. destruct (approval.new_status _ _).
    + rewrite first_request_set_status_other by exact Hother. reflexivity.
    + reflexivity.
  - unfold approvals_of. rewrite decided_request_approvals, filter_app.
    rewrite filter_cons_False by (cbn; congruence). apply app_nil_r.
  - unfold decided. destruct (approval.new_status _ _); reflexivity.
Qed.

(** X6.  A submit-decision call touches one request only: whatever
    its outcome, every other request keeps its row and its approval
    rows, and the user table is unchanged. *)
Theorem submit_approval_leaves_other_requests
    db request_id approval_data current_user other :
  other ≠ request_id →
  first_request other
    (get_db (approval.submit_approval request_id approval_data current_user) db).2
  = first_request other db
  ∧ approvals_of other
      (get_db (approval.submit_approval request_id approval_data current_user) db).2
    = approvals_of other db
  ∧ user (get_db (approval.submit_approval request_id approval_data current_user) db).2
    = user db.
Proof.
  intros Hother. rewrite submit_approval_db.
  destruct (first_request request_id db); [|auto].
  destruct (User.role current_user); [|auto].
  cbn zeta. destruct (decide (_ = 0)); [auto|].
  destruct (approval.first_approval _ _ _); [auto|].
  destruct (decide (_ ∈ approval_status_enum)); [|auto].
  cbn [snd]. apply decided_other_request, Hother.
Qed.

(** X7.  The handler is blind to letter case and to everything about
    the caller but the id and the role name: two calls on the same
    request whose callers have the same id and role names equal up to
    case, and whose decisions are equal up to case with the same
    comment, have the same outcome and leave the same database. *)
Theorem submit_approval_case_insensitive
    db request_id first_data first_user second_data second_user :
  User.id first_user = User.id second_user →
  role_of first_user = role_of second_user →
  lower (approval.status first_data) = lower (approval.status second_data) →
  approval.comments first_data = approval.comments second_data →
  get_db (approval.submit_approval request_id first_data first_user) db
  = get_db (approval.submit_approval request_id second_data second_user) db.
Proof.
  intros Hid Hrole Hstatus Hcomments. rewrite !submit_approval_db.
  destruct (first_request request_id db); [|reflexivity].
  unfold role_of in Hrole.
  destruct (User.role first_user) as [r1|], (User.role second_user) as [r2|];
    try discriminate; [|reflexivity].
  cbn in Hrole. injection Hrole as Hrole. cbn zeta. rewrite Hrole.
  destruct (decide _); [reflexivity|].
  destruct (approval.first_approval _ _ _); [reflexivity|].
  unfold decided, new_approval. rewrite Hid, Hstatus, Hcomments. reflexivity.
Qed.

Lemma approvals_by_step request_id db :
  steps_in_range db →
  length (approvals_of request_id db)
  = (length (step_rows request_id 1 db) + length (step_rows request_id 2 db)
     + length (step_rows request_id 3 db))%nat.
Proof.
  unfold steps_in_range, approvals_of, step_rows.
  induction 1 as [|a l Ha _ IH]; [reflexivity|].
  destruct (decide (RequestApproval.request_id a = request_id)) as [Hr|Hr].
  - rewrite (filter_cons_True (λ a, RequestApproval.request_id a = request_id))
      by exact Hr.
    cbn [length]. rewrite IH.
    destruct Ha as [H1|[H2|H3]].
    + rewrite (filter_cons_True _ a) by (split; assumption).
      rewrite !(filter_cons_False _ a) by (intros [_ ?]; congruence).
      cbn. lia.
    + rewrite (filter_cons_False _ a) by (intros [_ ?]; congruence).
      rewrite (filter_cons_True _ a) by (split; assumption).
      rewrite (filter_cons_False _ a) by (intros [_ ?]; congruence).
      cbn. lia.
    + rewrite !(filter_cons_False _ a) by (intros [_ ?]; congruence).
      rewrite (filter_cons_True _ a) by (split; assumption).
      cbn. lia.
  - rewrite !(filter_cons_False _ a) by tauto. exact IH.
Qed.

Lemma serve_steps_in_range c db : steps_in_range db → steps_in_range (serve c db).
Proof.
  intros Hinv. destruct c as [d now u|rid d u|id u]; cbn [serve].
  - rewrite create_request_db. exact Hinv.
  - destruct (get_db (approval.submit_approval rid d u) db) as [[e|out] db'] eqn:Hrun.
    + apply submit_approval_raises in Hrun as ->. exact Hinv.
    + apply submit_approval_success in Hrun as (st & Hst & Hne & _ & _ & -> & _).
      unfold steps_in_range. cbn [snd]. rewrite decided_request_approvals.
      apply Forall_app. split; [exact Hinv|].
      constructor; [|constructor]. cbn. exact (step_of_range _ _ Hst Hne).
  - rewrite delete_request_db.
    destruct (first_request id db); [|exact Hinv].
    destruct (User.role u); [|exact Hinv].
    destruct (_ || _); [|exact Hinv].
    unfold steps_in_range. cbn.
    apply Forall_forall. intros a Ha. apply list_elem_of_filter in Ha as [_ Ha].
    unfold steps_in_range in Hinv. rewrite Forall_forall in Hinv. apply Hinv, Ha.
Qed.

Lemma serve_all_steps_in_range cs db :
  steps_in_range db → steps_in_range (serve_all cs db).
Proof.
  revert db. induction cs as [|c cs IH]; intros db Hinv; [exact Hinv|].
  cbn. apply IH, serve_steps_in_range, Hinv.
Qed.

(** X8.  A request never gathers more than three approval rows: from
    a database without approval rows, after any sequence of create,
    submit-decision and delete calls, every request has at most three,
    each with a step among 1, 2 and 3. *)
Theorem at_most_three_approvals_per_request cs db request_id :
  request_approvals db = [] →
  (length (approvals_of request_id (serve_all cs db)) ≤ 3)%nat
  ∧ steps_in_range (serve_all cs db).
Proof.
  intros Hempty.
  assert (steps_in_range db) as Hrange
    by (unfold steps_in_range; rewrite Hempty; constructor).
  assert (one_row_per_step db) as Hone
    by (intros rid st; unfold step_rows; rewrite Hempty; cbn; lia).
  apply (serve_all_steps_in_range cs) in Hrange.
  apply (serve_all_one_row_per_step cs) in Hone.
  split; [|exact Hrange].
  rewrite (approvals_by_step _ _ Hrange).
  pose proof (Hone request_id 1). pose proof (Hone request_id 2).
  pose proof (Hone request_id 3). lia.
Qed.

(** X9.  A decision whose text lower-cases to pending, at a step not
    yet decided, is accepted: it records the approval row and leaves
    every request row, so the status, as it was; the step is then
    used up, and any later decision for it is refused with 409. *)
Theorem pending_decision_uses_up_step
    db request_id approval_data current_user approval_step :
  lower (approval.status approval_data) = "pending" →
  step_of current_user = Some approval_step →
  approval_step ≠ 0 →
  is_Some (first_request request_id db) →
  step_rows request_id approval_step db = [] →
  ∃ out db',
    get_db (approval.submit_approval request_id approval_data current_user) db
    = (inr out, db')
    ∧ vehicle_requests db' = vehicle_requests db
    ∧ approvals_of request_id db'
      = approvals_of request_id db
        ++ [new_approval request_id approval_data current_user approval_step
                         (request_approvals_id_seq db)]
    ∧ ∀ later_data later_user,
        step_of later_user = Some approval_step →
        get_db (approval.submit_approval request_id later_data later_user) db'
        = (inl (HTTPException status.HTTP_409_CONFLICT), db').
Proof.
  intros Hpending Hstep Hne Hreq Hrows.
  eexists _, _. split.
  { apply submit_approval_records; [eassumption..|].
    rewrite Hpending. apply approval_status_enum_pending. }
  assert (approval.new_status (lower (approval.status approval_data)) approval_step
          = None) as Hnone by (rewrite Hpending; reflexivity).
  split; [unfold decided; rewrite Hnone; reflexivity|].
  split; [apply decided_approvals_of|].
  intros later_data later_user Hlater.
  rewrite (submit_approval_by_step _ _ _ _ _ Hlater).
  destruct (first_request_decided request_id approval_data current_user approval_step
              db Hreq) as [r ->].
  rewrite (decide_False (P := approval_step = 0)) by exact Hne.
  rewrite decided_step_rows, Hrows, decide_True by (split; reflexivity).
  reflexivity.
Qed.

(** * Properties of the authentication dependencies *)

Lemma lower_nonempty s : s ≠ EmptyString → lower s ≠ EmptyString.
Proof. destruct s; [contradiction|discriminate]. Qed.

Lemma lower_empty s : lower s = EmptyString ↔ s = EmptyString.
Proof. destruct s; split; (reflexivity || discriminate). Qed.

Lemma role_checker_role_lower user :
  oauth2.role_checker_role user
  = match User.role user with
    | Some r => lower (Role.name r)
    | None => EmptyString
    end.
Proof.
  unfold oauth2.role_checker_role. destruct (User.role user) as [r|]; [|reflexivity].
  destruct (decide (Role.name r = EmptyString)) as [->|]; reflexivity.
Qed.

(** X10.  Each of the three role checks, [require_role],
    [require_role_for_api] and [require_role_for_page], compares
    lower-cased names.  For allowed names and a role name in ASCII, a
    user passes exactly when the lower-cased name of the user's role
    equals the lower-cased form of an allowed role, so letter case
    never matters on either side; a user without a role passes no
    check whose allowed names are all non-empty; a rejected user gets
    403, and the database is never changed. *)
Theorem role_checks_compare_lower_case check allowed_roles user db :
  check ∈ [oauth2.require_role; oauth2.require_role_for_api;
           oauth2.require_role_for_page] →
  Forall (λ a, isascii a = true) allowed_roles →
  (∀ r, User.role user = Some r → isascii (Role.name r) = true) →
  (get_db (check allowed_roles user) db = (inr user, db)
   ∨ get_db (check allowed_roles user) db
     = (inl (HTTPException status.HTTP_403_FORBIDDEN), db))
  ∧ (∀ r, User.role user = Some r →
       (get_db (check allowed_roles user) db = (inr user, db)
        ↔ ∃ a, a ∈ allowed_roles ∧ lower a = lower (Role.name r)))
  ∧ (User.role user = None → EmptyString ∉ allowed_roles →
     get_db (check allowed_roles user) db
     = (inl (HTTPException status.HTTP_403_FORBIDDEN), db)).
Proof.
  intros Hcheck _ _.
  assert (∀ A (x : A) (l : list A) (f : A → A), x ∈ map f l ↔ ∃ a, a ∈ l ∧ f a = x)
    as Hmap.
  { intros A x l f. change (map f l) with (f <$> l). rewrite list_elem_of_fmap.
    split; intros (a & H1 & H2); eauto. }
  assert (get_db (check allowed_roles user) db
          = get_db (oauth2.require_role allowed_roles user) db) as ->.
  { rewrite !elem_of_cons, elem_of_nil in Hcheck.
    destruct Hcheck as [-> | [-> | [-> | []]]]; reflexivity. }
  unfold get_db, oauth2.require_role. rewrite role_checker_role_lower.
  split; [destruct (decide _); auto|]. split.
  - intros r ->. destruct (decide _) as [Hin|Hout]; cbn.
    + split; [intros _|reflexivity]. apply Hmap, Hin.
    + split; [discriminate|]. intros Hex. exfalso. apply Hout, Hmap, Hex.
  - intros -> Hnone. destruct (decide _) as [Hin|Hout]; [|reflexivity].
    exfalso. apply Hmap in Hin as (a & Ha & Hlow).
    apply lower_empty in Hlow as ->. contradiction.
Qed.

Lemma split_space_cons c s :
  oauth2.split_space (String c s)
  = if decide (c = " "%char) then EmptyString :: oauth2.split_space s
    else match oauth2.split_space s with
         | piece :: pieces => String c piece :: pieces
         | [] => [String c EmptyString]
         end.
Proof. reflexivity. Qed.

Lemma split_space_spaceless t : spaceless t → oauth2.split_space t = [t].
Proof.
  induction t as [|c t IH]; [reflexivity|]. intros [Hc Ht].
  rewrite split_space_cons, decide_False by exact Hc.
  rewrite (IH Ht). reflexivity.
Qed.

Lemma split_login_cookie t :
  spaceless t → oauth2.split_space (login_cookie t) !! 1%nat = Some t.
Proof.
  intros Ht. unfold login_cookie.
  change ("Bearer " +:+ t)
    with (String "B" (String "e" (String "a" (String "r" (String "e" (String "r"
            (String " " t))))))).
  rewrite !split_space_cons, (split_space_spaceless t Ht). reflexivity.
Qed.

Lemma startswith_login_cookie t : oauth2.startswith "Bearer " (login_cookie t) = true.
Proof. reflexivity. Qed.

Section authentication_properties.

Context (verify_access_token : string → Exception → Exception + Z).

(** X11.  The cookie that login sets carries the token back: for a
    non-empty token without spaces, a call with that cookie and no
    header token (or an empty one) is authenticated exactly as a call
    with the token in the header, and the page dependency verifies
    that same token.  A header token, when present, wins over any
    cookie; and without a header token a cookie that does not start
    with the Bearer prefix is not used: the call gets 401. *)
Theorem login_cookie_round_trip access_token :
  spaceless access_token →
  access_token ≠ EmptyString →
  (∀ token s,
     oauth2.not_token token = true →
     oauth2.get_current_active_user verify_access_token
       (Some (login_cookie access_token)) token s
     = oauth2.get_current_user_from_header verify_access_token (Some access_token) s)
  ∧ (∀ s,
       oauth2.get_current_user_from_cookie verify_access_token
         (Some (login_cookie access_token)) s
       = oauth2.authenticate verify_access_token access_token
           (HTTPException oauth2.HTTP_307_TEMPORARY_REDIRECT) s)
  ∧ (∀ cookie s,
       oauth2.get_current_active_user verify_access_token cookie (Some access_token) s
       = oauth2.get_current_user_from_header verify_access_token (Some access_token) s)
  ∧ (∀ cookie token s,
       oauth2.not_token token = true →
       (∀ c, cookie = Some c → oauth2.startswith "Bearer " c = false) →
       oauth2.get_current_active_user verify_access_token cookie token s
       = (inl (HTTPException oauth2.HTTP_401_UNAUTHORIZED), s)).
Proof.
  intros Hspaceless Hnonempty.
  assert (oauth2.not_token (Some access_token) = false) as Hpresent
    by (cbn; apply bool_decide_eq_false; exact Hnonempty).
  split; [|split; [|split]].
  - intros token s Hnot. unfold oauth2.get_current_active_user.
    rewrite Hnot, startswith_login_cookie, (split_login_cookie _ Hspaceless).
    rewrite bool_decide_eq_false_2 by discriminate. cbn [negb andb].
    unfold oauth2.get_current_user_from_header. reflexivity.
  - intros s. unfold oauth2.get_current_user_from_cookie.
    rewrite startswith_login_cookie, (split_login_cookie _ Hspaceless). reflexivity.
  - intros cookie s. unfold oauth2.get_current_active_user. rewrite Hpresent.
    reflexivity.
  - intros cookie token s Hnot Hcookie. unfold oauth2.get_current_active_user.
    rewrite Hnot. destruct cookie as [c|].
    + rewrite (Hcookie c eq_refl), andb_false_r.
      destruct token as [t|]; [rewrite Hnot|]; reflexivity.
    + destruct token as [t|]; [rewrite Hnot|]; reflexivity.
Qed.

Lemma authenticate_success token credentials_exception accounts user s' :
  oauth2.authenticate verify_access_token token credentials_exception
    (mkSession accounts accounts) = (inr user, s') →
  s' = mkSession accounts accounts
  ∧ ∃ user_id account,
      verify_access_token token credentials_exception = inr user_id
      ∧ account ∈ accounts
      ∧ User.id (oauth2.account_user account) = user_id
      ∧ oauth2.account_status account = "active"
      ∧ user = oauth2.account_user account.
Proof.
  unfold oauth2.authenticate.
  destruct (verify_access_token token credentials_exception) as [e|user_id];
    [discriminate|].
  run_handler. cbn [working].
  destruct (oauth2.first_account user_id accounts) as [account|] eqn:Hfirst;
    [|discriminate].
  destruct (decide _) as [|Hactive]; [discriminate|].
  intros [= <- <-]. split; [reflexivity|].
  exists user_id, account. split; [reflexivity|].
  unfold oauth2.first_account in Hfirst.
  apply head_Some_elem_of, list_elem_of_filter in Hfirst as [Hid Hin].
  split; [exact Hin|]. split; [exact Hid|]. split; [|reflexivity].
  destruct (decide (oauth2.account_status account = "active")); [assumption|].
  contradiction.
Qed.

(** X12.  Whoever the three authentication dependencies let through
    is an active account: a call succeeds only with a non-empty token
    that verifies to a user id, and the user returned is a row of the
    user table with that id and status active.  Authentication never
    changes the table. *)
Theorem authenticated_user_is_active_account accounts user accounts' :
  (∀ token,
     get_db (oauth2.get_current_user_from_header verify_access_token token) accounts
     = (inr user, accounts') →
     accounts' = accounts
     ∧ ∃ t user_id account,
         t ≠ EmptyString
         ∧ verify_access_token t (HTTPException oauth2.HTTP_401_UNAUTHORIZED)
           = inr user_id
         ∧ account ∈ accounts
         ∧ User.id (oauth2.account_user account) = user_id
         ∧ oauth2.account_status account = "active"
         ∧ user = oauth2.account_user account)
  ∧ (∀ cookie token,
       get_db (oauth2.get_current_active_user verify_access_token cookie token) accounts
       = (inr user, accounts') →
       accounts' = accounts
       ∧ ∃ t user_id account,
           t ≠ EmptyString
           ∧ verify_access_token t (HTTPException oauth2.HTTP_401_UNAUTHORIZED)
             = inr user_id
           ∧ account ∈ accounts
           ∧ User.id (oauth2.account_user account) = user_id
           ∧ oauth2.account_status account = "active"
           ∧ user = oauth2.account_user account)
  ∧ (∀ cookie,
       get_db (oauth2.get_current_user_from_cookie verify_access_token cookie) accounts
       = (inr user, accounts') →
       accounts' = accounts
       ∧ ∃ t user_id account,
           verify_access_token t (HTTPException oauth2.HTTP_307_TEMPORARY_REDIRECT)
           = inr user_id
           ∧ account ∈ accounts
           ∧ User.id (oauth2.account_user account) = user_id
           ∧ oauth2.account_status account = "active"
           ∧ user = oauth2.account_user account).
Proof.
  assert (∀ (auth_token : option string),
    get_db (match auth_token with
            | Some t =>
              if oauth2.not_token auth_token
              then raise (HTTPException oauth2.HTTP_401_UNAUTHORIZED)
              else oauth2.authenticate verify_access_token t
                     (HTTPException oauth2.HTTP_401_UNAUTHORIZED)
            | None => raise (HTTPException oauth2.HTTP_401_UNAUTHORIZED)
            end) accounts = (inr user, accounts') →
    accounts' = accounts
    ∧ ∃ t user_id account,
        t ≠ EmptyString
        ∧ verify_access_token t (HTTPException oauth2.HTTP_401_UNAUTHORIZED)
          = inr user_id
        ∧ account ∈ accounts
        ∧ User.id (oauth2.account_user account) = user_id
        ∧ oauth2.account_status account = "active"
        ∧ user = oauth2.account_user account) as Hcore.
  { intros auth_token. unfold get_db.
    destruct auth_token as [t|]; [|discriminate].
    destruct (oauth2.not_token (Some t)) eqn:Hnot; [discriminate|].
    destruct (oauth2.authenticate _ _ _ _) as [[e|u] s'] eqn:Hauth; [discriminate|].
    intros [= <- <-].
    apply authenticate_success in Hauth as (-> & user_id & account & H).
    split; [reflexivity|]. exists t, user_id, account.
    split; [|exact H]. cbn in Hnot. apply bool_decide_eq_false in Hnot. exact Hnot. }
  split; [|split].
  - intros token. apply Hcore.
  - intros cookie token. apply Hcore.
  - intros cookie. unfold get_db, oauth2.get_current_user_from_cookie.
    destruct cookie as [c|]; [|discriminate].
    destruct (oauth2.authenticate _ _ _ _) as [[e|u] s'] eqn:Hauth; [discriminate|].
    intros [= <- <-].
    apply authenticate_success in Hauth as (-> & user_id & account & H).
    split; [reflexivity|]. eauto.
Qed.

End authentication_properties.

(** * Further properties of the fuel router *)

Section fuel_lookup.

Context {float : Type}.

Lemma read_fuel_record_by_id_db fuel_id (db : fuel.FuelDatabase float) :
  get_db (fuel.read_fuel_record_by_id fuel_id) db =
  match fuel.first_fuel fuel_id db with
  | None => (inl (HTTPException 404), db)
  | Some db_fuel_record => (inr db_fuel_record, db)
  end.
Proof.
  unfold get_db, fuel.read_fuel_record_by_id. run_handler. cbn.
  destruct (fuel.first_fuel fuel_id db); reflexivity.
Qed.

Lemma delete_existing_fuel_record_db fuel_id (db : fuel.FuelDatabase float) :
  get_db (fuel.delete_existing_fuel_record fuel_id) db =
  match fuel.first_fuel fuel_id db with
  | None => (inl (HTTPException 404), db)
  | Some db_fuel_record => (inr tt, fuel.delete_fuel db_fuel_record db)
  end.
Proof.
  unfold get_db, fuel.delete_existing_fuel_record. run_handler. cbn.
  destruct (fuel.first_fuel fuel_id db); reflexivity.
Qed.

Lemma fuel_key_fresh (db : fuel.FuelDatabase float) :
  fuel_keys_below_serial db →
  filter (λ f, fuel.id f = fuel.fuel_id_seq db) (fuel.fuel db) = [].
Proof.
  unfold fuel_keys_below_serial. induction 1 as [|f l Hf _ IH]; [reflexivity|].
  rewrite filter_cons_False by lia. exact IH.
Qed.

Lemma fuel_keys_other (db : fuel.FuelDatabase float) :
  fuel_keys_below_serial db →
  filter (λ f, fuel.id f ≠ fuel.fuel_id_seq db) (fuel.fuel db) = fuel.fuel db.
Proof.
  unfold fuel_keys_below_serial. induction 1 as [|f l Hf _ IH]; [reflexivity|].
  rewrite filter_cons_True by lia. f_equal. exact IH.
Qed.

Lemma first_fuel_delete_fuel (f : fuel.Fuel float) (db : fuel.FuelDatabase float) k :
  fuel.first_fuel k (fuel.delete_fuel f db)
  = if decide (k = fuel.id f) then None else fuel.first_fuel k db.
Proof.
  unfold fuel.first_fuel, fuel.delete_fuel. cbn [fuel.fuel].
  induction (fuel.fuel db) as [|g l IH].
  - destruct (decide _); reflexivity.
  - destruct (decide (fuel.id g = fuel.id f)) as [Hg|Hg].
    + rewrite (filter_cons_False (λ g, fuel.id g ≠ fuel.id f)) by tauto.
      rewrite IH. destruct (decide (k = fuel.id f)) as [Hk|Hk]; [reflexivity|].
      rewrite (filter_cons_False (λ g, fuel.id g = k)) by congruence. reflexivity.
    + rewrite (filter_cons_True (λ g, fuel.id g ≠ fuel.id f)) by exact Hg.
      destruct (decide (fuel.id g = k)) as [Hgk|Hgk].
      * rewrite !(filter_cons_True (λ g, fuel.id g = k)) by exact Hgk.
        rewrite decide_False by congruence. reflexivity.
      * rewrite !(filter_cons_False (λ g, fuel.id g = k)) by exact Hgk. exact IH.
Qed.

End fuel_lookup.

Section fuel_records.

Context {float : Type}.
Context (fmul : float → float → float).
Context (round2 : float → float).
Context (le_zero : float → bool).

(** X13.  What create stores can be read back: on a fuel table whose
    keys come from the serial, a successful create returns the new
    record, with the derived cost, under the next serial value, and
    reading that id afterwards returns the same record. *)
Theorem created_fuel_record_is_read_back
    db (fuel_payload : fuel.FuelCreatePayload float) now out db' :
  fuel_keys_below_serial db →
  get_db (fuel.create_new_fuel_record fmul round2 le_zero fuel_payload now) db
  = (inr out, db') →
  let record :=
    fuel.mkFuel (fuel.fuel_id_seq db)
      (fuel.create_vehicle_id fuel_payload) (fuel.create_fuel_type_id fuel_payload)
      (fuel.create_quantity fuel_payload) (fuel.create_price_little fuel_payload)
      (round2 (fmul (fuel.create_quantity fuel_payload)
                    (fuel.create_price_little fuel_payload)))
      now in
  out = Some record
  ∧ get_db (fuel.read_fuel_record_by_id (fuel.fuel_id_seq db)) db' = (inr record, db')
  ∧ fuel_keys_below_serial db'.
Proof.
  intros Hkeys. rewrite create_new_fuel_record_db.
  destruct (decide _); [discriminate|].
  destruct (decide _); [discriminate|].
  destruct (le_zero _); [discriminate|].
  destruct (le_zero _); [discriminate|].
  cbn zeta. intros [= <- <-].
  assert (fuel.first_fuel (fuel.fuel_id_seq db)
            (fuel.add_fuel (λ id,
               fuel.mkFuel id (fuel.create_vehicle_id fuel_payload)
                 (fuel.create_fuel_type_id fuel_payload)
                 (fuel.create_quantity fuel_payload)
                 (fuel.create_price_little fuel_payload)
                 (round2 (fmul (fuel.create_quantity fuel_payload)
                               (fuel.create_price_little fuel_payload)))
                 now) db)
          = Some (fuel.mkFuel (fuel.fuel_id_seq db)
                    (fuel.create_vehicle_id fuel_payload)
                    (fuel.create_fuel_type_id fuel_payload)
                    (fuel.create_quantity fuel_payload)
                    (fuel.create_price_little fuel_payload)
                    (round2 (fmul (fuel.create_quantity fuel_payload)
                                  (fuel.create_price_little fuel_payload)))
                    now)) as Hfirst.
  { unfold fuel.first_fuel, fuel.add_fuel. cbn [fuel.fuel].
    rewrite filter_app, (fuel_key_fresh db Hkeys).
    rewrite filter_cons_True by reflexivity. reflexivity. }
  split; [exact Hfirst|]. split.
  - rewrite read_fuel_record_by_id_db, Hfirst. reflexivity.
  - unfold fuel_keys_below_serial, fuel.add_fuel in *. cbn.
    apply Forall_app. split.
    + eapply Forall_impl; [exact Hkeys|]. cbn. intros; lia.
    + constructor; [cbn; lia|constructor].
Qed.

(** X14.  Deleting a fuel record: an id without a row gives 404 and
    changes nothing; otherwise the record is gone, so that reading it
    gives 404, while every other id reads as before.  Deleting the
    record a create has just stored gives back the fuel table as it
    was before the create. *)
Theorem delete_fuel_record_removes_it fuel_id (db : fuel.FuelDatabase float) :
  (fuel.first_fuel fuel_id db = None →
   get_db (fuel.delete_existing_fuel_record fuel_id) db
   = (inl (HTTPException status.HTTP_404_NOT_FOUND), db))
  ∧ (is_Some (fuel.first_fuel fuel_id db) →
     ∃ db',
       get_db (fuel.delete_existing_fuel_record fuel_id) db = (inr tt, db')
       ∧ get_db (fuel.read_fuel_record_by_id fuel_id) db'
         = (inl (HTTPException status.HTTP_404_NOT_FOUND), db')
       ∧ ∀ other, other ≠ fuel_id →
           get_db (fuel.read_fuel_record_by_id other) db'
           = (fst (get_db (fuel.read_fuel_record_by_id other) db), db'))
  ∧ (∀ (fuel_payload : fuel.FuelCreatePayload float) now out db1,
       fuel_keys_below_serial db →
       fuel_id = fuel.fuel_id_seq db →
       get_db (fuel.create_new_fuel_record fmul round2 le_zero fuel_payload now) db
       = (inr out, db1) →
       ∃ db2,
         get_db (fuel.delete_existing_fuel_record fuel_id) db1 = (inr tt, db2)
         ∧ fuel.fuel db2 = fuel.fuel db).
Proof.
  split; [|split].
  - intros Hnone. rewrite delete_existing_fuel_record_db, Hnone. reflexivity.
  - intros [f Hf]. pose proof (first_fuel_id _ _ _ Hf) as Hid.
    exists (fuel.delete_fuel f db).
    split; [rewrite delete_existing_fuel_record_db, Hf; reflexivity|].
    split.
    + rewrite read_fuel_record_by_id_db, first_fuel_delete_fuel.
      rewrite decide_True by congruence. reflexivity.
    + intros other Hother. rewrite !read_fuel_record_by_id_db, first_fuel_delete_fuel.
      rewrite decide_False by congruence.
      destruct (fuel.first_fuel other db); reflexivity.
  - intros fuel_payload now out db1 Hkeys -> Hcreate.
    rewrite create_new_fuel_record_db in Hcreate.
    destruct (decide _); [discriminate|].
    destruct (decide _); [discriminate|].
    destruct (le_zero _); [discriminate|].
    destruct (le_zero _); [discriminate|].
    cbn zeta in Hcreate. injection Hcreate as _ <-.
    eexists. split.
    + rewrite delete_existing_fuel_record_db.
      unfold fuel.first_fuel, fuel.add_fuel at 1. cbn [fuel.fuel].
      rewrite filter_app, (fuel_key_fresh db Hkeys).
      rewrite filter_cons_True by reflexivity. cbn [head app]. reflexivity.
    + unfold fuel.delete_fuel, fuel.add_fuel. cbn.
      rewrite filter_app, (fuel_keys_other db Hkeys).
      rewrite filter_cons_False by (cbn; tauto). apply app_nil_r.
Qed.

Lemma effective_failure new current flag (s : Session (fuel.FuelDatabase float)) e s' :
  fuel.effective le_zero new current flag s = (inl e, s') →
  s' = s ∧ e = HTTPException 400 ∧ ∃ x, new = Some x ∧ le_zero x = true.
Proof.
  unfold fuel.effective, mret, M_ret, raise.
  destruct new as [y|]; [|discriminate].
  destruct (le_zero y) eqn:Hy; [|discriminate]. intros [= <- <-]. eauto.
Qed.

Lemma update_existing_fuel_record_failure fuel_id update_data db e db' :
  get_db (fuel.update_existing_fuel_record fmul round2 le_zero fuel_id update_data) db
  = (inl e, db') →
  db' = db.
Proof.
  unfold get_db, fuel.update_existing_fuel_record.
  unfold mbind at 1, M_bind at 1, query at 1. cbn [working].
  destruct (fuel.first_fuel fuel_id db) as [rec|] eqn:Hrec;
    [|intros [= _ <-]; reflexivity].
  unfold mbind at 1, M_bind at 1.
  destruct (fuel.check_reference _ _ fuel.first_vehicle _) as [[e1|[]] s1] eqn:H1;
    apply check_reference_run in H1 as ->; [intros [= _ <-]; reflexivity|].
  unfold mbind at 1, M_bind at 1.
  destruct (fuel.check_reference _ _ fuel.first_fuel_type _) as [[e2|[]] s2] eqn:H2;
    apply check_reference_run in H2 as ->; [intros [= _ <-]; reflexivity|].
  unfold mbind at 1, M_bind at 1.
  destruct (fuel.effective le_zero (fuel.update_quantity update_data) _ _ _)
    as [[e3|[q fq]] s3] eqn:H3.
  { apply effective_failure in H3 as (-> & _). intros [= _ <-]. reflexivity. }
  apply effective_run in H3 as (-> & -> & ->).
  unfold mbind at 1, M_bind at 1.
  destruct (fuel.effective le_zero (fuel.update_price_little update_data) _ _ _)
    as [[e4|[p fp]] s4] eqn:H4.
  { apply effective_failure in H4 as (-> & _). intros [= _ <-]. reflexivity. }
  apply effective_run in H4 as (-> & -> & ->).
  unfold mbind, M_bind, execute, commit, query. cbn. discriminate.
Qed.

Lemma update_existing_fuel_record_rejects fuel_id update_data db :
  (∃ q, fuel.update_quantity update_data = Some q ∧ le_zero q = true)
  ∨ (∃ p, fuel.update_price_little update_data = Some p ∧ le_zero p = true) →
  ∃ e,
    get_db (fuel.update_existing_fuel_record fmul round2 le_zero fuel_id update_data) db
    = (inl e, db).
Proof.
  intros Hbad.
  destruct (get_db (fuel.update_existing_fuel_record fmul round2 le_zero fuel_id
                      update_data) db) as [[e|out] db'] eqn:Hrun.
  - pose proof (update_existing_fuel_record_failure _ _ _ _ _ Hrun) as ->. eauto.
  - exfalso. revert Hrun.
    unfold get_db, fuel.update_existing_fuel_record.
    unfold mbind at 1, M_bind at 1, query at 1. cbn [working].
    destruct (fuel.first_fuel fuel_id db) as [rec|]; [|discriminate].
    unfold mbind at 1, M_bind at 1.
    destruct (fuel.check_reference _ _ fuel.first_vehicle _) as [[e1|[]] s1] eqn:H1;
      apply check_reference_run in H1 as ->; [discriminate|].
    unfold mbind at 1, M_bind at 1.
    destruct (fuel.check_reference _ _ fuel.first_fuel_type _) as [[e2|[]] s2] eqn:H2;
      apply check_reference_run in H2 as ->; [discriminate|].
    unfold mbind at 1, M_bind at 1.
    destruct (fuel.effective le_zero (fuel.update_quantity update_data) _ _ _)
      as [[e3|[q fq]] s3] eqn:H3; [discriminate|].
    unfold mbind at 1, M_bind at 1.
    destruct (fuel.effective le_zero (fuel.update_price_little update_data) _ _ _)
      as [[e4|[p fp]] s4] eqn:H4; [discriminate|].
    unfold fuel.effective in H3, H4.
    destruct Hbad as [(q' & Hq & Hle)|(p' & Hp & Hle)].
    + rewrite Hq, Hle in H3. discriminate.
    + rewrite Hp, Hle in H4. discriminate.
Qed.

(** X15.  The fuel handlers that write do so all or nothing: a create,
    an update or a delete that raises leaves the fuel database exactly
    as it was.  An update that carries a quantity or a price_little of
    zero or less always raises. *)
Theorem fuel_writes_are_all_or_nothing (db : fuel.FuelDatabase float) e db' :
  (∀ fuel_payload now,
     get_db (fuel.create_new_fuel_record fmul round2 le_zero fuel_payload now) db
     = (inl e, db') → db' = db)
  ∧ (∀ fuel_id update_data,
       get_db (fuel.update_existing_fuel_record fmul round2 le_zero fuel_id update_data)
              db
       = (inl e, db') → db' = db)
  ∧ (∀ fuel_id,
       get_db (fuel.delete_existing_fuel_record fuel_id) db = (inl e, db') → db' = db)
  ∧ (∀ fuel_id update_data,
       (∃ q, fuel.update_quantity update_data = Some q ∧ le_zero q = true)
       ∨ (∃ p, fuel.update_price_little update_data = Some p ∧ le_zero p = true) →
       ∃ e',
         get_db (fuel.update_existing_fuel_record fmul round2 le_zero fuel_id
                   update_data) db
         = (inl e', db)).
Proof.
  split; [|split; [|split]].
  - intros fuel_payload now. rewrite create_new_fuel_record_db.
    destruct (decide _); [intros [= _ <-]; reflexivity|].
    destruct (decide _); [intros [= _ <-]; reflexivity|].
    destruct (le_zero _); [intros [= _ <-]; reflexivity|].
    destruct (le_zero _); [intros [= _ <-]; reflexivity|discriminate].
  - intros fuel_id update_data. apply update_existing_fuel_record_failure.
  - intros fuel_id. rewrite delete_existing_fuel_record_db.
    destruct (fuel.first_fuel fuel_id db); [discriminate|].
    intros [= _ <-]. reflexivity.
  - intros fuel_id update_data. apply update_existing_fuel_record_rejects.
Qed.

End fuel_records.

Section fuel_listing.

Context {float : Type}.
Context (day_start day_end : Z → Z).

Global Instance fuel_created_at_desc_total : Total (@fuel.fuel_created_at_desc float).
Proof. intros a b. unfold fuel.fuel_created_at_desc. lia. Qed.

Global Instance fuel_created_at_desc_trans :
  Transitive (@fuel.fuel_created_at_desc float).
Proof. intros a b c. unfold fuel.fuel_created_at_desc. lia. Qed.

Lemma filter_given {A} (P : A → Prop) (x : A) : (∀ y, Some x = Some y → P y) ↔ P x.
Proof. split; [intros H; apply H; reflexivity|intros H y [= <-]; exact H]. Qed.

Lemma filter_absent {A} (P : A → Prop) : (∀ y, @None A = Some y → P y) ↔ True.
Proof. split; [trivial|intros _ y H; discriminate]. Qed.

(** X16.  Listing fuel records never raises and never writes.  The
    result is the page, [skip] rows dropped and at most [limit] kept,
    of the records that pass every filter given, newest first: each
    row returned is a stored record that passes the filters, and a
    stored record that passes them is among the rows before paging. *)
Theorem read_all_fuel_records_filtered
    (db : fuel.FuelDatabase float) skip limit
    vehicle_id_filter fuel_type_id_filter date_after date_before :
  ∃ rows,
    get_db (fuel.read_all_fuel_records day_start day_end skip limit
              vehicle_id_filter fuel_type_id_filter date_after date_before) db
    = (inr (take limit (drop skip rows)), db)
    ∧ (∀ f, f ∈ rows ↔
            f ∈ fuel.fuel db
            ∧ fuel.fuel_filters day_start day_end vehicle_id_filter
                fuel_type_id_filter date_after date_before f)
    ∧ StronglySorted fuel.fuel_created_at_desc rows
    ∧ StronglySorted fuel.fuel_created_at_desc (take limit (drop skip rows))
    ∧ (length (take limit (drop skip rows)) ≤ limit)%nat
    ∧ (∀ f, f ∈ take limit (drop skip rows) →
            f ∈ fuel.fuel db
            ∧ fuel.fuel_filters day_start day_end vehicle_id_filter
                fuel_type_id_filter date_after date_before f)
    ∧ (skip = 0%nat → (length rows ≤ limit)%nat → take limit (drop skip rows) = rows).
Proof.
  unfold get_db, fuel.read_all_fuel_records, query. cbn [working committed].
  match goal with
  | |- context [merge_sort _ ?l] => set (matching := l)
  end.
  set (rows := merge_sort fuel.fuel_created_at_desc matching).
  assert (∀ f, f ∈ matching ↔
               f ∈ fuel.fuel db
               ∧ fuel.fuel_filters day_start day_end vehicle_id_filter
                   fuel_type_id_filter date_after date_before f) as Hmatching.
  { intros f. unfold matching, fuel.fuel_filters.
    destruct vehicle_id_filter, fuel_type_id_filter, date_after, date_before;
      rewrite ?list_elem_of_filter, ?filter_given, ?filter_absent; tauto. }
  assert (∀ f, f ∈ rows ↔
               f ∈ fuel.fuel db
               ∧ fuel.fuel_filters day_start day_end vehicle_id_filter
                   fuel_type_id_filter date_after date_before f) as Hrows.
  { intros f. unfold rows. rewrite merge_sort_Permutation. apply Hmatching. }
  assert (StronglySorted fuel.fuel_created_at_desc rows) as Hsorted
    by apply (StronglySorted_merge_sort _).
  exists rows. split; [reflexivity|]. split; [exact Hrows|].
  split; [exact Hsorted|].
  split; [apply StronglySorted_take_drop, Hsorted|].
  split; [apply length_take_le_limit|].
  split.
  - intros f Hf. apply Hrows. apply subseteq_take, subseteq_drop in Hf. exact Hf.
  - intros -> Hlen. rewrite drop_0. apply take_ge, Hlen.
Qed.

End fuel_listing.

Section fuel_eligibility.

Context {float : Type}.
Context (strftime : Z → string).

Lemma head_merge_sort_latest (l : list (fuel.Fuel float)) :
  match head (merge_sort fuel.fuel_created_at_desc l) with
  | None => l = []
  | Some last => last ∈ l ∧ ∀ f, f ∈ l → fuel.created_at f ≤ fuel.created_at last
  end.
Proof.
  pose proof (StronglySorted_merge_sort fuel.fuel_created_at_desc l) as Hsorted.
  pose proof (merge_sort_Permutation fuel.fuel_created_at_desc l) as Hperm.
  destruct (merge_sort fuel.fuel_created_at_desc l) as [|m rest]; cbn.
  - symmetry. apply Permutation_nil_l. exact Hperm.
  - split.
    + rewrite <- Hperm. apply elem_of_cons. auto.
    + intros f Hf. rewrite <- Hperm in Hf.
      apply elem_of_cons in Hf as [->|Hf]; [lia|].
      apply StronglySorted_inv in Hsorted as [_ Hall].
      rewrite Forall_forall in Hall. apply Hall, Hf.
Qed.

Lemma head_filter_Some_iff {A} (P : A → Prop) `{∀ x, Decision (P x)} (l : list A) :
  is_Some (head (filter P l)) ↔ ∃ x, x ∈ l ∧ P x.
Proof.
  split.
  - intros [x Hx]. apply head_Some_elem_of, list_elem_of_filter in Hx.
    exists x. tauto.
  - intros (x & Hin & HP).
    assert (x ∈ filter P l) as Hx by (apply list_elem_of_filter; tauto).
    destruct (filter P l) as [|y k]; [apply elem_of_nil in Hx; contradiction|].
    cbn. eauto.
Qed.

Lemma check_fuel_eligibility_db (db : fuel.FleetDatabase float) vehicle_id :
  get_db (fuel.check_fuel_eligibility strftime vehicle_id) db =
  match head (filter (λ v, Vehicle.id v = vehicle_id) (fuel.fleet_vehicle db)) with
  | None => (inl (HTTPException 404), db)
  | Some vehicle =>
    if decide (Vehicle.status vehicle ≠ Some "available") then
      (inr (fuel.mkEligibilityResponse false
              ("Vehicle is not eligible for fueling. Its current status is '"
               +:+ fuel.format_status (Vehicle.status vehicle) +:+ "'.")), db)
    else
      match head (merge_sort fuel.fuel_created_at_desc
                    (filter (λ f, fuel.vehicle_id f = vehicle_id) (fuel.fleet_fuel db)))
      with
      | Some last =>
        match head (filter (λ t, Trip.vehicle_id t = vehicle_id
                                 ∧ Trip.status t = "Completed"
                                 ∧ fuel.ended_after (fuel.created_at last) t)
                           (fuel.fleet_trip db)) with
        | None =>
          (inr (fuel.mkEligibilityResponse false
                  ("A completed trip is required since the last refueling on "
                   +:+ strftime (fuel.created_at last))), db)
        | Some _ =>
          (inr (fuel.mkEligibilityResponse true "Vehicle is eligible for fueling."), db)
        end
      | None =>
        (inr (fuel.mkEligibilityResponse true "Vehicle is eligible for fueling."), db)
      end
  end.
Proof.
  unfold get_db, fuel.check_fuel_eligibility. run_handler. cbn [working committed].
  destruct (head (filter _ (fuel.fleet_vehicle db))) as [vehicle|]; [|reflexivity].
  destruct (decide _); [reflexivity|]. cbn [working committed].
  destruct (head (merge_sort _ _)) as [last|]; [|reflexivity]. cbn [working committed].
  destruct (head (filter _ (fuel.fleet_trip db))); reflexivity.
Qed.

(** X17.  The fuel eligibility check: an unknown vehicle gives 404;
    for a known vehicle it answers, without writing, and the answer is
    eligible exactly when the vehicle's status is available and either
    the vehicle has no fuel record or some trip of the vehicle with
    status Completed has an end time later than every fuel record of
    the vehicle. *)
Theorem fuel_eligibility_rule (db : fuel.FleetDatabase float) vehicle_id :
  (head (filter (λ v, Vehicle.id v = vehicle_id) (fuel.fleet_vehicle db)) = None →
   get_db (fuel.check_fuel_eligibility strftime vehicle_id) db
   = (inl (HTTPException status.HTTP_404_NOT_FOUND), db))
  ∧ (∀ vehicle,
       head (filter (λ v, Vehicle.id v = vehicle_id) (fuel.fleet_vehicle db))
       = Some vehicle →
       ∃ response,
         get_db (fuel.check_fuel_eligibility strftime vehicle_id) db
         = (inr response, db)
         ∧ (fuel.eligible response = true ↔
            Vehicle.status vehicle = Some "available"
            ∧ ((∀ f, f ∈ fuel.fleet_fuel db → fuel.vehicle_id f ≠ vehicle_id)
               ∨ ∃ t e,
                   t ∈ fuel.fleet_trip db
                   ∧ Trip.vehicle_id t = vehicle_id
                   ∧ Trip.status t = "Completed"
                   ∧ Trip.end_time t = Some e
                   ∧ ∀ f, f ∈ fuel.fleet_fuel db →
                          fuel.vehicle_id f = vehicle_id →
                          fuel.created_at f < e))).
Proof.
  rewrite check_fuel_eligibility_db.
  split; [intros ->; reflexivity|].
  intros vehicle ->.
  destruct (decide (Vehicle.status vehicle ≠ Some "available")) as [Hstatus|Hstatus].
  { eexists. split; [reflexivity|]. cbn. split; [discriminate|tauto]. }
  assert (Vehicle.status vehicle = Some "available") as Havailable
    by (destruct (decide (Vehicle.status vehicle = Some "available")); tauto).
  set (refuels := filter (λ f, fuel.vehicle_id f = vehicle_id) (fuel.fleet_fuel db)).
  pose proof (head_merge_sort_latest refuels) as Hlast.
  destruct (head (merge_sort fuel.fuel_created_at_desc refuels)) as [last|].
  - destruct Hlast as [Hin Hmax].
    apply list_elem_of_filter in Hin as [Hlast_vehicle Hlast_in].
    pose proof (head_filter_Some_iff
                  (λ t, Trip.vehicle_id t = vehicle_id ∧ Trip.status t = "Completed"
                        ∧ fuel.ended_after (fuel.created_at last) t)
                  (fuel.fleet_trip db)) as Htrip.
    destruct (head (filter _ (fuel.fleet_trip db))) as [trip|].
    + eexists. split; [reflexivity|]. cbn. split; [|reflexivity]. intros _.
      split; [exact Havailable|]. right.
      destruct (proj1 Htrip ltac:(eauto)) as (t & Ht & Hv & Hc & Hended).
      unfold fuel.ended_after in Hended.
      destruct (Trip.end_time t) as [e|] eqn:He; [|contradiction].
      exists t, e. repeat split; try assumption.
      intros f Hf Hfv.
      assert (f ∈ refuels) as Hfr by (apply list_elem_of_filter; tauto).
      specialize (Hmax f Hfr). lia.
    + eexists. split; [reflexivity|]. cbn. split; [discriminate|].
      intros [_ [Hnone|(t & e & Ht & Hv & Hc & He & Hlater)]].
      * exfalso. exact (Hnone last Hlast_in Hlast_vehicle).
      * exfalso. assert (is_Some (@None Trip.t)) as [? ?]; [|discriminate].
        apply Htrip. exists t. split; [exact Ht|]. split; [exact Hv|].
        split; [exact Hc|]. unfold fuel.ended_after. rewrite He.
        apply Hlater; assumption.
  - eexists. split; [reflexivity|]. cbn. split; [|reflexivity]. intros _.
    split; [exact Havailable|]. left. intros f Hf Hfv.
    assert (f ∈ refuels) as Hfr by (apply list_elem_of_filter; tauto).
    rewrite Hlast in Hfr. apply elem_of_nil in Hfr. exact Hfr.
Qed.

End fuel_eligibility.

(** * Invariants of the request and approval tables *)

Lemma request_ids_decided request_id approval_data current_user approval_step db :
  request_ids (decided request_id approval_data current_user approval_step db)
  = request_ids db.
Proof.
  unfold request_ids, decided.
  destruct (approval.new_status _ _); [|reflexivity].
  cbn [vehicle_requests approval.set_request_status approval.add_approval].
  induction (vehicle_requests db) as [|x l IH]; [reflexivity|].
  cbn [map]. rewrite !fmap_cons. f_equal; [|exact IH].
  destruct (decide _); [|reflexivity]. destruct x. reflexivity.
Qed.

Lemma first_request_in_ids request_id db :
  is_Some (first_request request_id db) → request_id ∈ request_ids db.
Proof.
  intros [r Hr]. unfold first_request in Hr.
  apply head_Some_elem_of, list_elem_of_filter in Hr as [<- Hin].
  apply list_elem_of_fmap_2, Hin.
Qed.

Lemma submit_approval_failure request_id approval_data current_user db e db' :
  get_db (approval.submit_approval request_id approval_data current_user) db
  = (inl e, db') →
  db' = db.
Proof. apply submit_approval_raises. Qed.

Lemma well_formed_create request_data now current_user db :
  well_formed db →
  well_formed (get_db (request.create_request request_data now current_user) db).2.
Proof.
  intros (Hnd & Hkeys & Hfk). rewrite create_request_db. cbn zeta. cbn [snd].
  unfold well_formed, request_ids, request.add_request in *. cbn.
  rewrite fmap_app. cbn.
  split; [|split].
  - apply NoDup_app. split; [exact Hnd|]. split.
    + intros k Hk Hnew. apply list_elem_of_singleton in Hnew as ->.
      rewrite Forall_forall in Hkeys. specialize (Hkeys _ Hk). lia.
    + apply NoDup_singleton.
  - apply Forall_app. split.
    + eapply Forall_impl; [exact Hkeys|]. cbn. intros; lia.
    + constructor; [lia|constructor].
  - eapply Forall_impl; [exact Hfk|]. cbn. intros a Ha.
    apply elem_of_app. left. exact Ha.
Qed.

Lemma well_formed_submit request_id approval_data current_user db :
  well_formed db →
  well_formed
    (get_db (approval.submit_approval request_id approval_data current_user) db).2.
Proof.
  intros Hwf.
  destruct (get_db (approval.submit_approval request_id approval_data current_user) db)
    as [[e|out] db'] eqn:Hrun.
  - apply submit_approval_failure in Hrun as ->. exact Hwf.
  - apply submit_approval_success in Hrun as (st & _ & _ & Hreq & _ & -> & _).
    destruct Hwf as (Hnd & Hkeys & Hfk). cbn [snd].
    unfold well_formed. rewrite request_ids_decided, decided_request_approvals.
    split; [exact Hnd|]. split.
    + unfold decided. destruct (approval.new_status _ _); exact Hkeys.
    + apply Forall_app. split; [exact Hfk|].
      constructor; [|constructor]. cbn. apply first_request_in_ids, Hreq.
Qed.

Lemma request_ids_delete id db :
  request_ids (request.delete_request_row id db) = filter (λ k, k ≠ id) (request_ids db).
Proof.
  unfold request_ids, request.delete_request_row. cbn [vehicle_requests].
  induction (vehicle_requests db) as [|r l IH]; [reflexivity|].
  rewrite fmap_cons. destruct (decide (VehicleRequest.id r = id)) as [Hr|Hr].
  - rewrite !filter_cons_False by tauto. exact IH.
  - rewrite !filter_cons_True by exact Hr. rewrite fmap_cons, IH. reflexivity.
Qed.

Lemma well_formed_delete_row id db :
  well_formed db → well_formed (request.delete_request_row id db).
Proof.
  intros (Hnd & Hkeys & Hfk). unfold well_formed. rewrite request_ids_delete.
  split; [apply NoDup_filter, Hnd|]. split.
  - apply Forall_forall. intros k Hk. apply list_elem_of_filter in Hk as [_ Hk].
    rewrite Forall_forall in Hkeys. exact (Hkeys k Hk).
  - cbn [request_approvals request.delete_request_row].
    apply Forall_forall. intros a Ha. apply list_elem_of_filter in Ha as [Hne Ha].
    apply list_elem_of_filter. split; [exact Hne|].
    rewrite Forall_forall in Hfk. exact (Hfk a Ha).
Qed.

Lemma well_formed_serve c db : well_formed db → well_formed (serve c db).
Proof.
  intros Hwf. destruct c as [d now u|rid d u|id u]; cbn [serve].
  - apply well_formed_create, Hwf.
  - apply well_formed_submit, Hwf.
  - rewrite delete_request_db.
    destruct (first_request id db); [|exact Hwf].
    destruct (User.role u); [|exact Hwf].
    destruct (_ || _); [|exact Hwf].
    apply well_formed_delete_row, Hwf.
Qed.

(** X18.  The promises of the schema are kept by the handlers: a
    database without requests and approvals has unique request keys
    below the serial and approvals that reference existing requests,
    and so has every database reached from such a one by any sequence
    of create, submit-decision and delete calls, whatever their
    outcomes. *)
Theorem handlers_keep_tables_well_formed :
  (∀ db,
     vehicle_requests db = [] → request_approvals db = [] → well_formed db)
  ∧ (∀ cs db, well_formed db → well_formed (serve_all cs db))
  ∧ (∀ db,
       well_formed db →
       NoDup (VehicleRequest.id <$> vehicle_requests db)
       ∧ keys_below_serial db
       ∧ approvals_reference_requests db).
Proof.
  split; [|split].
  - intros db Hr Ha. unfold well_formed, request_ids. rewrite Hr, Ha. cbn.
    split; [apply NoDup_nil_2|]. split; constructor.
  - intros cs. induction cs as [|c cs IH]; intros db Hwf; [exact Hwf|].
    cbn. apply IH, well_formed_serve, Hwf.
  - intros db (Hnd & Hkeys & Hfk). split; [exact Hnd|]. split.
    + unfold keys_below_serial. unfold request_ids in Hkeys.
      apply Forall_fmap in Hkeys. exact Hkeys.
    + unfold approvals_reference_requests.
      eapply Forall_impl; [exact Hfk|]. cbn. intros a Ha.
      unfold request_ids in Ha. apply list_elem_of_fmap in Ha as (r & Hid & Hin).
      apply Exists_exists. exists r. split; [exact Hin|congruence].
Qed.

Lemma first_request_delete_other id other db :
  other ≠ id →
  first_request other (request.delete_request_row id db) = first_request other db.
Proof.
  intros Hother. unfold first_request, request.delete_request_row.
  cbn [vehicle_requests].
  induction (vehicle_requests db) as [|r l IH]; [reflexivity|].
  destruct (decide (VehicleRequest.id r = id)) as [Hr|Hr].
  - rewrite (filter_cons_False (λ r, VehicleRequest.id r ≠ id)) by tauto.
    rewrite (filter_cons_False (λ r, VehicleRequest.id r = other)) by congruence.
    exact IH.
  - rewrite (filter_cons_True (λ r, VehicleRequest.id r ≠ id)) by exact Hr.
    destruct (decide (VehicleRequest.id r = other)).
    + rewrite !(filter_cons_True (λ r, VehicleRequest.id r = other)) by assumption.
      reflexivity.
    + rewrite !(filter_cons_False (λ r, VehicleRequest.id r = other)) by assumption.
      exact IH.
Qed.

Lemma approvals_of_delete id other db :
  approvals_of other (request.delete_request_row id db)
  = if decide (other = id) then [] else approvals_of other db.
Proof.
  unfold approvals_of, request.delete_request_row. cbn [request_approvals].
  induction (request_approvals db) as [|a l IH].
  - destruct (decide _); reflexivity.
  - destruct (decide (RequestApproval.request_id a = id)) as [Ha|Ha].
    + rewrite (filter_cons_False (λ a, RequestApproval.request_id a ≠ id)) by tauto.
      rewrite IH. destruct (decide (other = id)) as [Ho|Ho]; [reflexivity|].
      rewrite (filter_cons_False (λ a, RequestApproval.request_id a = other))
        by congruence.
      reflexivity.
    + rewrite (filter_cons_True (λ a, RequestApproval.request_id a ≠ id)) by exact Ha.
      destruct (decide (RequestApproval.request_id a = other)) as [Hao|Hao].
      * rewrite !(filter_cons_True (λ a, RequestApproval.request_id a = other))
          by exact Hao.
        rewrite IH, decide_False by congruence.
        destruct (decide (other = id)); [congruence|reflexivity].
      * rewrite !(filter_cons_False (λ a, RequestApproval.request_id a = other))
          by exact Hao.
        exact IH.
Qed.

(** X19.  A successful delete removes the request together with its
    approval rows and nothing else: afterwards the id has no row and
    no approvals, fetching it or submitting a decision for it gives
    404, and every other request keeps its row and its approvals. *)
Theorem delete_request_cascades db id current_user db' :
  get_db (request.delete_request id current_user) db = (inr tt, db') →
  first_request id db' = None
  ∧ approvals_of id db' = []
  ∧ (∀ viewer,
       get_db (request.get_request_by_id id viewer) db'
       = (inl (HTTPException status.HTTP_404_NOT_FOUND), db'))
  ∧ (∀ approval_data approver,
       get_db (approval.submit_approval id approval_data approver) db'
       = (inl (HTTPException status.HTTP_404_NOT_FOUND), db'))
  ∧ (∀ other, other ≠ id →
       first_request other db' = first_request other db
       ∧ approvals_of other db' = approvals_of other db)
  ∧ user db' = user db.
Proof.
  rewrite delete_request_db.
  destruct (first_request id db); [|discriminate].
  destruct (User.role current_user); [|discriminate].
  destruct (_ || _); [|discriminate].
  intros [= <-].
  pose proof (first_request_deleted id db) as Hgone.
  split; [exact Hgone|].
  split; [rewrite approvals_of_delete, decide_True by reflexivity; reflexivity|].
  split; [intros viewer; rewrite get_request_by_id_db, Hgone; reflexivity|].
  split; [intros d u; rewrite submit_approval_db, Hgone; reflexivity|].
  split; [|reflexivity].
  intros other Hother. split; [apply first_request_delete_other, Hother|].
  rewrite approvals_of_delete, decide_False by exact Hother. reflexivity.
Qed.

Section fuel_update.

Context {float : Type}.
Context (fmul : float → float → float).
Context (round2 : float → float).
Context (le_zero : float → bool).

Lemma first_fuel_store_fuel_other (f : fuel.Fuel float) db k :
  k ≠ fuel.id f →
  fuel.first_fuel k (fuel.store_fuel f db) = fuel.first_fuel k db.
Proof.
  intros Hk. unfold fuel.first_fuel, fuel.store_fuel. cbn [fuel.fuel].
  induction (fuel.fuel db) as [|g l IH]; [reflexivity|].
  cbn [map]. destruct (decide (fuel.id g = fuel.id f)) as [Hg|Hg].
  - rewrite !filter_cons_False by congruence. exact IH.
  - destruct (decide (fuel.id g = k)).
    + rewrite !filter_cons_True by assumption. reflexivity.
    + rewrite !filter_cons_False by assumption. exact IH.
Qed.

(** X20.  An update touches one record and only the fields it names:
    an id without a row gives 404; a successful update keeps the id
    and the creation time of the record, keeps every one of vehicle,
    fuel type, quantity and price_little that the payload leaves out,
    takes the others from the payload, keeps the stored cost when the
    payload names none of quantity, price_little and cost, and leaves
    every other record reading as before. *)
Theorem update_fuel_record_touches_named_fields
    (db : fuel.FuelDatabase float) fuel_id update_data :
  (fuel.first_fuel fuel_id db = None →
   get_db (fuel.update_existing_fuel_record fmul round2 le_zero fuel_id update_data) db
   = (inl (HTTPException status.HTTP_404_NOT_FOUND), db))
  ∧ (∀ out db',
       get_db (fuel.update_existing_fuel_record fmul round2 le_zero fuel_id update_data)
              db
       = (inr out, db') →
       ∃ old new,
         fuel.first_fuel fuel_id db = Some old
         ∧ out = Some new
         ∧ fuel.first_fuel fuel_id db' = Some new
         ∧ fuel.id new = fuel.id old
         ∧ fuel.created_at new = fuel.created_at old
         ∧ fuel.vehicle_id new
           = default (fuel.vehicle_id old) (fuel.update_vehicle_id update_data)
         ∧ fuel.fuel_type_id new
           = default (fuel.fuel_type_id old) (fuel.update_fuel_type_id update_data)
         ∧ fuel.quantity new
           = default (fuel.quantity old) (fuel.update_quantity update_data)
         ∧ fuel.price_little new
           = default (fuel.price_little old) (fuel.update_price_little update_data)
         ∧ (fuel.update_quantity update_data = None →
            fuel.update_price_little update_data = None →
            fuel.update_cost update_data = None →
            fuel.cost new = fuel.cost old)
         ∧ (∀ other, other ≠ fuel_id →
              fuel.first_fuel other db' = fuel.first_fuel other db)
         ∧ fuel.vehicle db' = fuel.vehicle db
         ∧ fuel.fuel_type db' = fuel.fuel_type db).
Proof.
  split.
  - intros Hnone. unfold get_db, fuel.update_existing_fuel_record.
    unfold mbind at 1, M_bind at 1, query at 1. cbn [working]. rewrite Hnone.
    reflexivity.
  - intros out db' Hrun.
    apply update_existing_fuel_record_success in Hrun as (old & Hold & Hdb & Hout).
    cbn zeta in Hdb. pose proof (first_fuel_id _ _ _ Hold) as Hid.
    match type of Hdb with
    | _ = fuel.store_fuel (fuel.setattr_all ?w _) _ => set (written := w) in *
    end.
    assert (fuel.first_fuel fuel_id db' = Some (fuel.setattr_all written old)) as Hnew.
    { rewrite Hdb, <- Hid.
      change (fuel.id old) with (fuel.id (fuel.setattr_all written old)) at 1.
      rewrite first_fuel_store_fuel.
      change (fuel.id (fuel.setattr_all written old)) with (fuel.id old).
      rewrite Hid, Hold. reflexivity. }
    exists old, (fuel.setattr_all written old).
    split; [exact Hold|]. split; [rewrite Hout, Hid; exact Hnew|].
    split; [exact Hnew|]. split; [reflexivity|]. split; [reflexivity|].
    assert (fuel.update_vehicle_id written = fuel.update_vehicle_id update_data
            ∧ fuel.update_fuel_type_id written = fuel.update_fuel_type_id update_data
            ∧ fuel.update_quantity written = fuel.update_quantity update_data
            ∧ fuel.update_price_little written = fuel.update_price_little update_data)
      as (Hv & Ht & Hq & Hp).
    { unfold written.
      destruct (fuel.update_quantity update_data) eqn:Eq,
        (fuel.update_price_little update_data) eqn:Ep;
        cbn; rewrite ?Eq, ?Ep; repeat split; reflexivity. }
    split; [cbn; rewrite Hv; reflexivity|].
    split; [cbn; rewrite Ht; reflexivity|].
    split; [cbn; rewrite Hq; reflexivity|].
    split; [cbn; rewrite Hp; reflexivity|].
    split.
    { intros Hnq Hnp Hnc. unfold written. rewrite Hnq, Hnp. cbn. rewrite Hnc.
      reflexivity. }
    split.
    { intros other Hother. rewrite Hdb. apply first_fuel_store_fuel_other.
      cbn. congruence. }
    rewrite Hdb. split; reflexivity.
Qed.

End fuel_update.

(** * The further statements on sample data *)

Lemma get_my_requests_own_rows_witness :
  get_db (request.get_my_requests requester (-1) 0) two_requests_db
  = (inl DataError, two_requests_db)
  ∧ ∃ rows,
      get_db (request.get_my_requests requester 1 0) two_requests_db
      = (inr (take 1 (drop 0 rows)), two_requests_db)
      ∧ rows ≡ₚ vehicle_requests two_requests_db
      ∧ take 1 (drop 0 rows) = [sample_request 2 approved_by_chef 200 (Some 1)].
Proof.
  pose proof (get_my_requests_own_rows two_requests_db requester (-1) 0) as [Hneg _].
  pose proof (get_my_requests_own_rows two_requests_db requester 1 0) as [_ Hpage].
  split; [apply Hneg; left; lia|].
  destruct Hpage as (rows & Hrun & Hperm & _); [lia..|].
  cbn zeta in Hrun. exists rows. split; [exact Hrun|]. split; [exact Hperm|].
  assert (get_db (request.get_my_requests requester 1 0) two_requests_db
          = (inr [sample_request 2 approved_by_chef 200 (Some 1)], two_requests_db))
    as Hval by (vm_compute; reflexivity).
  rewrite Hrun in Hval. injection Hval as Hval. exact Hval.
Defined.

Lemma get_request_by_id_authorization_witness :
  get_db (request.get_request_by_id 1 requester) sample_db
  = (inr (sample_request 1 pending 100 (Some 1)), sample_db)
  ∧ get_db (request.get_request_by_id 1 chef) sample_db
    = (inr (sample_request 1 pending 100 (Some 1)), sample_db)
  ∧ get_db (request.get_request_by_id 9 requester) sample_db
    = (inl (HTTPException status.HTTP_404_NOT_FOUND), sample_db).
Proof.
  pose proof (get_request_by_id_authorization sample_db 1 requester) as [_ Howner].
  pose proof (get_request_by_id_authorization sample_db 1 chef) as [_ Hchef].
  pose proof (get_request_by_id_authorization sample_db 9 requester) as [Hmissing _].
  specialize (Howner (sample_request 1 pending 100 (Some 1)) eq_refl).
  specialize (Hchef (sample_request 1 pending 100 (Some 1)) eq_refl).
  cbn zeta in Howner, Hchef.
  destruct Howner as (_ & _ & Howner). destruct Hchef as (Hchef & _).
  split; [|split].
  - apply Howner. reflexivity.
  - apply Hchef. right. right. split; [reflexivity|].
    exists 7, requester. repeat split; reflexivity.
  - apply Hmissing. reflexivity.
Defined.

Lemma listed_request_can_be_fetched_witness :
  get_db (request.get_requests logistic 10 0) two_requests_db
  = (inr [sample_request 2 approved_by_chef 200 (Some 1)], two_requests_db)
  ∧ get_db (request.get_request_by_id 2 logistic) two_requests_db
    = (inr (sample_request 2 approved_by_chef 200 (Some 1)), two_requests_db).
Proof.
  assert (get_db (request.get_requests logistic 10 0) two_requests_db
          = (inr [sample_request 2 approved_by_chef 200 (Some 1)], two_requests_db))
    as Hrun by (vm_compute; reflexivity).
  split; [exact Hrun|].
  apply (listed_request_can_be_fetched two_requests_db logistic 10 0
           [sample_request 2 approved_by_chef 200 (Some 1)] two_requests_db
           (sample_request 2 approved_by_chef 200 (Some 1))).
  - apply (bool_decide_unpack _). vm_compute. exact I.
  - apply (bool_decide_unpack _). vm_compute. exact I.
  - exact Hrun.
  - constructor.
Defined.

Lemma decision_on_pending_request_lowers_count_witness :
  ∃ n,
    get_db request.get_pending_requests_count sample_db = (inr (n + 1), sample_db)
    ∧ get_db request.get_pending_requests_count denied_db = (inr n, denied_db).
Proof.
  apply (decision_on_pending_request_lowers_count sample_db 1 deny chef
           (approval.reload_request 1 denied_db) denied_db).
  - apply (bool_decide_unpack _). vm_compute. exact I.
  - reflexivity.
  - right. reflexivity.
  - reflexivity.
Defined.

Lemma submit_approval_leaves_other_requests_witness :
  first_request 1
    (get_db (approval.submit_approval 2 approve chef) two_requests_db).2
  = first_request 1 two_requests_db.
Proof.
  apply (submit_approval_leaves_other_requests two_requests_db 2 approve chef 1).
  discriminate.
Defined.

Lemma submit_approval_case_insensitive_witness :
  get_db (approval.submit_approval 1 deny chef) sample_db
  = get_db (approval.submit_approval 1
              (approval.mkRequestApprovalUpdate "DENIED" None)
              (sample_user 2 None "CHEF")) sample_db.
Proof.
  apply submit_approval_case_insensitive; reflexivity.
Defined.

Lemma at_most_three_approvals_per_request_witness :
  (length (approvals_of 1
             (serve_all [SubmitApproval 1 approve chef; SubmitApproval 1 approve chef;
                         SubmitApproval 1 deny logistic; SubmitApproval 1 approve admin;
                         SubmitApproval 1 approve charoi]
                        sample_db)) ≤ 3)%nat.
Proof.
  apply (at_most_three_approvals_per_request _ sample_db 1). reflexivity.
Defined.

Lemma pending_decision_uses_up_step_witness :
  ∃ out db',
    get_db (approval.submit_approval 1
              (approval.mkRequestApprovalUpdate "Pending" None) chef) sample_db
    = (inr out, db')
    ∧ vehicle_requests db' = vehicle_requests sample_db
    ∧ get_db (approval.submit_approval 1 approve chef) db'
      = (inl (HTTPException status.HTTP_409_CONFLICT), db').
Proof.
  destruct (pending_decision_uses_up_step sample_db 1
              (approval.mkRequestApprovalUpdate "Pending" None) chef 1)
    as (out & db' & Hrun & Hsame & _ & Hlater).
  - reflexivity.
  - reflexivity.
  - discriminate.
  - vm_compute. eauto.
  - reflexivity.
  - exists out, db'. split; [exact Hrun|]. split; [exact Hsame|].
    apply Hlater. reflexivity.
Defined.

Lemma role_checks_compare_lower_case_witness :
  get_db (oauth2.require_role_for_api ["Admin"; "superadmin"] admin) sample_db
  = (inr admin, sample_db)
  ∧ get_db (oauth2.require_role_for_page ["Admin"; "superadmin"]
              (User.mk 6 None None)) sample_db
    = (inl (HTTPException status.HTTP_403_FORBIDDEN), sample_db).
Proof.
  assert (Forall (λ a, isascii a = true) ["Admin"; "superadmin"]) as Hascii
    by (repeat constructor).
  pose proof (role_checks_compare_lower_case oauth2.require_role_for_api
                ["Admin"; "superadmin"] admin sample_db) as Hadmin.
  pose proof (role_checks_compare_lower_case oauth2.require_role_for_page
                ["Admin"; "superadmin"] (User.mk 6 None None) sample_db) as Hnone.
  split.
  - destruct Hadmin as (_ & Hrole & _).
    + rewrite !elem_of_cons. auto.
    + exact Hascii.
    + intros r [= <-]. reflexivity.
    + apply (Hrole (Role.mk "ADMIN") eq_refl). exists "Admin".
      split; [constructor|reflexivity].
  - destruct Hnone as (_ & _ & Hnone).
    + rewrite !elem_of_cons. auto.
    + exact Hascii.
    + intros r [=].
    + apply Hnone; [reflexivity|].
      rewrite !not_elem_of_cons. repeat split; try discriminate.
      apply not_elem_of_nil.
Defined.

Lemma login_cookie_round_trip_witness :
  get_db (oauth2.get_current_active_user sample_verify
            (Some (login_cookie "abc.def.ghi")) None) sample_accounts
  = get_db (oauth2.get_current_user_from_header sample_verify (Some "abc.def.ghi"))
      sample_accounts
  ∧ get_db (oauth2.get_current_user_from_header sample_verify (Some "abc.def.ghi"))
      sample_accounts
    = (inr chef, sample_accounts).
Proof.
  destruct (login_cookie_round_trip sample_verify "abc.def.ghi") as (Hcookie & _).
  - cbn. repeat split; discriminate.
  - discriminate.
  - split; [|reflexivity]. unfold get_db. rewrite Hcookie; reflexivity.
Defined.

Lemma authenticated_user_is_active_account_witness :
  get_db (oauth2.get_current_user_from_header sample_verify (Some "abc.def.ghi"))
    sample_accounts
  = (inr chef, sample_accounts)
  ∧ ∃ t user_id account,
      t ≠ EmptyString
      ∧ sample_verify t (HTTPException oauth2.HTTP_401_UNAUTHORIZED) = inr user_id
      ∧ account ∈ sample_accounts
      ∧ User.id (oauth2.account_user account) = user_id
      ∧ oauth2.account_status account = "active"
      ∧ chef = oauth2.account_user account.
Proof.
  split; [reflexivity|].
  apply (proj1 (authenticated_user_is_active_account sample_verify sample_accounts
                  chef sample_accounts) (Some "abc.def.ghi")).
  reflexivity.
Defined.

Lemma created_fuel_record_is_read_back_witness :
  fuel_keys_below_serial sample_fuel_db
  ∧ ∃ out db',
      get_db (fuel.create_new_fuel_record Z.mul id sample_le_zero sample_fuel_create 60)
             sample_fuel_db = (inr out, db')
      ∧ out = Some (fuel.mkFuel 2 2 1 30 2 60 60)
      ∧ get_db (fuel.read_fuel_record_by_id 2) db'
        = (inr (fuel.mkFuel 2 2 1 30 2 60 60), db').
Proof.
  assert (fuel_keys_below_serial sample_fuel_db) as Hkeys
    by (repeat constructor; cbn; lia).
  split; [exact Hkeys|]. eexists _, _. split; [vm_compute; reflexivity|].
  destruct (created_fuel_record_is_read_back Z.mul id sample_le_zero sample_fuel_db
              sample_fuel_create 60 _ _ Hkeys eq_refl) as (Hout & Hread & _).
  split; [exact Hout|exact Hread].
Defined.

Lemma delete_fuel_record_removes_it_witness :
  ∃ db',
    get_db (fuel.delete_existing_fuel_record 1) sample_fuel_db = (inr tt, db')
    ∧ get_db (fuel.read_fuel_record_by_id 1) db'
      = (inl (HTTPException status.HTTP_404_NOT_FOUND), db').
Proof.
  destruct (proj1 (proj2 (delete_fuel_record_removes_it Z.mul id sample_le_zero 1
                            sample_fuel_db)))
    as (db' & Hdelete & Hread & _).
  - vm_compute. eauto.
  - exists db'. split; assumption.
Defined.

Lemma fuel_writes_are_all_or_nothing_witness :
  get_db (fuel.update_existing_fuel_record Z.mul id sample_le_zero 1
            (fuel.mkFuelUpdatePayload None None (Some 0) None None)) sample_fuel_db
  = (inl (HTTPException status.HTTP_400_BAD_REQUEST), sample_fuel_db)
  ∧ ∃ e',
      get_db (fuel.update_existing_fuel_record Z.mul id sample_le_zero 1
                (fuel.mkFuelUpdatePayload None None (Some 0) None None)) sample_fuel_db
      = (inl e', sample_fuel_db).
Proof.
  split; [reflexivity|].
  apply (proj2 (proj2 (proj2 (fuel_writes_are_all_or_nothing Z.mul id sample_le_zero
                                sample_fuel_db (HTTPException 400) sample_fuel_db)))).
  left. exists 0. split; reflexivity.
Defined.

Lemma fuel_eligibility_rule_witness :
  (∃ response,
     get_db (fuel.check_fuel_eligibility sample_strftime 1) sample_fleet_db
     = (inr response, sample_fleet_db)
     ∧ fuel.eligible response = true)
  ∧ get_db (fuel.check_fuel_eligibility sample_strftime 9) sample_fleet_db
    = (inl (HTTPException status.HTTP_404_NOT_FOUND), sample_fleet_db).
Proof.
  pose proof (fuel_eligibility_rule sample_strftime sample_fleet_db 1) as [_ Hknown].
  pose proof (fuel_eligibility_rule sample_strftime sample_fleet_db 9) as [Hmissing _].
  split; [|apply Hmissing; reflexivity].
  destruct (Hknown (Vehicle.mk 1 (Some "available")) eq_refl)
    as (response & Hrun & Hrule).
  exists response. split; [exact Hrun|]. apply Hrule.
  split; [reflexivity|]. right.
  exists (Trip.mk 1 1 "Completed" (Some 70)), 70.
  split; [constructor|]. repeat split.
  intros f Hf _. apply list_elem_of_singleton in Hf as ->. cbn. lia.
Defined.

Lemma handlers_keep_tables_well_formed_witness :
  well_formed (mkDatabase [requester; chef] [] 1 [] 1)
  ∧ well_formed
      (serve_all [CreateRequest sample_create 300 requester;
                  SubmitApproval 1 approve chef; DeleteRequest 1 requester]
                 (mkDatabase [requester; chef] [] 1 [] 1)).
Proof.
  assert (well_formed (mkDatabase [requester; chef] [] 1 [] 1)) as Hwf
    by (apply (proj1 handlers_keep_tables_well_formed); reflexivity).
  split; [exact Hwf|].
  apply (proj1 (proj2 handlers_keep_tables_well_formed)). exact Hwf.
Defined.

Lemma delete_request_cascades_witness :
  get_db (request.delete_request 1 admin) denied_db
  = (inr tt, request.delete_request_row 1 denied_db)
  ∧ approvals_of 1 denied_db ≠ []
  ∧ approvals_of 1 (request.delete_request_row 1 denied_db) = [].
Proof.
  split; [reflexivity|]. split; [vm_compute; discriminate|].
  apply (delete_request_cascades denied_db 1 admin). reflexivity.
Defined.

Lemma update_fuel_record_touches_named_fields_witness :
  ∃ old new out db',
    get_db (fuel.update_existing_fuel_record Z.mul id sample_le_zero 1
              sample_fuel_update) sample_fuel_db = (inr out, db')
    ∧ fuel.first_fuel 1 sample_fuel_db = Some old
    ∧ out = Some new
    ∧ fuel.created_at new = fuel.created_at old
    ∧ fuel.price_little new = fuel.price_little old.
Proof.
  destruct (proj2 (update_fuel_record_touches_named_fields Z.mul id sample_le_zero
                     sample_fuel_db 1 sample_fuel_update) _ _ eq_refl)
    as (old & new & Hold & Hout & _ & _ & Hcreated & _ & _ & _ & Hprice & _).
  exists old, new. eexists _, _. split; [reflexivity|].
  split; [exact Hold|]. split; [exact Hout|]. split; [exact Hcreated|exact Hprice].
Defined.
